(** * WhatsApp ingestion core: message handler (QR bridge) and cloud webhook

    A shallow embedding of
      - [src/server/services/message-handler.ts]  (MessageHandler.handleIncomingMessage)
      - [src/server/whatsapp/webhook.ts]          (verifySignature, the GET and POST webhook routes)

    Modelling conventions.
      - The relational database is a record of tables; a table is the list of
        its rows in insertion order.  [select ... where p limit 1] is
        [List.find p], an [update ... where p] maps over every row satisfying
        [p], an [insert] appends a row whose primary key is the next
        AUTO_INCREMENT value.
      - Instants are integers: milliseconds since the epoch.  A handler
        invocation reads the wall clock once; the reading is the argument
        [now].  A [Date] built from a number of the input is an Invalid Date
        when the number is beyond the range of time values ([JS.newDate]);
        an Invalid Date compares false with every date, and an [insert] or
        [update] that is handed one throws before anything is written (the
        driver value of a date is its [toISOString()]).
      - The database handle is available ([getDb()] is non-null) and the
        database itself accepts every statement it receives.
      - A statement inside a [try] block either completes or throws; what it
        and the statements before it wrote stays, the statements after it do
        not run.
      - Nullable columns and optional JSON properties are [option]s; the
        JavaScript truthiness tests of the source are written out. *)

From Stdlib Require Import ZArith List String Ascii Bool Lia.
Import ListNotations.

Local Open Scope string_scope.
Local Open Scope list_scope.
Local Open Scope Z_scope.

(** ** JavaScript runtime helpers *)

Module JS.

(** Truthiness of a possibly-missing string: [undefined], [null] and the
    empty string are falsy. *)
Definition truthy (v : option string) : bool :=
  match v with
  | Some s => negb (s =? "")%string
  | None => false
  end.

(** [a || b] on possibly-missing strings. *)
Definition or (a b : option string) : option string :=
  if truthy a then a else b.

(** [a ?? d] with a string default. *)
Definition nullish (a : option string) (d : string) : string :=
  match a with
  | Some s => s
  | None => d
  end.

(** [a || d] with a string default *)
Definition orStr (a : option string) (d : string) : string :=
  match a with
  | Some s => if (s =? "")%string then d else s
  | None => d
  end.

(** [v ? String(v) : null] *)
Definition strOrNull (v : option string) : option string :=
  if truthy v then v else None.

(** [hay.startsWith(pre)] *)
Definition startsWith (hay pre : string) : bool := String.prefix pre hay.

(** [hay.includes(needle)] *)
Fixpoint includes (hay needle : string) : bool :=
  String.prefix needle hay ||
  match hay with
  | EmptyString => false
  | String _ rest => includes rest needle
  end.

(** [s.slice(n)] for [0 <= n] *)
Fixpoint slice (s : string) (n : nat) {struct n} : string :=
  match n, s with
  | O, _ => s
  | S _, EmptyString => EmptyString
  | S k, String _ rest => slice rest k
  end.

(** The greatest time value of a [Date], in milliseconds: 100,000,000 days
    on either side of the epoch. *)
Definition maxTime : Z := 8640000000000000.

(** [new Date(ms)] for an integral number of milliseconds: [None] is an
    Invalid Date. *)
Definition newDate (ms : Z) : option Z :=
  if Z.abs ms <=? maxTime then Some ms else None.

(** [s.split(sep)[0]]: the part of [s] before the first [sep]. *)
Fixpoint splitHead (s : string) (sep : ascii) : string :=
  match s with
  | EmptyString => EmptyString
  | String c rest =>
      if Ascii.eqb c sep then EmptyString else String c (splitHead rest sep)
  end.

End JS.

(** ** Data model (the columns of [drizzle/schema] that the two handlers touch) *)

Inductive ConnectionType := api | qr.
Inductive Direction := inbound | outbound.
Inductive MessageType :=
  text | image | video | audio | document | sticker | location | contact.
Inductive MessageStatus := msgSent | msgDelivered | msgRead | msgFailed.
Inductive RecipientStatus := pending | sent | delivered | read | failed.
Inductive ConversationStatus := active | archived.
Inductive UpsertType := append | notify.

Definition ConnectionType_eqb (a b : ConnectionType) : bool :=
  match a, b with
  | api, api | qr, qr => true
  | _, _ => false
  end.

Definition RecipientStatus_eqb (a b : RecipientStatus) : bool :=
  match a, b with
  | pending, pending | sent, sent | delivered, delivered
  | read, read | failed, failed => true
  | _, _ => false
  end.

Definition UpsertType_eqb (a b : UpsertType) : bool :=
  match a, b with
  | append, append | notify, notify => true
  | _, _ => false
  end.

Definition optZ_eqb (a : option Z) (b : Z) : bool :=
  match a with
  | Some x => x =? b
  | None => false
  end.

Definition optString_eqb (a : option string) (b : string) : bool :=
  match a with
  | Some x => (x =? b)%string
  | None => false
  end.

Definition optConn_eqb (a : option ConnectionType) (b : ConnectionType) : bool :=
  match a with
  | Some x => ConnectionType_eqb x b
  | None => false
  end.

Module Lead.
Record t := mk {
  id : Z;
  name : string;
  phone : string;
  country : string;
  pipelineStageId : option Z;
  kanbanOrder : Z;
  source : string;
  createdAt : Z;
  updatedAt : Z;
  lastContactedAt : option Z
}.

Definition setLastContactedAt (v : option Z) (l : t) : t :=
  mk (id l) (name l) (phone l) (country l) (pipelineStageId l)
     (kanbanOrder l) (source l) (createdAt l) (updatedAt l) v.
End Lead.

Module Conversation.
Record t := mk {
  id : Z;
  channel : string;
  whatsappNumberId : Z;
  whatsappConnectionType : option ConnectionType;
  externalChatId : option string;
  leadId : option Z;
  contactPhone : string;
  contactName : option string;
  unreadCount : Z;
  lastMessageAt : option Z;
  status : ConversationStatus
}.

(** The object handed to [db.update(conversations).set(...)]: a column is
    written when the property is present. *)
Record patch := mkPatch {
  setContactName : option string;
  setUnreadCount : option Z;
  setLastMessageAt : option Z;
  setStatus : option ConversationStatus
}.

Definition emptyPatch : patch := mkPatch None None None None.

(** [Object.keys(updates).length > 0] *)
Definition hasKeys (p : patch) : bool :=
  match setContactName p, setUnreadCount p, setLastMessageAt p, setStatus p with
  | None, None, None, None => false
  | _, _, _, _ => true
  end.

Definition apply (p : patch) (c : t) : t :=
  mk (id c) (channel c) (whatsappNumberId c) (whatsappConnectionType c)
     (externalChatId c) (leadId c) (contactPhone c)
     (match setContactName p with Some n => Some n | None => contactName c end)
     (match setUnreadCount p with Some n => n | None => unreadCount c end)
     (match setLastMessageAt p with Some d => Some d | None => lastMessageAt c end)
     (match setStatus p with Some s => s | None => status c end).
End Conversation.

Module ChatMessage.
Record t := mk {
  id : Z;
  conversationId : Z;
  whatsappNumberId : Z;
  whatsappConnectionType : ConnectionType;
  direction : Direction;
  messageType : MessageType;
  content : option string;
  mediaUrl : option string;
  mediaMimeType : option string;
  latitude : option string;
  longitude : option string;
  locationName : option string;
  status : MessageStatus;
  whatsappMessageId : option string;
  sentAt : option Z;
  deliveredAt : option Z;
  readAt : option Z;
  createdAt : Z
}.

(** The [patch] object of the status handler. *)
Record patch := mkPatch {
  setStatus : option MessageStatus;
  setSentAt : option Z;
  setDeliveredAt : option Z;
  setReadAt : option Z
}.

Definition emptyPatch : patch := mkPatch None None None None.

Definition hasKeys (p : patch) : bool :=
  match setStatus p, setSentAt p, setDeliveredAt p, setReadAt p with
  | None, None, None, None => false
  | _, _, _, _ => true
  end.

Definition apply (p : patch) (m : t) : t :=
  mk (id m) (conversationId m) (whatsappNumberId m) (whatsappConnectionType m)
     (direction m) (messageType m) (content m) (mediaUrl m) (mediaMimeType m)
     (latitude m) (longitude m) (locationName m)
     (match setStatus p with Some s => s | None => status m end)
     (whatsappMessageId m)
     (match setSentAt p with Some d => Some d | None => sentAt m end)
     (match setDeliveredAt p with Some d => Some d | None => deliveredAt m end)
     (match setReadAt p with Some d => Some d | None => readAt m end)
     (createdAt m).
End ChatMessage.

Module Pipeline.
Record t := mk { id : Z; isDefault : bool }.
End Pipeline.

Module PipelineStage.
Record t := mk { id : Z; pipelineId : Z; order : Z }.
End PipelineStage.

Module WhatsappConnection.
Record t := mk { whatsappNumberId : Z; phoneNumberId : option string }.
End WhatsappConnection.

Module CampaignRecipient.
Record t := mk {
  id : Z;
  campaignId : Z;
  whatsappMessageId : option string;
  status : option RecipientStatus;
  sentAt : option Z;
  deliveredAt : option Z;
  readAt : option Z;
  errorMessage : option string
}.
End CampaignRecipient.

Module Campaign.
Record t := mk {
  id : Z;
  messagesDelivered : Z;
  messagesRead : Z;
  messagesFailed : Z
}.
End Campaign.

(** The database: one list of rows per table. *)
Record Db := mkDb {
  leads : list Lead.t;
  conversations : list Conversation.t;
  chatMessages : list ChatMessage.t;
  pipelines : list Pipeline.t;
  pipelineStages : list PipelineStage.t;
  whatsappConnections : list WhatsappConnection.t;
  campaignRecipients : list CampaignRecipient.t;
  campaigns : list Campaign.t
}.

Definition withLeads (v : list Lead.t) (db : Db) : Db :=
  mkDb v (conversations db) (chatMessages db) (pipelines db) (pipelineStages db)
       (whatsappConnections db) (campaignRecipients db) (campaigns db).

Definition withConversations (v : list Conversation.t) (db : Db) : Db :=
  mkDb (leads db) v (chatMessages db) (pipelines db) (pipelineStages db)
       (whatsappConnections db) (campaignRecipients db) (campaigns db).

Definition withChatMessages (v : list ChatMessage.t) (db : Db) : Db :=
  mkDb (leads db) (conversations db) v (pipelines db) (pipelineStages db)
       (whatsappConnections db) (campaignRecipients db) (campaigns db).

Definition withCampaignRecipients (v : list CampaignRecipient.t) (db : Db) : Db :=
  mkDb (leads db) (conversations db) (chatMessages db) (pipelines db)
       (pipelineStages db) (whatsappConnections db) v (campaigns db).

Definition withCampaigns (v : list Campaign.t) (db : Db) : Db :=
  mkDb (leads db) (conversations db) (chatMessages db) (pipelines db)
       (pipelineStages db) (whatsappConnections db) (campaignRecipients db) v.

(** ** Query helpers *)

(** [update(table).set(f).where(p)] *)
Definition updateWhere {A} (p : A -> bool) (f : A -> A) (rows : list A) : list A :=
  map (fun r => if p r then f r else r) rows.

(** The next AUTO_INCREMENT value of a table with the given primary keys. *)
Definition nextId (ids : list Z) : Z :=
  fold_right Z.max 0 ids + 1.

(** SQL [max(col)]: [NULL] over no rows. *)
Definition sqlMax (vals : list Z) : option Z :=
  match vals with
  | [] => None
  | v :: rest => Some (fold_right Z.max v rest)
  end.

(** [order by key asc limit 1]: the first row among those of least key. *)
Fixpoint firstByAsc {A} (key : A -> Z) (rows : list A) : option A :=
  match rows with
  | [] => None
  | r :: rest =>
      match firstByAsc key rest with
      | Some r' => if key r' <? key r then Some r' else Some r
      | None => Some r
      end
  end.

(** ** The QR-bridge message object (Baileys [WAMessage], the fields read) *)

Module Baileys.
Record MessageKey := mkKey {
  remoteJid : option string;
  id : string;
  fromMe : bool
}.

Record ExtendedTextMessage := mkExtendedText { text : option string }.

(** Image, video, audio, document and sticker sub-messages; only their
    presence and the caption are read. *)
Record MediaMessage := mkMedia { caption : option string }.

Record Message := mkMessage {
  conversation : option string;
  extendedTextMessage : option ExtendedTextMessage;
  imageMessage : option MediaMessage;
  videoMessage : option MediaMessage;
  audioMessage : option MediaMessage;
  documentMessage : option MediaMessage;
  stickerMessage : option MediaMessage;
  (** the other content kinds present on the object (locationMessage,
      contactMessage, reactionMessage, ...), which the handler never reads *)
  otherKinds : list string
}.

Record WAMessage := mkWAMessage {
  key : MessageKey;
  message : option Message;
  pushName : option string;
  (** seconds since the epoch *)
  messageTimestamp : option Z
}.
End Baileys.

(** Optional chaining [o?.f]. *)
Definition chain {A B} (o : option A) (f : A -> option B) : option B :=
  match o with
  | Some a => f a
  | None => None
  end.

(** [o ? label : null] *)
Definition ifPresent {A} (o : option A) (label : string) : option string :=
  match o with
  | Some _ => Some label
  | None => None
  end.

Module MessageHandler.

(** message-handler.ts:30-39, the [text] of a message *)
Definition textOf (message : Baileys.WAMessage) : string :=
  let m := Baileys.message message in
  JS.orStr
    (JS.or (chain m Baileys.conversation)
    (JS.or (chain (chain m Baileys.extendedTextMessage) Baileys.text)
    (JS.or (chain (chain m Baileys.imageMessage) Baileys.caption)
    (JS.or (chain (chain m Baileys.videoMessage) Baileys.caption)
    (JS.or (ifPresent (chain m Baileys.imageMessage) "Image")
    (JS.or (ifPresent (chain m Baileys.videoMessage) "Video")
    (JS.or (ifPresent (chain m Baileys.audioMessage) "Audio")
    (JS.or (ifPresent (chain m Baileys.documentMessage) "Document")
           (ifPresent (chain m Baileys.stickerMessage) "Sticker")))))))))
    "Media/Unknown".

(** message-handler.ts:157-162, the [msgType] of a message *)
Definition msgTypeOf (message : Baileys.WAMessage) : MessageType :=
  let m := Baileys.message message in
  match chain m Baileys.imageMessage with
  | Some _ => image
  | None =>
  match chain m Baileys.videoMessage with
  | Some _ => video
  | None =>
  match chain m Baileys.audioMessage with
  | Some _ => audio
  | None =>
  match chain m Baileys.documentMessage with
  | Some _ => document
  | None =>
  match chain m Baileys.stickerMessage with
  | Some _ => sticker
  | None => text
  end end end end end.

(** message-handler.ts:42
    [message.messageTimestamp ? new Date(Number(ts) * 1000) : new Date()];
    [None] is an Invalid Date *)
Definition timestampOf (message : Baileys.WAMessage) (now : Z) : option Z :=
  match Baileys.messageTimestamp message with
  | Some ts => if ts =? 0 then Some now else JS.newDate (ts * 1000)
  | None => Some now
  end.

(** message-handler.ts:46, ['+' + jid.split('@')[0]] *)
Definition phoneOf (jid : string) : string :=
  ("+" ++ JS.splitHead jid "@"%char)%string.

(** message-handler.ts:47, [message.pushName || "Unknown"] *)
Definition contactNameOf (message : Baileys.WAMessage) : string :=
  JS.orStr (Baileys.pushName message) "Unknown".

(** message-handler.ts:13, the identities that are skipped *)
Definition skipped (jid : option string) : bool :=
  match jid with
  | None => true
  | Some j =>
      (j =? "")%string || JS.includes j "status@broadcast" || JS.includes j "@lid"
  end.

(** message-handler.ts:19-22, the idempotency lookup *)
Definition findExistingMessage (db : Db) (waId : string) : option ChatMessage.t :=
  find (fun r => optString_eqb (ChatMessage.whatsappMessageId r) waId
                 && ConnectionType_eqb (ChatMessage.whatsappConnectionType r) qr)
       (chatMessages db).

(** message-handler.ts:52 *)
Definition findLead (db : Db) (phoneNumber : string) : option Lead.t :=
  find (fun l => (Lead.phone l =? phoneNumber)%string) (leads db).

(** message-handler.ts:67-85: the default pipeline stage and the kanban
    order of a new lead, [(stageId, nextOrder)] *)
Definition defaultPlacement (db : Db) : option Z * Z :=
  match find Pipeline.isDefault (pipelines db) with
  | Some defaultPipeline =>
      match firstByAsc PipelineStage.order
              (filter (fun s => PipelineStage.pipelineId s =? Pipeline.id defaultPipeline)
                      (pipelineStages db)) with
      | Some firstStage =>
          let stageId := PipelineStage.id firstStage in
          let max := sqlMax (map Lead.kanbanOrder
                              (filter (fun l => optZ_eqb (Lead.pipelineStageId l) stageId)
                                      (leads db))) in
          (Some stageId, match max with Some v => v | None => 0 end + 1)
      | None => (None, 0)
      end
  | None => (None, 0)
  end.

(** message-handler.ts:50-99: find or create the lead; returns the database
    and [leadId], or [None] in its place when the [insert] throws (its
    [lastContactedAt] is an Invalid Date) *)
Definition resolveLead (message : Baileys.WAMessage) (jid : string)
           (upsertType : UpsertType) (now : Z) (db : Db) : Db * option Z :=
  let phoneNumber := phoneOf jid in
  let contactName := contactNameOf message in
  match findLead db phoneNumber with
  | Some existingLead =>
      let leadId := Lead.id existingLead in
      if UpsertType_eqb upsertType notify then
        (withLeads (updateWhere (fun l => Lead.id l =? leadId)
                                (Lead.setLastContactedAt (Some now)) (leads db)) db,
         Some leadId)
      else (db, Some leadId)
  | None =>
      let '(stageId, nextOrder) := defaultPlacement db in
      match timestampOf message now with
      | None => (db, None)
      | Some messageTimestamp =>
          let leadId := nextId (map Lead.id (leads db)) in
          let newLead :=
            Lead.mk leadId
                    (if negb (contactName =? "Unknown")%string
                     then contactName else phoneNumber)
                    phoneNumber "Unknown" stageId nextOrder "whatsapp_inbound"
                    now now (Some messageTimestamp) in
          (withLeads (leads db ++ [newLead]) db, Some leadId)
      end
  end.

(** message-handler.ts:103-111 *)
Definition findConversation (db : Db) (leadId userId : Z) (jid : string)
  : option Conversation.t :=
  find (fun c => optZ_eqb (Conversation.leadId c) leadId
                 && (Conversation.whatsappNumberId c =? userId)
                 && (Conversation.channel c =? "whatsapp")%string
                 && optConn_eqb (Conversation.whatsappConnectionType c) qr
                 && optString_eqb (Conversation.externalChatId c) jid)
       (conversations db).

(** message-handler.ts:120-133, the [updates] object for an existing
    conversation ([unreadCount] is a non-null counter, so
    [unreadCount || 0] is [unreadCount]).  [None] stands for the object whose
    [lastMessageAt] is an Invalid Date, which [set(updates)] throws on; the
    comparison of line 130 is false for an Invalid Date. *)
Definition conversationUpdates (existingConv : Conversation.t)
           (upsertType : UpsertType) (fromMe : bool)
           (messageTimestamp : option Z) (now : Z) : option Conversation.patch :=
  if UpsertType_eqb upsertType notify && negb fromMe then
    Some (Conversation.mkPatch None
            (Some (Conversation.unreadCount existingConv + 1))
            (Some now)
            (Some active))
  else if UpsertType_eqb upsertType append || fromMe then
    match Conversation.lastMessageAt existingConv, messageTimestamp with
    | None, Some ts => Some (Conversation.mkPatch None None (Some ts) None)
    | None, None => None
    | Some current, Some ts =>
        if current <? ts
        then Some (Conversation.mkPatch None None (Some ts) None)
        else Some Conversation.emptyPatch
    | Some _, None => Some Conversation.emptyPatch
    end
  else Some Conversation.emptyPatch.

(** message-handler.ts:101-153: find or create the conversation; returns the
    database and [conversationId], or [None] in its place when the [update]
    or the [insert] throws *)
Definition resolveConversation (userId : Z) (message : Baileys.WAMessage)
           (jid : string) (upsertType : UpsertType) (leadId now : Z) (db : Db)
  : Db * option Z :=
  let fromMe := Baileys.fromMe (Baileys.key message) in
  let messageTimestamp := timestampOf message now in
  match findConversation db leadId userId jid with
  | Some existingConv =>
      let conversationId := Conversation.id existingConv in
      match conversationUpdates existingConv upsertType fromMe
                                messageTimestamp now with
      | None => (db, None)
      | Some updates =>
          if Conversation.hasKeys updates then
            (withConversations
               (updateWhere (fun c => Conversation.id c =? conversationId)
                            (Conversation.apply updates) (conversations db)) db,
             Some conversationId)
          else (db, Some conversationId)
      end
  | None =>
      match messageTimestamp with
      | None => (db, None)
      | Some lastMessageAt =>
          let conversationId := nextId (map Conversation.id (conversations db)) in
          let newConv :=
            Conversation.mk conversationId "whatsapp" userId (Some qr) (Some jid)
              (Some leadId) (phoneOf jid) (Some (contactNameOf message))
              (if UpsertType_eqb upsertType notify && negb fromMe then 1 else 0)
              (Some lastMessageAt) active in
          (withConversations (conversations db ++ [newConv]) db, Some conversationId)
      end
  end.

(** message-handler.ts:167-179, the inserted chat message row, for a
    [messageTimestamp] that is a valid date *)
Definition newChatMessage (userId : Z) (message : Baileys.WAMessage)
           (conversationId messageTimestamp now : Z) (db : Db) : ChatMessage.t :=
  let fromMe := Baileys.fromMe (Baileys.key message) in
  ChatMessage.mk (nextId (map ChatMessage.id (chatMessages db)))
    conversationId userId qr
    (if fromMe then outbound else inbound)
    (msgTypeOf message)
    (Some (textOf message))
    None None None None None
    (if fromMe then msgSent else msgDelivered)
    (Some (Baileys.id (Baileys.key message)))
    (Some messageTimestamp)
    (if fromMe then None else Some messageTimestamp)
    None
    now.

(** message-handler.ts:7-186.  The three steps run inside the [try] block
    of lines 49-185: when one throws, the [catch] logs the error and the
    handler returns with what was written until then. *)
Definition handleIncomingMessage (userId : Z) (message : Baileys.WAMessage)
           (upsertType : UpsertType) (now : Z) (db : Db) : Db :=
  let jid := Baileys.remoteJid (Baileys.key message) in
  if skipped jid then db else
  match jid with
  | None => db
  | Some jid =>
      match findExistingMessage db (Baileys.id (Baileys.key message)) with
      | Some _ => db
      | None =>
          match resolveLead message jid upsertType now db with
          | (db1, None) => db1
          | (db1, Some leadId) =>
              match resolveConversation userId message jid upsertType leadId now db1 with
              | (db2, None) => db2
              | (db2, Some conversationId) =>
                  match timestampOf message now with
                  | None => db2
                  | Some messageTimestamp =>
                      withChatMessages
                        (chatMessages db2
                         ++ [newChatMessage userId message conversationId
                                            messageTimestamp now db2])
                        db2
                  end
              end
          end
      end
  end.

End MessageHandler.

(** ** The cloud webhook payload (the properties read by the POST handler) *)

Module Cloud.
Record Media := mkMedia {
  caption : option string;
  id : option string;
  mime_type : option string
}.

Record Location := mkLocation {
  latitude : option string;
  longitude : option string;
  name : option string;
  address : option string
}.

Record Text := mkText { body : option string }.

(** A contact card of a [contacts] message; only serialized, never read. *)
Record Card := mkCard { formatted_name : string; phones : list string }.

(** One element of [value.messages]. *)
Record Message := mkMessage {
  from : option string;
  msgId : option string;            (* [m.id] *)
  type : option string;
  text : option Text;
  image : option Media;
  video : option Media;
  audio : option Media;
  document : option Media;
  sticker : option Media;
  location : option Location;
  contacts : option (list Card);
  (** any other properties of the object, name and JSON text *)
  extra : list (string * string)
}.

(** One element of [value.statuses]. *)
Record Status := mkStatus {
  id_ : option string;              (* [st.id] *)
  status : option string
}.

(** One element of [value.contacts]. *)
Record Contact := mkContact {
  wa_id : option string;
  profile_name : option string      (* [contact.profile?.name] *)
}.

Record Value := mkValue {
  phone_number_id : option string;  (* [value.metadata?.phone_number_id] *)
  statuses : list Status;
  messages : list Message;
  value_contacts : list Contact     (* [value.contacts] *)
}.

Record Change := mkChange { value : Value }.
Record Entry := mkEntry { changes : list Change }.
Record Payload := mkPayload { entry : list Entry }.
End Cloud.

(** The HTTP request, as far as the webhook reads it. *)
Record Request := mkRequest {
  x_hub_signature_256 : option string;
  rawBody : option (list Byte.byte);
  body : Cloud.Payload
}.

(** [ENV] *)
Record Env := mkEnv {
  whatsappAppSecret : option string;
  whatsappWebhookVerifyToken : option string
}.

(** The library functions the webhook calls: [crypto.createHmac("sha256",
    secret).update(raw).digest("hex")] and [JSON.stringify] at the two types
    it is applied to. *)
Record Runtime := mkRuntime {
  hmacSha256Hex : string -> list Byte.byte -> string;
  stringifyMessage : Cloud.Message -> string;
  stringifyContacts : list Cloud.Card -> string
}.

(** *** Node's [Buffer] and [crypto.timingSafeEqual] *)

Module Buffer.

Definition hexDigit (c : ascii) : option N :=
  let n := N_of_ascii c in
  if (48 <=? n)%N && (n <=? 57)%N then Some (n - 48)%N
  else if (97 <=? n)%N && (n <=? 102)%N then Some (n - 87)%N
  else if (65 <=? n)%N && (n <=? 70)%N then Some (n - 55)%N
  else None.

(** [Buffer.from(s, "hex")]: decodes pairs of hexadecimal digits and stops
    at the first pair that is not one, or at a trailing single character. *)
Fixpoint fromHex (s : string) : list Byte.byte :=
  match s with
  | String a (String b rest) =>
      match hexDigit a, hexDigit b with
      | Some hi, Some lo =>
          byte_of_ascii (ascii_of_N (16 * hi + lo)) :: fromHex rest
      | _, _ => []
      end
  | _ => []
  end.

Fixpoint equal (a b : list Byte.byte) : bool :=
  match a, b with
  | [], [] => true
  | x :: a', y :: b' => Byte.eqb x y && equal a' b'
  | _, _ => false
  end.

(** [crypto.timingSafeEqual(a, b)]: throws ([None]) when the lengths
    differ. *)
Definition timingSafeEqual (a b : list Byte.byte) : option bool :=
  if (List.length a =? List.length b)%nat then Some (equal a b) else None.

End Buffer.

Module Webhook.
Section WithRuntime.

Variable rt : Runtime.
Variable env : Env.

(** webhook.ts:9-25 *)
Definition verifySignature (req : Request) : bool :=
  match whatsappAppSecret env with
  | None => true
  | Some secret =>
      if (secret =? "")%string then true else
      let header := JS.nullish (x_hub_signature_256 req) "" in
      if negb (JS.startsWith header "sha256=") then false else
      let signature := JS.slice header (String.length "sha256=") in
      match rawBody req with
      | None => false
      | Some raw =>
          if (List.length raw =? 0)%nat then false else
          let expected := hmacSha256Hex rt secret raw in
          match Buffer.timingSafeEqual (Buffer.fromHex signature)
                                       (Buffer.fromHex expected) with
          | Some r => r
          | None => false                     (* catch *)
          end
      end
  end.

(** webhook.ts:40-49, [GET /api/whatsapp/webhook]: the HTTP status and the
    body of the response; [===] on possibly-missing strings *)
Definition getWebhook (mode token challenge : option string) : Z * string :=
  let sameToken :=
    match token, whatsappWebhookVerifyToken env with
    | Some a, Some b => (a =? b)%string
    | None, None => true
    | _, _ => false
    end in
  if optString_eqb mode "subscribe" && sameToken
  then (200, JS.nullish challenge "")
  else (403, "Forbidden").

(** webhook.ts:27-36 *)
Definition getWhatsappNumberIdByPhoneNumberId (db : Db) (phoneNumberId : string)
  : option Z :=
  match find (fun c => optString_eqb (WhatsappConnection.phoneNumberId c) phoneNumberId)
             (whatsappConnections db) with
  | Some row => Some (WhatsappConnection.whatsappNumberId row)
  | None => None
  end.

(** webhook.ts:106-119, the [patch] for a status string *)
Definition statusPatch (status : string) (now : Z) : ChatMessage.patch :=
  if (status =? "sent")%string then
    ChatMessage.mkPatch (Some msgSent) (Some now) None None
  else if (status =? "delivered")%string then
    ChatMessage.mkPatch (Some msgDelivered) None (Some now) None
  else if (status =? "read")%string then
    ChatMessage.mkPatch (Some msgRead) None None (Some now)
  else if (status =? "failed")%string then
    ChatMessage.mkPatch (Some msgFailed) None None None
  else ChatMessage.emptyPatch.

Definition setRecipient (st : RecipientStatus) (sentAt deliveredAt readAt : option Z)
           (err : option string) (r : CampaignRecipient.t) : CampaignRecipient.t :=
  CampaignRecipient.mk (CampaignRecipient.id r) (CampaignRecipient.campaignId r)
    (CampaignRecipient.whatsappMessageId r) (Some st)
    (match sentAt with Some d => Some d | None => CampaignRecipient.sentAt r end)
    (match deliveredAt with Some d => Some d | None => CampaignRecipient.deliveredAt r end)
    (match readAt with Some d => Some d | None => CampaignRecipient.readAt r end)
    (match err with Some e => Some e | None => CampaignRecipient.errorMessage r end).

(** [update(campaignRecipients).set(...).where(eq(id, recId))] *)
Definition updateRecipient (recId : Z) (f : CampaignRecipient.t -> CampaignRecipient.t)
           (db : Db) : Db :=
  withCampaignRecipients
    (updateWhere (fun r => CampaignRecipient.id r =? recId) f (campaignRecipients db)) db.

Definition incDelivered (c : Campaign.t) : Campaign.t :=
  Campaign.mk (Campaign.id c) (Campaign.messagesDelivered c + 1)
              (Campaign.messagesRead c) (Campaign.messagesFailed c).
Definition incRead (c : Campaign.t) : Campaign.t :=
  Campaign.mk (Campaign.id c) (Campaign.messagesDelivered c)
              (Campaign.messagesRead c + 1) (Campaign.messagesFailed c).
Definition incFailed (c : Campaign.t) : Campaign.t :=
  Campaign.mk (Campaign.id c) (Campaign.messagesDelivered c)
              (Campaign.messagesRead c) (Campaign.messagesFailed c + 1).

(** [update(campaigns).set(...).where(eq(id, campaignId))] *)
Definition updateCampaign (campaignId : Z) (f : Campaign.t -> Campaign.t) (db : Db) : Db :=
  withCampaigns (updateWhere (fun c => Campaign.id c =? campaignId) f (campaigns db)) db.

(** webhook.ts:129-137 *)
Definition findRecipient (db : Db) (msgId : string) : option CampaignRecipient.t :=
  find (fun r => optString_eqb (CampaignRecipient.whatsappMessageId r) msgId)
       (campaignRecipients db).

(** webhook.ts:140, [String(rec[0].currentStatus ?? "pending")] *)
Definition currentStatus (rec : CampaignRecipient.t) : RecipientStatus :=
  match CampaignRecipient.status rec with
  | Some s => s
  | None => pending
  end.

(** webhook.ts:139-167, the campaign roll-up of one status update *)
Definition trackCampaign (rec : CampaignRecipient.t) (status : string) (now : Z)
           (db : Db) : Db :=
  let current := currentStatus rec in
  let campaignId := CampaignRecipient.campaignId rec in
  let recId := CampaignRecipient.id rec in
  if (status =? "delivered")%string then
    if negb (RecipientStatus_eqb current delivered)
       && negb (RecipientStatus_eqb current read) then
      updateCampaign campaignId incDelivered
        (updateRecipient recId (setRecipient delivered None (Some now) None None) db)
    else db
  else if (status =? "read")%string then
    if negb (RecipientStatus_eqb current read) then
      let db1 := updateRecipient recId (setRecipient read None None (Some now) None) db in
      let db2 := if negb (RecipientStatus_eqb current delivered)
                 then updateCampaign campaignId incDelivered db1 else db1 in
      updateCampaign campaignId incRead db2
    else db
  else if (status =? "failed")%string then
    if negb (RecipientStatus_eqb current failed) then
      updateCampaign campaignId incFailed
        (updateRecipient recId
           (setRecipient failed None None None (Some "Meta status failed")) db)
    else db
  else if (status =? "sent")%string then
    if RecipientStatus_eqb current pending then
      updateRecipient recId (setRecipient sent (Some now) None None None) db
    else db
  else db.

(** webhook.ts:90-168, the body of the loop over [statuses] *)
Definition handleStatus (now : Z) (st : Cloud.Status) (db : Db) : Db :=
  let msgId := JS.nullish (Cloud.id_ st) "" in
  let status := JS.nullish (Cloud.status st) "" in
  if (msgId =? "")%string then db else
  let patch := statusPatch status now in
  let db1 :=
    if ChatMessage.hasKeys patch then
      withChatMessages
        (updateWhere (fun m => optString_eqb (ChatMessage.whatsappMessageId m) msgId)
                     (ChatMessage.apply patch) (chatMessages db)) db
    else db in
  match findRecipient db1 msgId with
  | Some rec => trackCampaign rec status now db1
  | None => db1
  end.

(** The locals assigned by the normalization of one message
    (webhook.ts:228-234). *)
Record Normalized := mkNormalized {
  messageType : MessageType;
  content : option string;
  mediaUrl : option string;
  mediaMimeType : option string;
  latitude : option string;
  longitude : option string;
  locationName : option string
}.

(** [m[msgType]] for the five media types *)
Definition mediaOf (m : Cloud.Message) (msgType : string) : option Cloud.Media :=
  if (msgType =? "image")%string then Cloud.image m
  else if (msgType =? "video")%string then Cloud.video m
  else if (msgType =? "audio")%string then Cloud.audio m
  else if (msgType =? "document")%string then Cloud.document m
  else if (msgType =? "sticker")%string then Cloud.sticker m
  else None.

(** [messageType = msgType] for the five media types *)
Definition mediaMessageType (msgType : string) : MessageType :=
  if (msgType =? "image")%string then image
  else if (msgType =? "video")%string then video
  else if (msgType =? "audio")%string then audio
  else if (msgType =? "document")%string then document
  else sticker.

(** webhook.ts:224-257 *)
Definition normalize (m : Cloud.Message) : Normalized :=
  let msgType := JS.nullish (Cloud.type m) "text" in
  if (msgType =? "text")%string then
    mkNormalized text (JS.strOrNull (chain (Cloud.text m) Cloud.body))
                 None None None None None
  else if (msgType =? "image")%string || (msgType =? "video")%string
          || (msgType =? "audio")%string || (msgType =? "document")%string
          || (msgType =? "sticker")%string then
    let media := mediaOf m msgType in
    mkNormalized (mediaMessageType msgType)
                 (JS.strOrNull (chain media Cloud.caption))
                 (JS.strOrNull (chain media Cloud.id))
                 (JS.strOrNull (chain media Cloud.mime_type))
                 None None None
  else if (msgType =? "location")%string then
    let loc := Cloud.location m in
    mkNormalized location
                 (JS.strOrNull (chain loc Cloud.address))
                 None None
                 (chain loc Cloud.latitude)
                 (chain loc Cloud.longitude)
                 (JS.strOrNull (chain loc Cloud.name))
  else if (msgType =? "contacts")%string then
    mkNormalized contact
                 (Some (stringifyContacts rt
                          (match Cloud.contacts m with Some l => l | None => [] end)))
                 None None None None None
  else
    mkNormalized text (Some (stringifyMessage rt m)) None None None None None.

(** webhook.ts:223-295, the body of the loop over [messages]; the
    integration event is dispatched detached and touches no table *)
Definition handleMessage (whatsappNumberId conversationId now : Z)
           (m : Cloud.Message) (db : Db) : Db :=
  let waMsgId := JS.strOrNull (Cloud.msgId m) in
  let n := normalize m in
  withChatMessages
    (chatMessages db ++
     [ChatMessage.mk (nextId (map ChatMessage.id (chatMessages db)))
        conversationId whatsappNumberId api inbound
        (messageType n) (content n) (mediaUrl n) (mediaMimeType n)
        (latitude n) (longitude n) (locationName n)
        msgDelivered waMsgId None (Some now) None now])
    db.

(** webhook.ts:190-194 *)
Definition findConversation (db : Db) (whatsappNumberId : Z) (contactPhone : string)
  : option Conversation.t :=
  find (fun c => (Conversation.whatsappNumberId c =? whatsappNumberId)
                 && (Conversation.contactPhone c =? contactPhone)%string)
       (conversations db).

(** webhook.ts:196-221: find or create the conversation; returns the
    database and [conversationId] *)
Definition resolveConversation (whatsappNumberId : Z) (contactPhone : string)
           (contactName : option string) (now : Z) (db : Db) : Db * Z :=
  let convo := findConversation db whatsappNumberId contactPhone in
  let conversationId := match convo with
                        | Some c => Conversation.id c
                        | None => 0                      (* undefined *)
                        end in
  if conversationId =? 0 then
    let insertId := nextId (map Conversation.id (conversations db)) in
    (withConversations
       (conversations db ++
        [Conversation.mk insertId "whatsapp" whatsappNumberId (Some api) None None
           contactPhone contactName 1 (Some now) active]) db,
     insertId)
  else
    (withConversations
       (updateWhere (fun c => Conversation.id c =? conversationId)
          (fun c => Conversation.apply
                      (Conversation.mkPatch contactName
                         (Some (Conversation.unreadCount c + 1)) (Some now) None) c)
          (conversations db)) db,
     conversationId).

(** webhook.ts:177-178
    [String(contact?.wa_id ?? messages[0]?.from ?? "")] *)
Definition contactPhone (value : Cloud.Value) : string :=
  match chain (hd_error (Cloud.value_contacts value)) Cloud.wa_id with
  | Some p => p
  | None => JS.nullish (chain (hd_error (Cloud.messages value)) Cloud.from) ""
  end.

(** webhook.ts:179 *)
Definition contactName (value : Cloud.Value) : option string :=
  JS.strOrNull (chain (hd_error (Cloud.value_contacts value)) Cloud.profile_name).

(** webhook.ts:172-296, the incoming messages of one change *)
Definition handleMessages (whatsappNumberId : Z) (value : Cloud.Value) (now : Z)
           (db : Db) : Db :=
  let messages := Cloud.messages value in
  if (List.length messages =? 0)%nat then db else
  if (contactPhone value =? "")%string then db else
  let '(db1, conversationId) :=
    resolveConversation whatsappNumberId (contactPhone value) (contactName value)
                        now db in
  fold_left (fun d m => handleMessage whatsappNumberId conversationId now m d)
            messages db1.

(** webhook.ts:68-297, the body of the loop over [changes] *)
Definition handleChange (now : Z) (change : Cloud.Change) (db : Db) : Db :=
  let value := Cloud.value change in
  let phoneNumberId := Cloud.phone_number_id value in
  if negb (JS.truthy phoneNumberId) then db else
  match getWhatsappNumberIdByPhoneNumberId db (JS.nullish phoneNumberId "") with
  | None => db
  | Some whatsappNumberId =>
      if whatsappNumberId =? 0 then db else
      let db1 := fold_left (fun d st => handleStatus now st d)
                           (Cloud.statuses value) db in
      handleMessages whatsappNumberId value now db1
  end.

(** webhook.ts:52-305, [POST /api/whatsapp/webhook]; returns the database and
    the HTTP status of the response *)
Definition postWebhook (req : Request) (now : Z) (db : Db) : Db * Z :=
  if negb (verifySignature req) then (db, 401) else
  (fold_left
     (fun d entry =>
        fold_left (fun d' change => handleChange now change d')
                  (Cloud.changes entry) d)
     (Cloud.entry (body req)) db,
   200).

End WithRuntime.
End Webhook.

(** ** Concrete inputs used by the examples below *)

Module Fixtures.

Definition emptyDb : Db := mkDb [] [] [] [] [] [] [] [].

(** A runtime whose digest is a fixed string and whose serializer prints
    the message type between braces. *)
Definition rt0 : Runtime :=
  mkRuntime (fun _ _ => "00ff")
            (fun m => ("{" ++ JS.nullish (Cloud.type m) "" ++ "}")%string)
            (fun _ => "[]").

Definition envNoSecret : Env := mkEnv None None.
Definition envSecret : Env := mkEnv (Some "s3cret") None.

(** QR bridge *)
Definition qrText (waId : string) (jid : string) (body : string) (ts : Z)
  : Baileys.WAMessage :=
  Baileys.mkWAMessage
    (Baileys.mkKey (Some jid) waId false)
    (Some (Baileys.mkMessage (Some body) None None None None None None []))
    (Some "Ana") (Some ts).

(** A message whose only content is of a kind the handler does not read
    ([reactionMessage], [pollCreationMessage], ...). *)
Definition qrOther (waId kind : string) : Baileys.WAMessage :=
  Baileys.mkWAMessage
    (Baileys.mkKey (Some "5491100000000@s.whatsapp.net") waId false)
    (Some (Baileys.mkMessage None None None None None None None [kind]))
    (Some "Ana") (Some 1700000000).

Definition qrBroadcast : Baileys.WAMessage :=
  Baileys.mkWAMessage (Baileys.mkKey (Some "status@broadcast") "B1" false)
    (Some (Baileys.mkMessage (Some "story") None None None None None None []))
    None (Some 1700000000).

(** Cloud webhook *)
Definition connected : Db :=
  mkDb [] [] [] [] [] [WhatsappConnection.mk 7 (Some "PNID")] [] [].

Definition cloudText (waId body : string) : Cloud.Message :=
  Cloud.mkMessage (Some "5491100000000") (Some waId) (Some "text")
    (Some (Cloud.mkText (Some body))) None None None None None None None [].

Definition cloudReaction (waId : string) : Cloud.Message :=
  Cloud.mkMessage (Some "5491100000000") (Some waId) (Some "reaction")
    None None None None None None None None [("reaction", "{}")].

Definition changeOf (sts : list Cloud.Status) (msgs : list Cloud.Message)
  : Cloud.Change :=
  Cloud.mkChange
    (Cloud.mkValue (Some "PNID") sts msgs
                   [Cloud.mkContact (Some "5491100000000") (Some "Ana")]).

Definition requestOf (changes : list Cloud.Change) : Request :=
  mkRequest None None (Cloud.mkPayload [Cloud.mkEntry changes]).

End Fixtures.

(** Read-outs of the database used to state the properties. *)
Module Observe.

(** The provider message ids of the chat-message rows, in table order. *)
Definition waIds (db : Db) : list (option string) :=
  map ChatMessage.whatsappMessageId (chatMessages db).

(** Status, unread counter and last activity of every conversation. *)
Definition view (db : Db) : list (ConversationStatus * Z * option Z) :=
  map (fun c => (Conversation.status c, Conversation.unreadCount c,
                 Conversation.lastMessageAt c))
      (conversations db).

End Observe.

(** The campaign roll-up of webhook.ts:139-167 as a table: what a status
    event does to a recipient in a given state, and which campaign counters
    it moves.  The table is read off the code, and
    [StatusFacts.trackCampaign_refines] proves that the code follows it.  It
    is not the state machine of section 4.7 of the specification: there
    [failed] is terminal, here a later [delivered] or [read] moves a failed
    recipient on and counts again. *)
Module StatusSpec.

Definition nextStatus (status : string) (current : RecipientStatus)
  : RecipientStatus :=
  if (status =? "delivered")%string then
    match current with
    | delivered | read => current
    | _ => delivered
    end
  else if (status =? "read")%string then read
  else if (status =? "failed")%string then failed
  else if (status =? "sent")%string then
    match current with
    | pending => sent
    | _ => current
    end
  else current.

Definition moveCounters (status : string) (current : RecipientStatus)
           (c : Campaign.t) : Campaign.t :=
  if (status =? "delivered")%string then
    match current with
    | delivered | read => c
    | _ => Webhook.incDelivered c
    end
  else if (status =? "read")%string then
    match current with
    | read => c
    | delivered => Webhook.incRead c
    | _ => Webhook.incRead (Webhook.incDelivered c)
    end
  else if (status =? "failed")%string then
    match current with
    | failed => c
    | _ => Webhook.incFailed c
    end
  else c.



(** A status event of the payload for a message id. *)
Definition event (msgId status : string) : Cloud.Status :=
  Cloud.mkStatus (Some msgId) (Some status).


(** The chat-message rows a status event for [msgId] addresses. *)
Definition linkedTo (msgId : string) (m : ChatMessage.t) : bool :=
  optString_eqb (ChatMessage.whatsappMessageId m) msgId.



End StatusSpec.

(** ** Unrecognized message types: the inputs concerned *)

Module Unrecognized.

(** The [type] strings the webhook normalizes by a rule of their own
    (webhook.ts:236-253). *)
Definition cloudRecognized (ty : string) : bool :=
  existsb (String.eqb ty)
          ["text"; "image"; "video"; "audio"; "document"; "sticker";
           "location"; "contacts"].

(** A QR-bridge message none of whose recognized content kinds is present
    (message-handler.ts:30-38 and 158-162). *)
Definition qrUnrecognized (message : Baileys.WAMessage) : Prop :=
  let m := Baileys.message message in
  chain m Baileys.conversation = None /\
  chain m Baileys.extendedTextMessage = None /\
  chain m Baileys.imageMessage = None /\
  chain m Baileys.videoMessage = None /\
  chain m Baileys.audioMessage = None /\
  chain m Baileys.documentMessage = None /\
  chain m Baileys.stickerMessage = None.

End Unrecognized.

(** ** Hexadecimal text: which signatures stand for a digest *)

Module Hex.

Definition isDigit (c : ascii) : bool :=
  existsb (Ascii.eqb c) (list_ascii_of_string "0123456789abcdefABCDEF").

(** The lower-case form of an ASCII letter. *)
Definition lowerChar (c : ascii) : ascii :=
  let n := N_of_ascii c in
  if (65 <=? n)%N && (n <=? 90)%N then ascii_of_N (n + 32) else c.

Fixpoint lower (s : string) : string :=
  match s with
  | EmptyString => EmptyString
  | String c rest => String (lowerChar c) (lower rest)
  end.

(** The lower-case digit of a value below sixteen. *)
Definition digitChar (n : N) : ascii :=
  if (n <? 10)%N then ascii_of_N (48 + n) else ascii_of_N (87 + n).

(** Pairs of hexadecimal digits and nothing else. *)
Fixpoint pairs (s : string) : bool :=
  match s with
  | EmptyString => true
  | String a (String b rest) => isDigit a && isDigit b && pairs rest
  | String _ EmptyString => false
  end.

Definition startsWithPair (s : string) : bool :=
  match s with
  | String a (String b _) => isDigit a && isDigit b
  | _ => false
  end.

(** [signature] stands for [digest]: it is the digest, in either letter
    case, followed by any text that does not begin with a pair of
    hexadecimal digits. *)
Definition accepts (signature digest : string) : Prop :=
  exists accepted rest,
    signature = (accepted ++ rest)%string /\
    pairs accepted = true /\
    lower accepted = digest /\
    startsWithPair rest = false.

End Hex.

(** ** Leads: what a bump may change *)

Module LeadSpec.


End LeadSpec.

(** ** Further concrete inputs *)

Module VerifierExamples.
Import Fixtures.

Definition signed : Request :=
  mkRequest (Some "sha256=00ff") (Some [Byte.x68; Byte.x69]) (Cloud.mkPayload []).

(** The same request with two characters appended to the signature. *)
Definition padded : Request :=
  mkRequest (Some "sha256=00ffzz") (Some [Byte.x68; Byte.x69]) (Cloud.mkPayload []).
End VerifierExamples.

Module StatusExamples.

(** One outbound campaign message [M1] on the api connection, its pending
    recipient and its campaign. *)
Definition outboundM1 : ChatMessage.t :=
  ChatMessage.mk 1 1 7 api outbound text (Some "promo") None None None None None
                 msgSent (Some "M1") (Some 100) None None 100.

Definition recipientM1 : CampaignRecipient.t :=
  CampaignRecipient.mk 1 3 (Some "M1") (Some pending) None None None None.

Definition campaign3 : Campaign.t := Campaign.mk 3 0 0 0.

Definition db : Db :=
  mkDb [] [] [outboundM1] [] [] [WhatsappConnection.mk 7 (Some "PNID")]
       [recipientM1] [campaign3].

End StatusExamples.

Module LeadExamples.
Import Fixtures.

Definition jid : string := "5491100000000@s.whatsapp.net".
Definition first : Baileys.WAMessage := qrText "A1" jid "hola" 1700000000.
Definition second : Baileys.WAMessage := qrText "A2" jid "estas?" 1700000060.


(** A default pipeline whose first stage (by [order]) is stage 10, and no
    lead yet. *)
Definition emptyStage : Db :=
  mkDb [] [] []
       [Pipeline.mk 1 true]
       [PipelineStage.mk 11 1 2; PipelineStage.mk 10 1 1]
       [] [] [].

(** The same pipeline with two leads in stage 10, at kanban orders 4 and 2,
    and one in stage 11, at 9. *)
Definition placed (i : Z) (phone : string) (stage order : Z) : Lead.t :=
  Lead.mk i phone phone "Unknown" (Some stage) order "whatsapp_inbound" 1 1 None.

Definition busyStage : Db :=
  mkDb [placed 1 "+5491100000001" 10 4; placed 2 "+5491100000002" 11 9;
        placed 3 "+5491100000003" 10 2]
       [] []
       [Pipeline.mk 1 true]
       [PipelineStage.mk 11 1 2; PipelineStage.mk 10 1 1]
       [] [] [].
End LeadExamples.

Module ApiExamples.
Import Fixtures.

(** An archived cloud-API conversation with the contact of [changeOf]. *)
Definition archivedDb : Db :=
  mkDb []
       [Conversation.mk 1 "whatsapp" 7 (Some api) None None "5491100000000"
                        (Some "Ana") 0 (Some 100) archived]
       [] [] [] [WhatsappConnection.mk 7 (Some "PNID")] [] [].

Definition hola : Request := requestOf [changeOf [] [cloudText "W1" "hola"]].
End ApiExamples.

From Stdlib Require Import Sorting.Sorted Sorting.Permutation.

(** * The rest of the server and the chat client

    [src/server/_core/index.ts] (port search, CORS origin check, CSRF guard,
    settings seed), [src/server/routers/templates.ts], the upload controller
    ([src/unnamed/part_001]) and the message grouping and attachment handling
    of the chat thread ([src/unnamed/part_000],
    [src/client/src/components/chat/ChatQuickReplies.tsx]).  Authentication,
    permission checks and the HTTP framework are outside: a procedure is
    modelled from the point where its input is validated. *)

(** ** Server bootstrap and middleware ([_core/index.ts]) *)

Module Server.

(** The variables of [process.env] that the middleware reads. *)
Record ProcessEnv := mkProcessEnv {
  NODE_ENV : option string;
  CLIENT_URL : option string;
  VITE_API_URL : option string;
  VITE_OAUTH_PORTAL_URL : option string
}.

Section Ports.

(** [isPortAvailable], the outcome of trying to listen on a port *)
Variable isPortAvailable : Z -> bool.

(** index.ts:44-48, the [for] loop with [remaining] iterations to go *)
Fixpoint scanPorts (port : Z) (remaining : nat) : option Z :=
  match remaining with
  | O => None
  | S k => if isPortAvailable port then Some port else scanPorts (port + 1) k
  end.

(** index.ts:43-50; [None] is the thrown [Error] *)
Definition findAvailablePort (startPort : Z) : option Z :=
  scanPorts startPort 20.

End Ports.

(** index.ts:106, [url ? url.replace(/\/$/, "") : ""] *)
Fixpoint normalize (url : string) : string :=
  match url with
  | EmptyString => EmptyString
  | String c rest =>
      match rest with
      | EmptyString => if Ascii.eqb c "/" then EmptyString else url
      | String _ _ => String c (normalize rest)
      end
  end.

(** [[CLIENT_URL, VITE_API_URL, VITE_OAUTH_PORTAL_URL].filter(Boolean)] *)
Definition configuredOrigins (env : ProcessEnv) : list string :=
  flat_map (fun v => match v with
                     | Some s => if (s =? "")%string then [] else [s]
                     | None => []
                     end)
           [CLIENT_URL env; VITE_API_URL env; VITE_OAUTH_PORTAL_URL env].

(** index.ts:107-111 *)
Definition allowedOrigins (env : ProcessEnv) : list string :=
  map normalize (configuredOrigins env).

(** [list.includes(x)], [set.has(x)] on strings *)
Definition member (x : string) (l : list string) : bool :=
  existsb (String.eqb x) l.

Definition isProduction (env : ProcessEnv) : bool :=
  optString_eqb (NODE_ENV env) "production".

(** index.ts:99-130, the [origin] callback of the CORS middleware: [true]
    is [callback(null, true)], [false] is [callback(new Error(...))] *)
Definition corsOrigin (env : ProcessEnv) (origin : option string) : bool :=
  match origin with
  | None => true
  | Some origin =>
      if (origin =? "")%string then true else
      if negb (isProduction env) then true else
      if member (normalize origin) (allowedOrigins env) then true else
      if JS.includes origin ".nip.io" then true else
      if JS.includes origin "localhost" || JS.includes origin "127.0.0.1" then true
      else false
  end.

(** [s.toUpperCase()] on the ASCII letters; an HTTP method is an ASCII token *)
Definition upperChar (c : ascii) : ascii :=
  let n := N_of_ascii c in
  if (97 <=? n)%N && (n <=? 122)%N then ascii_of_N (n - 32) else c.

Fixpoint toUpperCase (s : string) : string :=
  match s with
  | EmptyString => EmptyString
  | String c rest => String (upperChar c) (toUpperCase rest)
  end.

(** index.ts:142, the paths the guard does not cover *)
Definition csrfExempt (path : string) : bool :=
  JS.startsWith path "/api/whatsapp" || JS.startsWith path "/api/webhooks"
  || JS.startsWith path "/api/meta".

(** index.ts:145-146 *)
Definition isMutating (method : string) : bool :=
  member (toUpperCase method) ["POST"; "PUT"; "PATCH"; "DELETE"].

(** index.ts:135-166, the CSRF guard: [true] is [next()], [false] is the
    403 response *)
Definition csrfGuard (env : ProcessEnv) (path method : string)
           (origin : option string) : bool :=
  if csrfExempt path then true else
  if negb (isMutating method) then true else
  if negb (isProduction env) then true else
  match origin with
  | None => false
  | Some origin =>
      if (origin =? "")%string then false else
      if member origin (configuredOrigins env) then true else
      if JS.includes origin ".nip.io" then true else
      if JS.includes origin "localhost" || JS.includes origin "127.0.0.1" then true
      else false
  end.

(** The seeded [appSettings] row (index.ts:297-336). *)
Record AppSettings := mkAppSettings {
  companyName : string;
  timezone : string;
  language : string;
  currency : string;
  permissionsMatrix : list (string * list string);
  slotMinutes : Z;
  maxPerSlot : Z;
  allowCustomTime : bool;
  defaultCommissionRate : Z;
  currencySymbol : string;
  requireValueOnWon : bool;
  chatDistributionMode : string;
  excludeAgentIds : list Z
}.

Definition defaultAppSettings : AppSettings :=
  mkAppSettings "Imagine Lab CRM" "America/Asuncion" "es" "PYG"
    [("owner", ["*"]);
     ("admin", ["dashboard.*"; "leads.*"; "kanban.*"; "campaigns.*"; "chat.*";
                "helpdesk.*"; "scheduling.*"; "monitoring.*"; "analytics.*";
                "reports.*"; "integrations.*"; "settings.*"; "users.*"]);
     ("supervisor", ["dashboard.view"; "leads.view"; "kanban.view"; "chat.*";
                     "helpdesk.*"; "monitoring.*"; "analytics.view"; "reports.view"]);
     ("agent", ["dashboard.view"; "leads.*"; "kanban.view"; "chat.*"; "helpdesk.*";
                "scheduling.*"]);
     ("viewer", ["dashboard.view"; "leads.view"; "kanban.view"; "analytics.view";
                 "reports.view"])]
    15 6 true 0 "â‚²" false "manual" [].

(** index.ts:289-342, on the [appSettings] table; without a database handle
    nothing happens *)
Definition ensureAppSettings (db : option (list AppSettings))
  : option (list AppSettings) :=
  match db with
  | None => None
  | Some rows =>
      match rows with
      | [] => Some (rows ++ [defaultAppSettings])
      | _ :: _ => Some rows
      end
  end.

End Server.

(** ** The templates router ([routers/templates.ts]) *)

Module Attachment.
Record t := mk {
  url : string;
  name : string;
  type : string
}.
End Attachment.

(** An element of [attachments] as it arrives: each property may be absent. *)
Module AttachmentInput.
Record t := mk {
  url : option string;
  name : option string;
  type : option string
}.
End AttachmentInput.

Inductive TemplateType := whatsapp | email.

(** A row of the [templates] table. *)
Module Template.
Record t := mk {
  id : Z;
  name : string;
  content : string;
  type : TemplateType;
  variables : option (list string);
  attachments : option (list Attachment.t);
  createdAt : Z
}.
End Template.

(** The input of [templates.create] as it arrives. *)
Module CreateInput.
Record t := mk {
  name : option string;
  content : option string;
  type : option string;
  variables : option (list string);
  attachments : option (list AttachmentInput.t)
}.
End CreateInput.

(** The input of [templates.update] as it arrives. *)
Module UpdateInput.
Record t := mk {
  id : option Z;
  name : option string;
  content : option string;
  variables : option (list string);
  attachments : option (list AttachmentInput.t)
}.
End UpdateInput.

(** What a procedure answers: its value, a rejected input (the zod parse
    fails before the resolver runs) or a thrown [Error]. *)
Inductive Response (A : Type) :=
| Ok (value : A)
| BadRequest
| Thrown (message : string).
Arguments Ok {A} value.
Arguments BadRequest {A}.
Arguments Thrown {A} message.

Module Templates.

(** [z.object({ url: z.string(), name: z.string(), type: z.string() })] *)
Definition parseAttachment (a : AttachmentInput.t) : option Attachment.t :=
  match AttachmentInput.url a, AttachmentInput.name a, AttachmentInput.type a with
  | Some u, Some n, Some ty => Some (Attachment.mk u n ty)
  | _, _, _ => None
  end.

(** [z.array(...)]: every element must parse *)
Fixpoint parseAttachments (l : list AttachmentInput.t) : option (list Attachment.t) :=
  match l with
  | [] => Some []
  | a :: rest =>
      match parseAttachment a, parseAttachments rest with
      | Some a', Some rest' => Some (a' :: rest')
      | _, _ => None
      end
  end.

(** [z.array(...).optional()]: [Some None] is an absent property *)
Definition parseOptionalAttachments (l : option (list AttachmentInput.t))
  : option (option (list Attachment.t)) :=
  match l with
  | None => Some None
  | Some l =>
      match parseAttachments l with
      | Some l' => Some (Some l')
      | None => None
      end
  end.

(** [z.string().min(1)] *)
Definition parseNonEmpty (s : option string) : option string :=
  match s with
  | Some v => if (v =? "")%string then None else Some v
  | None => None
  end.

(** [z.enum(["whatsapp", "email"])] *)
Definition parseType (s : option string) : option TemplateType :=
  match s with
  | Some v =>
      if (v =? "whatsapp")%string then Some whatsapp
      else if (v =? "email")%string then Some email
      else None
  | None => None
  end.

(** [orderBy(desc(templates.createdAt))]: newest first *)
Fixpoint insertDesc (row : Template.t) (sorted : list Template.t) : list Template.t :=
  match sorted with
  | [] => [row]
  | r :: rest =>
      if Template.createdAt r <? Template.createdAt row then row :: sorted
      else r :: insertDesc row rest
  end.

Definition orderByCreatedAtDesc (rows : list Template.t) : list Template.t :=
  fold_right insertDesc [] rows.

(** templates.ts:14-31, [create]; [now] is the default of [createdAt] *)
Definition create (input : CreateInput.t) (now : Z) (db : option (list Template.t))
  : Response bool * option (list Template.t) :=
  match parseNonEmpty (CreateInput.name input),
        parseNonEmpty (CreateInput.content input),
        parseType (CreateInput.type input),
        parseOptionalAttachments (CreateInput.attachments input) with
  | Some n, Some c, Some ty, Some atts =>
      match db with
      | None => (Thrown "Database not available", db)
      | Some rows =>
          (Ok true,
           Some (rows ++ [Template.mk (nextId (map Template.id rows)) n c ty
                                      (CreateInput.variables input) atts now]))
      end
  | _, _, _, _ => (BadRequest, db)
  end.

(** [set(input)]: a column is written when the property is present *)
Definition applyUpdate (n c : option string) (vars : option (list string))
           (atts : option (list Attachment.t)) (row : Template.t) : Template.t :=
  Template.mk (Template.id row)
     (match n with Some v => v | None => Template.name row end)
     (match c with Some v => v | None => Template.content row end)
     (Template.type row)
     (match vars with Some v => Some v | None => Template.variables row end)
     (match atts with Some v => Some v | None => Template.attachments row end)
     (Template.createdAt row).

(** templates.ts:33-50, [update] *)
Definition update (input : UpdateInput.t) (db : option (list Template.t))
  : Response bool * option (list Template.t) :=
  match UpdateInput.id input, parseOptionalAttachments (UpdateInput.attachments input) with
  | Some i, Some atts =>
      match db with
      | None => (Thrown "Database not available", db)
      | Some rows =>
          (Ok true,
           Some (updateWhere (fun r => Template.id r =? i)
                             (applyUpdate (UpdateInput.name input)
                                          (UpdateInput.content input)
                                          (UpdateInput.variables input) atts)
                             rows))
      end
  | _, _ => (BadRequest, db)
  end.

(** templates.ts:52-59, [delete] *)
Definition delete (i : option Z) (db : option (list Template.t))
  : Response bool * option (list Template.t) :=
  match i with
  | Some i =>
      match db with
      | None => (Thrown "DB error", db)
      | Some rows => (Ok true, Some (filter (fun r => negb (Template.id r =? i)) rows))
      end
  | None => (BadRequest, db)
  end.

(** templates.ts:8-12, [list] *)
Definition list (db : option (Datatypes.list Template.t)) : Datatypes.list Template.t :=
  match db with
  | None => []
  | Some rows => orderByCreatedAtDesc rows
  end.

End Templates.

(** ** The upload controller ([controllers/upload.controller]) *)

Module Upload.

(** [Express.Multer.File], the properties read *)
Record File := mkFile {
  originalname : string;
  filename : string;
  mimetype : string;
  size : Z
}.

(** An element of the [files] array of the response. *)
Record UploadedFile := mkUploadedFile {
  name : string;
  url : string;
  type : string;
  u_size : Z
}.

(** The allowlist of the file filter. *)
Definition allowedTypes : list string :=
  ["image/png"; "image/jpeg"; "image/jpg"; "image/webp"; "image/gif";
   "video/mp4"; "video/webm"; "video/quicktime";
   "application/pdf"].

(** What the filter tells multer: accept the file, or fail with an error. *)
Inductive FilterResult :=
| Accept
| Reject (message : string).

(** [fileFilter] of the multer instance *)
Definition fileFilter (file : File) : FilterResult :=
  if (mimetype file =? "image/svg+xml")%string then
    Reject "SVG files are not allowed for security reasons."
  else if negb (Server.member (mimetype file) allowedTypes) then
    Reject ("Invalid file type: " ++ mimetype file)%string
  else Accept.

(** The response of [handleUpload]. *)
Inductive UploadResponse :=
| NoFiles (status : Z) (error : string)
| Uploaded (files : list UploadedFile).

(** The [type] of an uploaded file *)
Definition typeOf (file : File) : string :=
  if JS.startsWith (mimetype file) "image/" then "image"
  else if JS.startsWith (mimetype file) "video/" then "video"
  else "file".

(** [handleUpload]; [req.files] may be missing *)
Definition handleUpload (files : option (list File)) : UploadResponse :=
  match files with
  | None => NoFiles 400 "No files uploaded"
  | Some [] => NoFiles 400 "No files uploaded"
  | Some files =>
      Uploaded (map (fun file =>
                       mkUploadedFile (originalname file)
                                      ("/api/uploads/" ++ filename file)%string
                                      (typeOf file) (size file))
                    files)
  end.

(** Node's [path.basename] on POSIX paths: trailing separators are ignored
    and the part after the last remaining separator is returned. *)
Fixpoint dropSlashes (l : list ascii) : list ascii :=
  match l with
  | c :: rest => if Ascii.eqb c "/" then dropSlashes rest else l
  | [] => []
  end.

Fixpoint takeSegment (l : list ascii) : list ascii :=
  match l with
  | c :: rest => if Ascii.eqb c "/" then [] else c :: takeSegment rest
  | [] => []
  end.

Definition basename (path : string) : string :=
  string_of_list_ascii
    (rev (takeSegment (dropSlashes (rev (list_ascii_of_string path))))).

(** The response of [serveUpload]. *)
Inductive ServeResponse :=
| SendFile (filepath : string)
| NotFound.

Section ServeUpload.

(** [path.join(process.cwd(), "storage/uploads")], [path.join] and
    [fs.existsSync] *)
Variable uploadDir : string.
Variable pathJoin : string -> string -> string.
Variable existsSync : string -> bool.

(** [serveUpload], for the route parameter [name] *)
Definition serveUpload (name : string) : ServeResponse :=
  let safeName := basename name in
  let filepath := pathJoin uploadDir safeName in
  if existsSync filepath then SendFile filepath else NotFound.

End ServeUpload.

End Upload.

(** ** The chat thread ([components/chat/ChatThread]) *)

Module ChatThread.

(** The [msgType] of a file or attachment, from its MIME type
    ([handleFileSelect], [handleTemplateSelect]). *)
Definition msgTypeOf (mime : string) : MessageType :=
  if JS.startsWith mime "image/" then image
  else if JS.startsWith mime "video/" then video
  else if JS.startsWith mime "audio/" then audio
  else document.

(** One entry of [groupedMessages]. *)
Record Group := mkGroup {
  date : Z;
  msgs : list ChatMessage.t
}.

Section Grouping.

(** date-fns [startOfDay] in the local time zone, on instants *)
Variable startOfDay : Z -> Z.

(** date-fns [isSameDay] *)
Definition isSameDay (a b : Z) : bool := startOfDay a =? startOfDay b.

(** The body of [messages.forEach]: the message joins the last group when it
    is of the same day, and opens a new group otherwise. *)
Definition pushMessage (groupedMessages : list Group) (msg : ChatMessage.t)
  : list Group :=
  let msgDate := ChatMessage.createdAt msg in
  match rev groupedMessages with
  | lastGroup :: before =>
      if isSameDay (date lastGroup) msgDate
      then rev before ++ [mkGroup (date lastGroup) (msgs lastGroup ++ [msg])]
      else groupedMessages ++ [mkGroup msgDate [msg]]
  | [] => groupedMessages ++ [mkGroup msgDate [msg]]
  end.

(** [groupedMessages] after the loop *)
Definition groupMessages (messages : list ChatMessage.t) : list Group :=
  fold_left pushMessage messages [].

End Grouping.

End ChatThread.

(** ** Quick replies ([components/chat/ChatQuickReplies.tsx]) *)

Module ChatQuickReplies.

(** A string property of an element of the upload response, read by its
    name: the object has the properties [name], [url], [type] and the number
    [size], which is not read. *)
Definition property (uploaded : Upload.UploadedFile) (key : string) : option string :=
  if (key =? "name")%string then Some (Upload.name uploaded)
  else if (key =? "url")%string then Some (Upload.url uploaded)
  else if (key =? "type")%string then Some (Upload.type uploaded)
  else None.

(** [`/api/uploads/${v}`] *)
Definition uploadsUrl (v : option string) : string :=
  ("/api/uploads/" ++ JS.nullish v "undefined")%string.

(** The attachment [handleFileUpload] appends for the first file of an upload
    response. *)
Definition attachmentOf (uploaded : Upload.UploadedFile) : AttachmentInput.t :=
  AttachmentInput.mk
    (Some (JS.orStr (property uploaded "url")
                    (uploadsUrl (property uploaded "filename"))))
    (property uploaded "originalname")
    (property uploaded "mimetype").

(** [handleFileUpload] on the answer of [POST /api/upload]: the new
    [attachments]; an error answer, or one without files, is caught and
    leaves them as they are. *)
Definition handleFileUpload (response : Upload.UploadResponse)
           (attachments : list AttachmentInput.t) : list AttachmentInput.t :=
  match response with
  | Upload.Uploaded (uploaded :: _) => attachments ++ [attachmentOf uploaded]
  | _ => attachments
  end.

(** The state [handleSave] reads. *)
Record Form := mkForm {
  name : string;
  content : string;
  attachments : list AttachmentInput.t;
  (** [isEditMode && editingTemplate]: the id of the template being edited *)
  editing : option Z
}.

(** What [handleSave] does. *)
Inductive SaveAction :=
| ToastError (message : string)
| CreateMutation (input : CreateInput.t)
| UpdateMutation (input : UpdateInput.t).

(** [handleSave]; the [type] of the payload is not part of the [update]
    input and is stripped there *)
Definition handleSave (form : Form) : SaveAction :=
  if (name form =? "")%string || (content form =? "")%string then
    ToastError "Completa nombre y contenido"
  else
    match editing form with
    | Some id =>
        UpdateMutation (UpdateInput.mk (Some id) (Some (name form)) (Some (content form))
                                       None (Some (attachments form)))
    | None =>
        CreateMutation (CreateInput.mk (Some (name form)) (Some (content form))
                                       (Some "whatsapp") None (Some (attachments form)))
    end.

Section Search.

(** [String.prototype.toLowerCase] *)
Variable toLowerCase : string -> string.

(** [whatsappTemplates], the templates listed for a search term *)
Definition whatsappTemplates (templates : option (list Template.t))
           (searchTerm : string) : list Template.t :=
  match templates with
  | None => []
  | Some templates =>
      filter (fun t => JS.includes (toLowerCase (Template.name t)) (toLowerCase searchTerm)
                       || JS.includes (toLowerCase (Template.content t))
                                      (toLowerCase searchTerm))
             (filter (fun t => match Template.type t with
                               | whatsapp => true
                               | email => false
                               end)
                     templates)
  end.

End Search.

End ChatQuickReplies.

(** ** Concrete inputs for the properties of this part *)

Module ServerExamples.
Definition production : Server.ProcessEnv :=
  Server.mkProcessEnv (Some "production") (Some "https://crm.example.com") None None.

(** The same deployment with a trailing slash in [CLIENT_URL]. *)
Definition productionSlash : Server.ProcessEnv :=
  Server.mkProcessEnv (Some "production") (Some "https://crm.example.com/") None None.
End ServerExamples.

(** [a] may stand before [b] in a list that is newest first. *)
Definition newerFirst (a b : Template.t) : Prop :=
  Template.createdAt b <= Template.createdAt a.

Module TemplateExamples.
Definition saludo : Template.t :=
  Template.mk 1 "Saludo" "Hola, gracias por escribirnos" whatsapp None None 100.
Definition precios : Template.t :=
  Template.mk 2 "Precios" "Te paso la lista de precios" whatsapp None
              (Some [Attachment.mk "/api/uploads/1-2.pdf" "precios.pdf" "application/pdf"])
              200.
Definition table : list Template.t := [saludo; precios].

Definition valid : CreateInput.t :=
  CreateInput.mk (Some "Horario") (Some "Atendemos de 8 a 18") (Some "whatsapp") None None.
End TemplateExamples.

(** Neighbouring entries of a list of days differ. *)
Fixpoint distinctNeighbours (days : list Z) : Prop :=
  match days with
  | a :: rest =>
      match rest with
      | b :: _ => a <> b /\ distinctNeighbours rest
      | [] => True
      end
  | [] => True
  end.

Module UploadExamples.
Definition photo : Upload.File :=
  Upload.mkFile "foto.png" "1700000000000-123456789.png" "image/png" 2048.

Definition form (atts : list AttachmentInput.t) : ChatQuickReplies.Form :=
  ChatQuickReplies.mkForm "Catalogo" "Te envio el catalogo" atts None.
End UploadExamples.

Module ThreadExamples.
(** Days of 100 time units. *)
Definition startOfDay (t : Z) : Z := 100 * (t / 100).

Definition at_ (i t : Z) : ChatMessage.t :=
  ChatMessage.mk i 1 7 qr inbound text (Some "hola") None None None None None
                 msgDelivered None None None None t.
End ThreadExamples.

(** ** Read-outs for the properties of the two ingestion paths *)

Module Ledger.

(** The columns of a chat message that are fixed when it is inserted:
    everything except the status and its three timestamps. *)
Definition fixedColumns (m : ChatMessage.t) :=
  (ChatMessage.id m, ChatMessage.conversationId m, ChatMessage.whatsappNumberId m,
   ChatMessage.whatsappConnectionType m, ChatMessage.direction m,
   ChatMessage.messageType m, ChatMessage.content m,
   (ChatMessage.mediaUrl m, ChatMessage.mediaMimeType m, ChatMessage.latitude m,
    ChatMessage.longitude m, ChatMessage.locationName m,
    ChatMessage.whatsappMessageId m, ChatMessage.createdAt m)).

(** How far a recipient is along pending, sent, delivered, read; a failed
    recipient counts as not sent. *)
Definition rank (s : RecipientStatus) : Z :=
  match s with
  | pending | failed => 0
  | sent => 1
  | delivered => 2
  | read => 3
  end.

(** One campaign row before and after an event: same campaign, no counter
    lower, none raised by more than one. *)
Definition movedByAtMostOne (c c' : Campaign.t) : Prop :=
  Campaign.id c' = Campaign.id c /\
  Campaign.messagesDelivered c <= Campaign.messagesDelivered c'
    <= Campaign.messagesDelivered c + 1 /\
  Campaign.messagesRead c <= Campaign.messagesRead c' <= Campaign.messagesRead c + 1 /\
  Campaign.messagesFailed c <= Campaign.messagesFailed c'
    <= Campaign.messagesFailed c + 1.

(** A change the webhook cannot route to a connected number
    (webhook.ts:70-82). *)
Definition unroutable (db : Db) (change : Cloud.Change) : Prop :=
  let phoneNumberId := Cloud.phone_number_id (Cloud.value change) in
  JS.truthy phoneNumberId = false \/
  Webhook.getWhatsappNumberIdByPhoneNumberId db (JS.nullish phoneNumberId "") = None \/
  Webhook.getWhatsappNumberIdByPhoneNumberId db (JS.nullish phoneNumberId "") = Some 0.

(** Everything of a lead except [lastContactedAt]. *)
Definition leadIdentity (l : Lead.t) : Lead.t := Lead.setLastContactedAt None l.

(** A message is live and inbound: it counts as unread. *)
Definition countsAsUnread (upsertType : UpsertType) (message : Baileys.WAMessage) : Z :=
  if UpsertType_eqb upsertType notify && negb (Baileys.fromMe (Baileys.key message))
  then 1 else 0.

(** The conversations of a chat of the QR bridge. *)
Definition ofChat (jid : string) (rows : list Conversation.t) : list Conversation.t :=
  filter (fun c => optString_eqb (Conversation.externalChatId c) jid) rows.

(** The test of the QR idempotency check (message-handler.ts:21). *)
Definition isQr (waId : string) (r : ChatMessage.t) : bool :=
  optString_eqb (ChatMessage.whatsappMessageId r) waId
  && ConnectionType_eqb (ChatMessage.whatsappConnectionType r) qr.

End Ledger.

Module NormalizeSpec.

Definition isMedia (t : MessageType) : bool :=
  match t with
  | image | video | audio | document | sticker => true
  | _ => false
  end.

(** A row as the webhook inserts it at time [now]. *)
Definition insertedByWebhook (now : Z) (r : ChatMessage.t) : Prop :=
  ChatMessage.whatsappConnectionType r = api /\
  ChatMessage.direction r = inbound /\
  ChatMessage.status r = msgDelivered /\
  ChatMessage.deliveredAt r = Some now.

End NormalizeSpec.

(** * Properties *)

(** ** Generic facts about the query helpers *)

Section QueryFacts.
Context {A : Type}.
Variable p : A -> bool.

Lemma find_app_hit (l : list A) (x : A) :
  p x = true -> exists r, find p (l ++ [x]) = Some r.
Proof.
  intros Hx. induction l as [|a l IH]; simpl.
  - rewrite Hx. eauto.
  - destruct (p a); eauto.
Qed.

Lemma find_app_miss (l : list A) (x : A) :
  find p l = None -> find p (l ++ [x]) = if p x then Some x else None.
Proof.
  induction l as [|a l IH]; simpl; intros H.
  - reflexivity.
  - destruct (p a); [discriminate | auto].
Qed.


(** An update that does not change the columns a lookup tests leaves the
    lookup at the same row, updated. *)
Lemma find_updateWhere (q : A -> bool) (f : A -> A) (l : list A) :
  (forall x, p (f x) = p x) ->
  find p (updateWhere q f l)
  = option_map (fun r => if q r then f r else r) (find p l).
Proof.
  intros Hf. induction l as [|a l IH]; simpl; [reflexivity|].
  assert (Ha : p (if q a then f a else a) = p a)
    by (destruct (q a); [apply Hf | reflexivity]).
  rewrite Ha. destruct (p a); [reflexivity | exact IH].
Qed.


End QueryFacts.


(** ** The QR bridge: skipped identities and redelivery *)

Module MessageHandlerFacts.
Import MessageHandler.

Lemma skipped_broadcast (jid : string) :
  JS.includes jid "status@broadcast" = true \/ JS.includes jid "@lid" = true ->
  skipped (Some jid) = true.
Proof.
  unfold skipped. intros [H|H]; rewrite H; rewrite ?orb_true_r; reflexivity.
Qed.

Lemma resolveLead_chatMessages message jid upsertType now db :
  chatMessages (fst (resolveLead message jid upsertType now db)) = chatMessages db.
Proof.
  unfold resolveLead. destruct (findLead db (phoneOf jid)).
  - destruct (UpsertType_eqb upsertType notify); reflexivity.
  - destruct (defaultPlacement db). destruct (timestampOf message now); reflexivity.
Qed.

Lemma resolveConversation_chatMessages userId message jid upsertType leadId now db :
  chatMessages (fst (resolveConversation userId message jid upsertType leadId now db))
  = chatMessages db.
Proof.
  unfold resolveConversation. destruct (findConversation db leadId userId jid).
  - destruct (conversationUpdates _ _ _ _ _);
      [destruct (Conversation.hasKeys _)|]; reflexivity.
  - destruct (timestampOf message now); reflexivity.
Qed.

Lemma resolveConversation_leads userId message jid upsertType leadId now db :
  leads (fst (resolveConversation userId message jid upsertType leadId now db))
  = leads db.
Proof.
  unfold resolveConversation. destruct (findConversation db leadId userId jid).
  - destruct (conversationUpdates _ _ _ _ _);
      [destruct (Conversation.hasKeys _)|]; reflexivity.
  - destruct (timestampOf message now); reflexivity.
Qed.

(** With a timestamp that is a valid date, the [updates] object holds no
    Invalid Date. *)
Lemma conversationUpdates_valid c upsertType fromMe ts now :
  exists updates, conversationUpdates c upsertType fromMe (Some ts) now = Some updates.
Proof.
  unfold conversationUpdates.
  destruct (UpsertType_eqb upsertType notify && negb fromMe); [eauto|].
  destruct (UpsertType_eqb upsertType append || fromMe); [|eauto].
  destruct (Conversation.lastMessageAt c) as [current|]; [|eauto].
  destruct (current <? ts); eauto.
Qed.

(** With a timestamp that is a valid date neither step throws. *)
Lemma resolveLead_returns message jid upsertType now db ts :
  timestampOf message now = Some ts ->
  exists leadId, snd (resolveLead message jid upsertType now db) = Some leadId.
Proof.
  intros Hts. unfold resolveLead. rewrite Hts.
  destruct (findLead db (phoneOf jid)).
  - destruct (UpsertType_eqb upsertType notify); eexists; reflexivity.
  - destruct (defaultPlacement db). eexists; reflexivity.
Qed.

Lemma resolveConversation_returns userId message jid upsertType leadId now db ts :
  timestampOf message now = Some ts ->
  exists conversationId,
    snd (resolveConversation userId message jid upsertType leadId now db)
    = Some conversationId.
Proof.
  intros Hts. unfold resolveConversation. rewrite Hts.
  destruct (findConversation db leadId userId jid) as [c|];
    [|eexists; reflexivity].
  destruct (conversationUpdates_valid c upsertType (Baileys.fromMe (Baileys.key message))
                                      ts now) as (updates & ->).
  destruct (Conversation.hasKeys updates); eexists; reflexivity.
Qed.

(** What a delivery that is neither skipped nor a duplicate, and whose
    timestamp is a valid date, does to the three tables. *)
Lemma handleIncomingMessage_fresh userId message upsertType now db jid ts :
  Baileys.remoteJid (Baileys.key message) = Some jid ->
  skipped (Some jid) = false ->
  findExistingMessage db (Baileys.id (Baileys.key message)) = None ->
  timestampOf message now = Some ts ->
  exists leadId conversationId,
    let r1 := resolveLead message jid upsertType now db in
    let r2 := resolveConversation userId message jid upsertType leadId now (fst r1) in
    let db' := handleIncomingMessage userId message upsertType now db in
    snd r1 = Some leadId /\
    snd r2 = Some conversationId /\
    leads db' = leads (fst r1) /\
    conversations db' = conversations (fst r2) /\
    chatMessages db'
    = chatMessages db ++ [newChatMessage userId message conversationId ts now (fst r2)].
Proof.
  intros Hjid Hskip Hnew Hts.
  destruct (resolveLead_returns message jid upsertType now db ts Hts) as (leadId & Hl).
  destruct (resolveConversation_returns
              userId message jid upsertType leadId now
              (fst (resolveLead message jid upsertType now db)) ts Hts) as (cid & Hc).
  exists leadId, cid. cbv zeta.
  pose proof (resolveLead_chatMessages message jid upsertType now db) as Hm1.
  pose proof (resolveConversation_chatMessages
                userId message jid upsertType leadId now
                (fst (resolveLead message jid upsertType now db))) as Hm2.
  pose proof (resolveConversation_leads
                userId message jid upsertType leadId now
                (fst (resolveLead message jid upsertType now db))) as Hl2.
  unfold handleIncomingMessage. rewrite Hjid, Hskip, Hnew.
  destruct (resolveLead message jid upsertType now db) as [db1 l] eqn:E1.
  cbn [fst snd] in *. subst l.
  destruct (resolveConversation userId message jid upsertType leadId now db1)
    as [db2 c] eqn:E2.
  cbn [fst snd] in *. subst c. rewrite Hts.
  cbn [leads conversations chatMessages withChatMessages].
  repeat split; congruence.
Qed.

(** The leads after a delivery are those the lead step leaves, whether or
    not a later step throws. *)
Lemma handleIncomingMessage_leads userId message upsertType now db jid :
  Baileys.remoteJid (Baileys.key message) = Some jid ->
  skipped (Some jid) = false ->
  findExistingMessage db (Baileys.id (Baileys.key message)) = None ->
  leads (handleIncomingMessage userId message upsertType now db)
  = leads (fst (resolveLead message jid upsertType now db)).
Proof.
  intros Hjid Hskip Hnew. unfold handleIncomingMessage. rewrite Hjid, Hskip, Hnew.
  destruct (resolveLead message jid upsertType now db) as [db1 [leadId|]];
    [|reflexivity].
  pose proof (resolveConversation_leads userId message jid upsertType leadId now db1)
    as Hl.
  destruct (resolveConversation userId message jid upsertType leadId now db1)
    as [db2 [cid|]]; cbn [fst] in *; [|exact Hl].
  destruct (timestampOf message now); [|exact Hl]. exact Hl.
Qed.

(** A message whose timestamp is not a valid date is never stored. *)
Lemma handleIncomingMessage_invalid userId message upsertType now db :
  timestampOf message now = None ->
  chatMessages (handleIncomingMessage userId message upsertType now db)
  = chatMessages db.
Proof.
  intros Hts. unfold handleIncomingMessage.
  destruct (skipped _); [reflexivity|].
  destruct (Baileys.remoteJid (Baileys.key message)) as [jid|]; [|reflexivity].
  destruct (findExistingMessage db _); [reflexivity|].
  pose proof (resolveLead_chatMessages message jid upsertType now db) as H1.
  destruct (resolveLead message jid upsertType now db) as [db1 [leadId|]];
    cbn [fst] in *; [|exact H1].
  pose proof (resolveConversation_chatMessages
                userId message jid upsertType leadId now db1) as H2.
  destruct (resolveConversation userId message jid upsertType leadId now db1)
    as [db2 [cid|]]; cbn [fst] in *; [|congruence].
  rewrite Hts. congruence.
Qed.

(** Redelivering a message that was stored changes nothing, whatever the
    clock and the upsert type of the second delivery. *)
Theorem handleIncomingMessage_redelivery userId message t1 t2 now1 now2 db ts :
  timestampOf message now1 = Some ts ->
  handleIncomingMessage userId message t2 now2
    (handleIncomingMessage userId message t1 now1 db)
  = handleIncomingMessage userId message t1 now1 db.
Proof.
  intros Hts.
  destruct (Baileys.remoteJid (Baileys.key message)) as [jid|] eqn:Hjid.
  2:{ unfold handleIncomingMessage. rewrite Hjid. reflexivity. }
  destruct (skipped (Some jid)) eqn:Hskip.
  { unfold handleIncomingMessage. rewrite Hjid, Hskip. reflexivity. }
  destruct (findExistingMessage db (Baileys.id (Baileys.key message))) eqn:Hdup.
  { assert (Hnoop : forall t now, handleIncomingMessage userId message t now db = db)
      by (intros; unfold handleIncomingMessage; rewrite Hjid, Hskip, Hdup; reflexivity).
    rewrite !Hnoop. reflexivity. }
  destruct (handleIncomingMessage_fresh userId message t1 now1 db jid ts
              Hjid Hskip Hdup Hts) as (leadId & cid & _ & _ & _ & _ & Hmsgs).
  set (db' := handleIncomingMessage userId message t1 now1 db) in *.
  unfold handleIncomingMessage at 1. rewrite Hjid, Hskip.
  unfold findExistingMessage at 1. rewrite Hmsgs.
  match goal with
  | |- context [find ?p (?l ++ [?x])] =>
      destruct (find_app_hit p l x) as [r Hr]
  end.
  { cbn. rewrite String.eqb_refl. reflexivity. }
  rewrite Hr. reflexivity.
Qed.

End MessageHandlerFacts.

(** C8.  A QR-bridge message whose remote identity contains
    [status@broadcast] or [@lid] leaves the whole database, and so the leads,
    the conversations and the chat messages, exactly as they were. *)
Theorem C8_broadcast_identities_are_skipped
        (userId : Z) (message : Baileys.WAMessage) (upsertType : UpsertType)
        (now : Z) (db : Db) (jid : string) :
  Baileys.remoteJid (Baileys.key message) = Some jid ->
  JS.includes jid "status@broadcast" = true \/ JS.includes jid "@lid" = true ->
  MessageHandler.handleIncomingMessage userId message upsertType now db = db.
Proof.
  intros Hjid Hpat. unfold MessageHandler.handleIncomingMessage.
  rewrite Hjid, (MessageHandlerFacts.skipped_broadcast jid Hpat). reflexivity.
Qed.

Lemma C8_broadcast_witness :
  MessageHandler.handleIncomingMessage 7 Fixtures.qrBroadcast notify 5 Fixtures.connected
  = Fixtures.connected.
Proof.
  apply (C8_broadcast_identities_are_skipped 7 Fixtures.qrBroadcast notify 5
           Fixtures.connected "status@broadcast").
  - reflexivity.
  - left. reflexivity.
Defined.

(** ** The signature verifier *)

Module VerifierFacts.

Lemma prefix_split (p s : string) :
  String.prefix p s = true -> s = (p ++ JS.slice s (String.length p))%string.
Proof.
  revert s. induction p as [|c p IH]; intros s H; simpl in *.
  - reflexivity.
  - destruct s as [|d s]; simpl in H; [discriminate|].
    destruct (ascii_dec c d) as [->|]; [|discriminate].
    simpl. f_equal. apply IH, H.
Qed.

Lemma prefix_append (p x : string) : String.prefix p (p ++ x)%string = true.
Proof.
  induction p as [|c p IH]; simpl; [destruct x; reflexivity|].
  destruct (ascii_dec c c); [exact IH | congruence].
Qed.

Lemma slice_append (p x : string) : JS.slice (p ++ x)%string (String.length p) = x.
Proof. induction p as [|c p IH]; simpl; [reflexivity | exact IH]. Qed.

Lemma equal_eq (a b : list Byte.byte) : Buffer.equal a b = true <-> a = b.
Proof.
  revert b. induction a as [|x a IH]; intros [|y b]; simpl;
    try (split; [discriminate || reflexivity | discriminate || reflexivity]).
  rewrite andb_true_iff, IH. split.
  - intros [Hxy ->]. apply Byte.byte_dec_bl in Hxy. subst. reflexivity.
  - intros [= -> ->]. split; [apply Byte.byte_dec_lb|]; reflexivity.
Qed.

(** The comparison inside the [try] block succeeds exactly on equal
    buffers: unequal lengths throw and are caught. *)
Lemma compare_caught (a b : list Byte.byte) :
  match Buffer.timingSafeEqual a b with Some r => r | None => false end = true
  <-> a = b.
Proof.
  unfold Buffer.timingSafeEqual.
  destruct (List.length a =? List.length b)%nat eqn:E.
  - apply equal_eq.
  - apply Nat.eqb_neq in E. split; [discriminate | intros ->; congruence].
Qed.

(** With a secret, a prefixed header and a non-empty raw body, the verdict is
    the equality of the two decoded buffers. *)
Lemma verifySignature_decoded rt env req secret signature raw :
  whatsappAppSecret env = Some secret -> secret <> "" ->
  JS.nullish (x_hub_signature_256 req) "" = ("sha256=" ++ signature)%string ->
  rawBody req = Some raw -> raw <> [] ->
  Webhook.verifySignature rt env req = true
  <-> Buffer.fromHex signature = Buffer.fromHex (hmacSha256Hex rt secret raw).
Proof.
  intros Hsec Hne Hhdr Hraw Hnonempty. unfold Webhook.verifySignature.
  rewrite Hsec. apply String.eqb_neq in Hne. rewrite Hne, Hhdr, Hraw.
  unfold JS.startsWith. rewrite prefix_append, slice_append. simpl negb. cbv iota.
  destruct raw as [|b raw]; [congruence|]. simpl Nat.eqb. cbv iota.
  apply compare_caught.
Qed.

(** *** Hexadecimal digits *)

Lemma isDigit_hexDigit (c : ascii) :
  Hex.isDigit c = match Buffer.hexDigit c with Some _ => true | None => false end.
Proof. destruct c as [[] [] [] [] [] [] [] []]; reflexivity. Qed.

Lemma hexDigit_lower (c : ascii) :
  Buffer.hexDigit (Hex.lowerChar c) = Buffer.hexDigit c.
Proof. destruct c as [[] [] [] [] [] [] [] []]; reflexivity. Qed.

Lemma hexDigit_value (c : ascii) (n : N) :
  Buffer.hexDigit c = Some n -> (n < 16)%N /\ Hex.lowerChar c = Hex.digitChar n.
Proof.
  destruct c as [[] [] [] [] [] [] [] []]; vm_compute; intros H;
    try discriminate H; injection H as <-; split; reflexivity.
Qed.

Lemma isDigit_value (c : ascii) :
  Hex.isDigit c = true -> exists n, Buffer.hexDigit c = Some n.
Proof.
  rewrite isDigit_hexDigit. destruct (Buffer.hexDigit c) as [n|]; [eauto | discriminate].
Qed.

Lemma byte_inj (hi lo hi' lo' : N) :
  (hi < 16)%N -> (lo < 16)%N -> (hi' < 16)%N -> (lo' < 16)%N ->
  byte_of_ascii (ascii_of_N (16 * hi + lo)) = byte_of_ascii (ascii_of_N (16 * hi' + lo')) ->
  hi = hi' /\ lo = lo'.
Proof.
  intros H1 H2 H3 H4 E.
  apply (f_equal ascii_of_byte) in E. rewrite !ascii_of_byte_of_ascii in E.
  apply (f_equal N_of_ascii) in E.
  rewrite !N_ascii_embedding in E by lia. lia.
Qed.

(** *** Strings of digit pairs *)

Lemma pair_ind (P : string -> Prop) :
  P EmptyString ->
  (forall a, P (String a EmptyString)) ->
  (forall a b rest, P rest -> P (String a (String b rest))) ->
  forall s, P s.
Proof.
  intros H0 H1 H2. fix IH 1. intros [|a [|b rest]]; [exact H0 | apply H1 |].
  apply H2, IH.
Qed.

Lemma fromHex_pair (a b : ascii) (rest : string) :
  Hex.isDigit a && Hex.isDigit b = true ->
  exists hi lo,
    Buffer.hexDigit a = Some hi /\ Buffer.hexDigit b = Some lo /\
    Buffer.fromHex (String a (String b rest))
    = byte_of_ascii (ascii_of_N (16 * hi + lo)) :: Buffer.fromHex rest.
Proof.
  intros H. apply andb_true_iff in H. destruct H as (Ha & Hb).
  destruct (isDigit_value a Ha) as (hi & Hhi).
  destruct (isDigit_value b Hb) as (lo & Hlo).
  exists hi, lo. cbn [Buffer.fromHex]. rewrite Hhi, Hlo. auto.
Qed.

Lemma fromHex_no_pair (rest : string) :
  Hex.startsWithPair rest = false -> Buffer.fromHex rest = [].
Proof.
  destruct rest as [|a [|b rest]]; [reflexivity | reflexivity |].
  cbn [Hex.startsWithPair Buffer.fromHex]. rewrite !isDigit_hexDigit.
  destruct (Buffer.hexDigit a), (Buffer.hexDigit b); (discriminate || reflexivity).
Qed.

Lemma fromHex_prefix (accepted rest : string) :
  Hex.pairs accepted = true -> Hex.startsWithPair rest = false ->
  Buffer.fromHex (accepted ++ rest)%string = Buffer.fromHex accepted.
Proof.
  intros Hacc Hrest. revert Hacc.
  induction accepted as [| a | a b acc IH] using pair_ind; intros Hacc.
  - cbn [String.append]. rewrite (fromHex_no_pair rest Hrest). reflexivity.
  - discriminate Hacc.
  - cbn [Hex.pairs] in Hacc. apply andb_true_iff in Hacc. destruct Hacc as (Hab & Hacc).
    destruct (fromHex_pair a b (acc ++ rest)%string Hab) as (hi & lo & Hhi & Hlo & E).
    destruct (fromHex_pair a b acc Hab) as (hi' & lo' & Hhi' & Hlo' & E').
    cbn [String.append]. rewrite E, E', (IH Hacc). congruence.
Qed.

Lemma fromHex_lower (s : string) : Buffer.fromHex (Hex.lower s) = Buffer.fromHex s.
Proof.
  induction s as [| a | a b rest IH] using pair_ind; [reflexivity | reflexivity |].
  cbn [Hex.lower Buffer.fromHex]. rewrite !hexDigit_lower, IH. reflexivity.
Qed.

(** On strings of digit pairs decoding forgets the letter case and nothing
    else. *)
Lemma fromHex_inj (a b : string) :
  Hex.pairs a = true -> Hex.pairs b = true ->
  Buffer.fromHex a = Buffer.fromHex b -> Hex.lower a = Hex.lower b.
Proof.
  revert b. induction a as [| a1 | a1 a2 ra IH] using pair_ind; intros b Ha Hb E.
  - destruct b as [|b1 [|b2 rb]]; [reflexivity | discriminate Hb |].
    cbn [Hex.pairs] in Hb. apply andb_true_iff in Hb. destruct Hb as (Hb & _).
    destruct (fromHex_pair b1 b2 rb Hb) as (? & ? & _ & _ & E'). rewrite E' in E.
    discriminate E.
  - discriminate Ha.
  - cbn [Hex.pairs] in Ha. apply andb_true_iff in Ha. destruct Ha as (Ha & Hra).
    destruct (fromHex_pair a1 a2 ra Ha) as (hi & lo & Hhi & Hlo & Ea). rewrite Ea in E.
    destruct b as [|b1 [|b2 rb]]; [discriminate E | discriminate Hb |].
    cbn [Hex.pairs] in Hb. apply andb_true_iff in Hb. destruct Hb as (Hb & Hrb).
    destruct (fromHex_pair b1 b2 rb Hb) as (hi' & lo' & Hhi' & Hlo' & Eb).
    rewrite Eb in E. injection E as Ebyte Erest.
    destruct (hexDigit_value a1 hi Hhi) as (B1 & L1).
    destruct (hexDigit_value a2 lo Hlo) as (B2 & L2).
    destruct (hexDigit_value b1 hi' Hhi') as (B3 & L3).
    destruct (hexDigit_value b2 lo' Hlo') as (B4 & L4).
    destruct (byte_inj hi lo hi' lo' B1 B2 B3 B4 Ebyte) as (-> & ->).
    cbn [Hex.lower]. rewrite L1, L2, L3, L4, (IH rb Hra Hrb Erest). reflexivity.
Qed.

(** Every string is a string of digit pairs followed by text that does not
    begin with one. *)
Lemma split_pairs (s : string) :
  exists accepted rest,
    s = (accepted ++ rest)%string /\ Hex.pairs accepted = true /\
    Hex.startsWithPair rest = false.
Proof.
  induction s as [| a | a b r IH] using pair_ind.
  - exists EmptyString, EmptyString. auto.
  - exists EmptyString, (String a EmptyString). auto.
  - destruct (Hex.isDigit a && Hex.isDigit b) eqn:Hab.
    + destruct IH as (acc & rest & -> & Hacc & Hrest).
      exists (String a (String b acc)), rest. cbn [String.append Hex.pairs].
      rewrite Hab, Hacc. auto.
    + exists EmptyString, (String a (String b r)). cbn [String.append Hex.startsWithPair].
      auto.
Qed.

Lemma length_lower (s : string) : String.length (Hex.lower s) = String.length s.
Proof. induction s as [|c s IH]; [reflexivity|]. cbn. rewrite IH. reflexivity. Qed.

Lemma length_append (a b : string) :
  String.length (a ++ b)%string = (String.length a + String.length b)%nat.
Proof. induction a as [|c a IH]; [reflexivity|]. cbn. rewrite IH. reflexivity. Qed.

(** For a digest written as lower-case digit pairs, as [digest("hex")]
    writes it: the signatures that decode to the same bytes. *)
Lemma decoded_accepts (signature digest : string) :
  Hex.pairs digest = true -> Hex.lower digest = digest ->
  Buffer.fromHex signature = Buffer.fromHex digest <-> Hex.accepts signature digest.
Proof.
  intros Hpairs Hlower. split.
  - intros E. destruct (split_pairs signature) as (acc & rest & -> & Hacc & Hrest).
    exists acc, rest. repeat split; auto.
    rewrite (fromHex_prefix acc rest Hacc Hrest) in E.
    rewrite (fromHex_inj acc digest Hacc Hpairs E). exact Hlower.
  - intros (acc & rest & -> & Hacc & Hlow & Hrest).
    rewrite (fromHex_prefix acc rest Hacc Hrest), <- Hlow. symmetry. apply fromHex_lower.
Qed.

End VerifierFacts.

(** C9, as the code has it.  [verifySignature] is a total boolean function
    (the exception of the comparison is caught inside it).  Without a
    configured secret it returns [true].  With a secret it returns [false]
    when the header does not start with [sha256=] and when the raw body is
    missing or empty.  Otherwise, the HMAC-SHA256 digest being written as
    lower-case pairs of hexadecimal digits, it returns [true] exactly when
    the signature stands for the digest: it is the digest, in either letter
    case, followed by any text that does not begin with a pair of
    hexadecimal digits.  So a signature made of digit pairs is accepted
    exactly when it is the digest up to letter case, and a signature shorter
    than the digest is rejected. *)
Theorem C9_verifySignature_spec (rt : Runtime) (env : Env) (req : Request) :
  let result := Webhook.verifySignature rt env req in
  let header := JS.nullish (x_hub_signature_256 req) "" in
  (JS.truthy (whatsappAppSecret env) = false -> result = true) /\
  (forall secret : string,
      whatsappAppSecret env = Some secret -> secret <> "" ->
      (JS.startsWith header "sha256=" = false -> result = false) /\
      (rawBody req = None \/ rawBody req = Some [] -> result = false) /\
      (forall signature raw,
          header = ("sha256=" ++ signature)%string ->
          rawBody req = Some raw -> raw <> [] ->
          let digest := hmacSha256Hex rt secret raw in
          Hex.pairs digest = true -> Hex.lower digest = digest ->
          (result = true <-> Hex.accepts signature digest) /\
          (Hex.pairs signature = true ->
           (result = true <-> Hex.lower signature = digest)) /\
          ((String.length signature < String.length digest)%nat -> result = false))).
Proof.
  intros result header. split.
  - subst result. unfold Webhook.verifySignature.
    destruct (whatsappAppSecret env) as [s|]; [|reflexivity].
    simpl. destruct (s =? "")%string; [reflexivity | discriminate].
  - intros secret Hsec Hne. split; [|split].
    + subst result. unfold Webhook.verifySignature. fold header.
      rewrite Hsec. apply String.eqb_neq in Hne. rewrite Hne.
      intros ->. reflexivity.
    + subst result. unfold Webhook.verifySignature. fold header.
      rewrite Hsec. apply String.eqb_neq in Hne. rewrite Hne.
      intros [Hraw|Hraw]; rewrite Hraw;
        destruct (JS.startsWith header "sha256="); reflexivity.
    + intros signature raw Hhdr Hraw Hnonempty digest Hpairs Hlower.
      pose proof (VerifierFacts.verifySignature_decoded
                    rt env req secret signature raw Hsec Hne Hhdr Hraw Hnonempty) as Hdec.
      fold result in Hdec. fold digest in Hdec.
      pose proof (VerifierFacts.decoded_accepts signature digest Hpairs Hlower) as Hacc.
      split; [rewrite Hdec; exact Hacc|]. split.
      * intros Hsig. rewrite Hdec. split.
        -- intros E. rewrite (VerifierFacts.fromHex_inj signature digest Hsig Hpairs E).
           exact Hlower.
        -- intros <-. symmetry. apply VerifierFacts.fromHex_lower.
      * intros Hshort. apply not_true_is_false. intros Hres.
        apply Hdec, Hacc in Hres. destruct Hres as (acc & rest & -> & _ & <- & _).
        rewrite VerifierFacts.length_append, VerifierFacts.length_lower in Hshort. lia.
Qed.

Lemma C9_verifySignature_witness :
  Webhook.verifySignature Fixtures.rt0 Fixtures.envSecret VerifierExamples.signed = true.
Proof.
  destruct (C9_verifySignature_spec Fixtures.rt0 Fixtures.envSecret VerifierExamples.signed)
    as (_ & H).
  destruct (H "s3cret" eq_refl ltac:(discriminate)) as (_ & _ & Hsig).
  destruct (Hsig "00ff" [Byte.x68; Byte.x69] eq_refl eq_refl ltac:(discriminate)
                 eq_refl eq_refl) as (_ & Hpairs & _).
  apply (Hpairs eq_refl). reflexivity.
Defined.

(** C9, as claimed, fails: the signature [00ffzz] is not the digest [00ff],
    and is not of its length, and is accepted. *)
Lemma C9_padded_signature_counterexample :
  x_hub_signature_256 VerifierExamples.padded = Some "sha256=00ffzz" /\
  hmacSha256Hex Fixtures.rt0 "s3cret" [Byte.x68; Byte.x69] = "00ff" /\
  "00ffzz" <> "00ff" /\
  String.length "00ffzz" <> String.length "00ff" /\
  Webhook.verifySignature Fixtures.rt0 Fixtures.envSecret VerifierExamples.padded = true.
Proof. repeat split; discriminate. Qed.

(** ** The status reconciler *)

Module StatusFacts.
Import Webhook StatusSpec.


Lemma updateWhere_same {A} (q : A -> bool) (f : A -> A) (l : list A) :
  (forall x, f x = x) -> updateWhere q f l = l.
Proof.
  intros Hf. unfold updateWhere. induction l as [|a l IH]; simpl; [reflexivity|].
  rewrite IH. destruct (q a); [rewrite Hf|]; reflexivity.
Qed.

Lemma updateWhere_compose {A} (q : A -> bool) (f g : A -> A) (l : list A) :
  (forall x, q (f x) = q x) ->
  updateWhere q g (updateWhere q f l) = updateWhere q (fun x => g (f x)) l.
Proof.
  intros Hq. unfold updateWhere. rewrite map_map. apply map_ext. intros a.
  destruct (q a) eqn:E; [rewrite Hq, E | rewrite E]; reflexivity.
Qed.

Lemma findRecipient_updated db msgId rec f :
  findRecipient db msgId = Some rec ->
  (forall r, CampaignRecipient.whatsappMessageId (f r)
             = CampaignRecipient.whatsappMessageId r) ->
  findRecipient (updateRecipient (CampaignRecipient.id rec) f db) msgId = Some (f rec).
Proof.
  intros Hfind Hf. unfold findRecipient, updateRecipient in *. simpl.
  rewrite find_updateWhere by (intros; rewrite Hf; reflexivity).
  rewrite Hfind. simpl. rewrite Z.eqb_refl. reflexivity.
Qed.

Lemma findRecipient_updateCampaign campaignId f db msgId :
  findRecipient (updateCampaign campaignId f db) msgId = findRecipient db msgId.
Proof. reflexivity. Qed.

Lemma campaigns_updateCampaign campaignId f db :
  campaigns (updateCampaign campaignId f db)
  = updateWhere (fun c => Campaign.id c =? campaignId) f (campaigns db).
Proof. reflexivity. Qed.

Lemma campaigns_updateRecipient recId f db :
  campaigns (updateRecipient recId f db) = campaigns db.
Proof. reflexivity. Qed.

(** The roll-up of one event follows the transition table. *)
Lemma trackCampaign_refines rec status now db msgId :
  findRecipient db msgId = Some rec ->
  let db' := trackCampaign rec status now db in
  (exists rec',
      findRecipient db' msgId = Some rec' /\
      CampaignRecipient.id rec' = CampaignRecipient.id rec /\
      CampaignRecipient.campaignId rec' = CampaignRecipient.campaignId rec /\
      currentStatus rec' = nextStatus status (currentStatus rec)) /\
  campaigns db'
  = updateWhere (fun c => Campaign.id c =? CampaignRecipient.campaignId rec)
                (moveCounters status (currentStatus rec)) (campaigns db) /\
  chatMessages db' = chatMessages db /\
  conversations db' = conversations db.
Proof.
  intros Hfind db'. subst db'.
  assert (Hsame : campaigns db
                  = updateWhere (fun c => Campaign.id c =? CampaignRecipient.campaignId rec)
                                (fun c => c) (campaigns db))
    by (symmetry; apply updateWhere_same; reflexivity).
  unfold trackCampaign, nextStatus, moveCounters.
  destruct (status =? "delivered")%string;
    [|destruct (status =? "read")%string;
      [|destruct (status =? "failed")%string;
        [|destruct (status =? "sent")%string]]];
    destruct (currentStatus rec) eqn:Hcur; cbn [RecipientStatus_eqb negb andb];
    cbv iota;
    (split; [| split; [| split; reflexivity]]).
  all: try exact Hsame.
  all: try reflexivity.
  all: try (rewrite !campaigns_updateCampaign, campaigns_updateRecipient,
                    updateWhere_compose by reflexivity; reflexivity).
  all: try (exists rec; repeat split; (exact Hfind || exact Hcur)).
  all: rewrite ?findRecipient_updateCampaign;
    eexists; (split; [apply (findRecipient_updated db msgId rec _ Hfind); reflexivity|]);
    repeat split.
Qed.

(** The roll-up writes only the campaign tables. *)
Lemma trackCampaign_frame rec status now db :
  let db' := trackCampaign rec status now db in
  chatMessages db' = chatMessages db /\
  conversations db' = conversations db /\
  leads db' = leads db /\
  whatsappConnections db' = whatsappConnections db.
Proof.
  unfold trackCampaign.
  repeat match goal with
         | |- context [if ?c then _ else _] => destruct c
         end; repeat split.
Qed.

(** A status event for a linked message follows the transition table. *)
Lemma handleStatus_refines now msgId status db rec :
  msgId <> "" ->
  findRecipient db msgId = Some rec ->
  let db' := handleStatus now (event msgId status) db in
  (exists rec',
      findRecipient db' msgId = Some rec' /\
      CampaignRecipient.campaignId rec' = CampaignRecipient.campaignId rec /\
      currentStatus rec' = nextStatus status (currentStatus rec)) /\
  campaigns db'
  = updateWhere (fun c => Campaign.id c =? CampaignRecipient.campaignId rec)
                (moveCounters status (currentStatus rec)) (campaigns db).
Proof.
  intros Hne Hfind db'. subst db'. unfold handleStatus, event. cbn [Cloud.id_ Cloud.status JS.nullish].
  apply String.eqb_neq in Hne. rewrite Hne.
  match goal with
  | |- context [findRecipient ?d msgId] =>
      assert (Hfind' : findRecipient d msgId = Some rec)
        by (destruct (ChatMessage.hasKeys (statusPatch status now)); exact Hfind);
      assert (Hcamp : campaigns d = campaigns db)
        by (destruct (ChatMessage.hasKeys (statusPatch status now)); reflexivity);
      rewrite Hfind';
      destruct (trackCampaign_refines rec status now d msgId Hfind')
        as ((rec' & Hr & _ & Hc & Hs) & Hcs & _)
  end.
  split; [exists rec'; auto | rewrite Hcs, Hcamp; reflexivity].
Qed.








End StatusFacts.




Module MessageStatusFacts.
Import Webhook StatusSpec.


(** The chat-message side of a status event: every row carrying the message
    id is overwritten with the patch of the event, whatever its state. *)
Lemma handleStatus_chatMessages now msgId status db :
  msgId <> "" ->
  chatMessages (handleStatus now (StatusSpec.event msgId status) db)
  = if ChatMessage.hasKeys (statusPatch status now)
    then updateWhere (linkedTo msgId) (ChatMessage.apply (statusPatch status now))
                     (chatMessages db)
    else chatMessages db.
Proof.
  intros Hne. unfold handleStatus, StatusSpec.event.
  cbn [Cloud.id_ Cloud.status JS.nullish].
  apply String.eqb_neq in Hne. rewrite Hne.
  match goal with
  | |- context [findRecipient ?d msgId] =>
      destruct (findRecipient d msgId) as [rec|];
      [rewrite (proj1 (StatusFacts.trackCampaign_frame rec status now d))|]
  end;
  destruct (ChatMessage.hasKeys (statusPatch status now)); reflexivity.
Qed.

End MessageStatusFacts.

(** C2 (the code does not do this).  Status events overwrite
    [ChatMessage.status] unconditionally: after [read], [delivered], [sent],
    in this order, every row of the message is at [sent], not at [read]. *)
Theorem C2_status_is_overwritten
        (db : Db) (msgId : string) (t1 t2 t3 : Z) :
  msgId <> "" ->
  let apply t s d := Webhook.handleStatus t (StatusSpec.event msgId s) d in
  map ChatMessage.status
      (chatMessages (apply t3 "sent" (apply t2 "delivered" (apply t1 "read" db))))
  = map (fun m => if StatusSpec.linkedTo msgId m
                  then msgSent else ChatMessage.status m)
        (chatMessages db).
Proof.
  intros Hne apply. subst apply. cbv beta.
  rewrite !MessageStatusFacts.handleStatus_chatMessages by exact Hne.
  cbn [Webhook.statusPatch String.eqb Ascii.eqb Bool.eqb ChatMessage.hasKeys
       ChatMessage.setStatus ChatMessage.setSentAt ChatMessage.setDeliveredAt
       ChatMessage.setReadAt].
  unfold updateWhere. rewrite !map_map. apply map_ext. intros m.
  unfold StatusSpec.linkedTo.
  destruct (optString_eqb (ChatMessage.whatsappMessageId m) msgId) eqn:E;
    cbn [ChatMessage.apply ChatMessage.whatsappMessageId]; rewrite ?E;
    cbn [ChatMessage.apply ChatMessage.whatsappMessageId]; rewrite ?E; reflexivity.
Qed.

Lemma C2_status_is_overwritten_witness :
  map ChatMessage.status
      (chatMessages
         (Webhook.handleStatus 3 (StatusSpec.event "M1" "sent")
            (Webhook.handleStatus 2 (StatusSpec.event "M1" "delivered")
               (Webhook.handleStatus 1 (StatusSpec.event "M1" "read")
                                     StatusExamples.db))))
  = [msgSent].
Proof.
  exact (C2_status_is_overwritten StatusExamples.db "M1" 1 2 3 ltac:(discriminate)).
Defined.

(** ** The cloud webhook: one change *)

Module WebhookFacts.
Import Webhook Observe.


Lemma waIds_updateWhere q patch rows :
  map ChatMessage.whatsappMessageId (updateWhere q (ChatMessage.apply patch) rows)
  = map ChatMessage.whatsappMessageId rows.
Proof.
  unfold updateWhere. rewrite map_map. apply map_ext. intros m.
  destruct (q m); reflexivity.
Qed.

(** A status event touches neither the conversations nor the identity of
    the chat-message rows. *)
Lemma handleStatus_frame now st db :
  conversations (handleStatus now st db) = conversations db /\
  waIds (handleStatus now st db) = waIds db.
Proof.
  unfold handleStatus.
  destruct (JS.nullish (Cloud.id_ st) "" =? "")%string; [split; reflexivity|].
  match goal with
  | |- context [findRecipient ?d ?i] =>
      destruct (findRecipient d i) as [rec|];
      [destruct (StatusFacts.trackCampaign_frame
                   rec (JS.nullish (Cloud.status st) "") now d) as (Hm & Hc & _);
       unfold waIds; rewrite Hm, Hc|]
  end;
  destruct (ChatMessage.hasKeys _); split; try reflexivity;
    apply waIds_updateWhere.
Qed.

Lemma statuses_frame now sts db :
  let db' := fold_left (fun d st => handleStatus now st d) sts db in
  conversations db' = conversations db /\ waIds db' = waIds db.
Proof.
  revert db. induction sts as [|st sts IH]; intros db; simpl; [split; reflexivity|].
  destruct (IH (handleStatus now st db)) as (Hc & Hm).
  destruct (handleStatus_frame now st db) as (Hc' & Hm').
  split; congruence.
Qed.

(** The loop over the messages of a change appends one row per message and
    writes no other table. *)
Lemma messages_loop rt wid cid now msgs db :
  let db' := fold_left (fun d m => handleMessage rt wid cid now m d) msgs db in
  conversations db' = conversations db /\
  waIds db' = waIds db ++ map (fun m => JS.strOrNull (Cloud.msgId m)) msgs /\
  (forall m, In m msgs ->
     exists row, In row (chatMessages db') /\
       ChatMessage.whatsappMessageId row = JS.strOrNull (Cloud.msgId m) /\
       ChatMessage.conversationId row = cid /\
       ChatMessage.messageType row = messageType (normalize rt m) /\
       ChatMessage.content row = content (normalize rt m)) /\
  (forall row, In row (chatMessages db) -> In row (chatMessages db')).
Proof.
  revert db. induction msgs as [|m msgs IH]; intros db; simpl.
  - repeat split; [symmetry; apply app_nil_r | intros ? [] | auto].
  - destruct (IH (handleMessage rt wid cid now m db)) as (Hc & Hids & Hrows & Hkeep).
    repeat split.
    + rewrite Hc. reflexivity.
    + rewrite Hids. unfold waIds, handleMessage. simpl.
      rewrite map_app, <- app_assoc. reflexivity.
    + intros m' [<-|Hin]; [|auto].
      eexists. split; [apply Hkeep; simpl; apply in_or_app; right; left; reflexivity|].
      repeat split.
    + intros row Hin. apply Hkeep. simpl. apply in_or_app. left. exact Hin.
Qed.

Lemma findConversation_nonzero db wid phone c :
  Forall (fun c => Conversation.id c <> 0) (conversations db) ->
  findConversation db wid phone = Some c -> (Conversation.id c =? 0) = false.
Proof.
  intros Hall Hfind. unfold findConversation in Hfind.
  apply find_some in Hfind. destruct Hfind as (Hin & _).
  rewrite Forall_forall in Hall. apply Z.eqb_neq, Hall, Hin.
Qed.

(** What a routed change with at least one message and a contact phone does
    to the conversations and the chat messages. *)
Lemma handleChange_routed rt now change db wid :
  let value := Cloud.value change in
  JS.truthy (Cloud.phone_number_id value) = true ->
  getWhatsappNumberIdByPhoneNumberId db (JS.nullish (Cloud.phone_number_id value) "")
  = Some wid ->
  wid <> 0 ->
  Cloud.messages value <> [] ->
  contactPhone value <> "" ->
  exists dbS,
    conversations dbS = conversations db /\ waIds dbS = waIds db /\
    handleChange rt now change db
    = let r := resolveConversation wid (contactPhone value) (contactName value) now dbS in
      fold_left (fun d m => handleMessage rt wid (snd r) now m d)
                (Cloud.messages value) (fst r).
Proof.
  intros value Htruthy Hroute Hwid Hmsgs Hphone.
  exists (fold_left (fun d st => handleStatus now st d) (Cloud.statuses value) db).
  destruct (statuses_frame now (Cloud.statuses value) db) as (Hc & Hm).
  split; [exact Hc|]. split; [exact Hm|].
  unfold handleChange. fold value. rewrite Htruthy, Hroute. simpl negb. cbv iota.
  apply Z.eqb_neq in Hwid. rewrite Hwid.
  unfold handleMessages.
  destruct (Cloud.messages value) as [|m0 msgs] eqn:Em; [congruence|].
  simpl Nat.eqb. cbv iota.
  apply String.eqb_neq in Hphone. rewrite Hphone.
  destruct (resolveConversation _ _ _ _ _). reflexivity.
Qed.

End WebhookFacts.

(** C10.  On the cloud-webhook path one change carrying N >= 1 inbound
    messages appends N chat-message rows, one per message and in order, and
    raises the unread counter of its conversation by exactly one: the
    conversation found for the contact gets [unreadCount + 1], and when none
    is found the conversation created has [unreadCount = 1]. *)
Theorem C10_unread_once_per_change
        (rt : Runtime) (now : Z) (change : Cloud.Change) (db : Db) (wid : Z) :
  let value := Cloud.value change in
  let phone := Webhook.contactPhone value in
  let db' := Webhook.handleChange rt now change db in
  JS.truthy (Cloud.phone_number_id value) = true ->
  Webhook.getWhatsappNumberIdByPhoneNumberId
    db (JS.nullish (Cloud.phone_number_id value) "") = Some wid ->
  wid <> 0 ->
  Cloud.messages value <> [] ->
  phone <> "" ->
  Forall (fun c => Conversation.id c <> 0) (conversations db) ->
  List.length (chatMessages db')
  = (List.length (chatMessages db) + List.length (Cloud.messages value))%nat /\
  Observe.waIds db'
  = Observe.waIds db
    ++ map (fun m => JS.strOrNull (Cloud.msgId m)) (Cloud.messages value) /\
  match Webhook.findConversation db wid phone with
  | Some c =>
      exists c', Webhook.findConversation db' wid phone = Some c' /\
                 Conversation.unreadCount c' = Conversation.unreadCount c + 1
  | None =>
      exists c', conversations db' = conversations db ++ [c'] /\
                 Conversation.unreadCount c' = 1
  end.
Proof.
  intros value phone db' Htruthy Hroute Hwid Hmsgs Hphone Hids.
  destruct (WebhookFacts.handleChange_routed rt now change db wid
              Htruthy Hroute Hwid Hmsgs Hphone) as (dbS & HcS & HmS & Hrun).
  fold value in Hrun. fold phone in Hrun. fold db' in Hrun. cbv zeta in Hrun.
  set (r := Webhook.resolveConversation wid phone (Webhook.contactName value) now dbS)
    in Hrun.
  destruct (WebhookFacts.messages_loop rt wid (snd r) now (Cloud.messages value) (fst r))
    as (Hc & Hm & _). cbv zeta in Hc, Hm. rewrite <- Hrun in Hc, Hm.
  assert (HmR : Observe.waIds (fst r) = Observe.waIds db).
  { rewrite <- HmS. subst r. unfold Webhook.resolveConversation.
    destruct (_ =? 0); reflexivity. }
  assert (Hids' : Observe.waIds db'
                 = Observe.waIds db
                   ++ map (fun m => JS.strOrNull (Cloud.msgId m)) (Cloud.messages value))
    by (rewrite Hm, HmR; reflexivity).
  split.
  { apply (f_equal (@List.length _)) in Hids'.
    unfold Observe.waIds in Hids'.
    rewrite length_app, !length_map in Hids'. exact Hids'. }
  split; [exact Hids'|].
  assert (Hfind : Webhook.findConversation dbS wid phone
                  = Webhook.findConversation db wid phone)
    by (unfold Webhook.findConversation; rewrite HcS; reflexivity).
  destruct (Webhook.findConversation db wid phone) as [c|] eqn:Hc0.
  - unfold Webhook.findConversation at 1. rewrite Hc.
    subst r. unfold Webhook.resolveConversation. rewrite Hfind.
    rewrite (WebhookFacts.findConversation_nonzero db wid phone c Hids Hc0).
    cbn [fst conversations withConversations].
    rewrite find_updateWhere by reflexivity.
    rewrite HcS. unfold Webhook.findConversation in Hc0. rewrite Hc0.
    cbn [option_map]. rewrite Z.eqb_refl.
    eexists. split; reflexivity.
  - rewrite Hc. subst r. unfold Webhook.resolveConversation. rewrite Hfind.
    rewrite Z.eqb_refl. cbn [fst conversations withConversations].
    rewrite HcS. eexists. split; reflexivity.
Qed.

Lemma C10_unread_once_per_change_witness :
  List.length
    (chatMessages
       (Webhook.handleChange Fixtures.rt0 9
          (Fixtures.changeOf [] [Fixtures.cloudText "W1" "hola";
                                 Fixtures.cloudText "W2" "que tal"])
          Fixtures.connected))
  = 2%nat.
Proof.
  exact (proj1
           (C10_unread_once_per_change Fixtures.rt0 9
              (Fixtures.changeOf [] [Fixtures.cloudText "W1" "hola";
                                     Fixtures.cloudText "W2" "que tal"])
              Fixtures.connected 7
              eq_refl eq_refl ltac:(discriminate) ltac:(discriminate)
              ltac:(discriminate) (Forall_nil _))).
Defined.

(** ** The lead resolver *)

Module LeadFacts.
Import MessageHandler.

Lemma sqlMax_none (vals : list Z) : sqlMax vals = None <-> vals = [].
Proof. destruct vals; simpl; split; congruence. Qed.

Lemma fold_max_in (v : Z) (rest : list Z) :
  let m := fold_right Z.max v rest in
  (m = v \/ In m rest) /\ v <= m /\ forall x, In x rest -> x <= m.
Proof.
  induction rest as [|a rest IH]; simpl.
  - repeat split; [left; reflexivity | lia | intros ? []].
  - destruct IH as ([Hm|Hm] & Hv & Hall);
      destruct (Z.max_spec a (fold_right Z.max v rest)) as [[Hlt ->]|[Hle ->]];
      repeat split; try lia; auto;
      intros x [<-|Hx]; try lia; specialize (Hall x Hx); lia.
Qed.

(** SQL [max] over a non-empty column is one of its values and bounds all
    of them. *)
Lemma sqlMax_some (vals : list Z) (m : Z) :
  sqlMax vals = Some m -> In m vals /\ forall x, In x vals -> x <= m.
Proof.
  destruct vals as [|v rest]; simpl; [discriminate|]. intros [= <-].
  destruct (fold_max_in v rest) as (Hin & Hv & Hall). split.
  - destruct Hin as [->|Hin]; auto.
  - intros x [<-|Hx]; auto.
Qed.

Lemma firstByAsc_none {A} (key : A -> Z) (rows : list A) :
  firstByAsc key rows = None <-> rows = [].
Proof.
  destruct rows as [|r rows]; simpl; [tauto|].
  split; [|discriminate].
  destruct (firstByAsc key rows) as [r'|]; [destruct (key r' <? key r)|]; discriminate.
Qed.

(** [order by key asc limit 1] returns a row of least key. *)
Lemma firstByAsc_least {A} (key : A -> Z) (rows : list A) (r : A) :
  firstByAsc key rows = Some r ->
  In r rows /\ forall x, In x rows -> key r <= key x.
Proof.
  revert r. induction rows as [|a rows IH]; simpl; intros r; [discriminate|].
  destruct (firstByAsc key rows) as [r'|] eqn:E.
  - destruct (IH r' eq_refl) as (Hin & Hall).
    destruct (key r' <? key a) eqn:Hlt; intros [= <-].
    + apply Z.ltb_lt in Hlt. split; [auto|].
      intros x [<-|Hx]; [lia | auto].
    + apply Z.ltb_ge in Hlt. split; [auto|].
      intros x [<-|Hx]; [lia | specialize (Hall x Hx); lia].
  - intros [= <-]. apply firstByAsc_none in E. subst rows.
    split; [auto|]. intros x [<-|[]]. lia.
Qed.

(** A message from an unknown phone, with a timestamp that is a valid date,
    appends one lead, placed by [defaultPlacement] and last contacted at the
    time of the message. *)
Lemma resolveLead_new message jid upsertType now db ts :
  findLead db (phoneOf jid) = None ->
  timestampOf message now = Some ts ->
  exists lead,
    leads (fst (resolveLead message jid upsertType now db)) = leads db ++ [lead] /\
    Lead.phone lead = phoneOf jid /\
    Lead.pipelineStageId lead = fst (defaultPlacement db) /\
    Lead.kanbanOrder lead = snd (defaultPlacement db) /\
    Lead.lastContactedAt lead = Some ts.
Proof.
  intros Hnone Hts. unfold resolveLead. rewrite Hnone, Hts.
  destruct (defaultPlacement db) as [stageId nextOrder].
  eexists. split; [reflexivity|]. repeat split.
Qed.


End LeadFacts.




(** C6, as the code has it.  A message from an unknown phone, with a
    timestamp that is a valid date, creates one lead.  Without a default
    pipeline, or when the default pipeline has no stage, the lead has no
    stage and kanban order 0.  Otherwise its stage is a stage of the default
    pipeline of least [order], and its kanban order is one more than the
    greatest kanban order among the leads already in that stage, and 1 when
    that stage holds no lead. *)
Theorem C6_new_lead_placement
        (userId : Z) (message : Baileys.WAMessage) (upsertType : UpsertType)
        (now ts : Z) (db : Db) (jid : string) :
  Baileys.remoteJid (Baileys.key message) = Some jid ->
  MessageHandler.skipped (Some jid) = false ->
  MessageHandler.findExistingMessage db (Baileys.id (Baileys.key message)) = None ->
  MessageHandler.findLead db (MessageHandler.phoneOf jid) = None ->
  MessageHandler.timestampOf message now = Some ts ->
  let db' := MessageHandler.handleIncomingMessage userId message upsertType now db in
  exists lead,
    leads db' = leads db ++ [lead] /\
    Lead.phone lead = MessageHandler.phoneOf jid /\
    match find Pipeline.isDefault (pipelines db) with
    | None => Lead.pipelineStageId lead = None /\ Lead.kanbanOrder lead = 0
    | Some defaultPipeline =>
        let stages := filter (fun s => PipelineStage.pipelineId s
                                       =? Pipeline.id defaultPipeline)
                             (pipelineStages db) in
        match stages with
        | [] => Lead.pipelineStageId lead = None /\ Lead.kanbanOrder lead = 0
        | _ :: _ =>
            exists stage,
              In stage stages /\
              (forall s, In s stages -> PipelineStage.order stage <= PipelineStage.order s) /\
              Lead.pipelineStageId lead = Some (PipelineStage.id stage) /\
              let placed := filter (fun l => optZ_eqb (Lead.pipelineStageId l)
                                                      (PipelineStage.id stage))
                                   (leads db) in
              match placed with
              | [] => Lead.kanbanOrder lead = 1
              | _ :: _ =>
                  (exists l, In l placed /\
                             Lead.kanbanOrder lead = Lead.kanbanOrder l + 1) /\
                  (forall l, In l placed -> Lead.kanbanOrder l < Lead.kanbanOrder lead)
              end
        end
    end.
Proof.
  intros Hjid Hskip Hnew Hnolead Hts db'.
  pose proof (MessageHandlerFacts.handleIncomingMessage_leads
                userId message upsertType now db jid Hjid Hskip Hnew) as Hl.
  fold db' in Hl.
  destruct (LeadFacts.resolveLead_new message jid upsertType now db ts Hnolead Hts)
    as (lead & Hleads & Hphone & Hstage & Horder & _).
  exists lead. rewrite Hl. split; [exact Hleads|]. split; [exact Hphone|].
  rewrite Hstage, Horder. unfold MessageHandler.defaultPlacement.
  destruct (find Pipeline.isDefault (pipelines db)) as [p|]; [|split; reflexivity].
  cbv zeta.
  set (stages := filter _ (pipelineStages db)).
  destruct (firstByAsc PipelineStage.order stages) as [stage|] eqn:Hfirst.
  - destruct (LeadFacts.firstByAsc_least _ _ _ Hfirst) as (Hin & Hleast).
    destruct stages as [|s0 stages']; [destruct Hin|].
    exists stage. split; [exact Hin|]. split; [exact Hleast|].
    split; [reflexivity|]. cbn [snd].
    set (placed := filter _ (leads db)).
    destruct (sqlMax (map Lead.kanbanOrder placed)) as [m|] eqn:Hmax.
    + destruct (LeadFacts.sqlMax_some _ _ Hmax) as (Hinm & Hbound).
      destruct placed as [|l0 placed']; [destruct Hinm|].
      apply in_map_iff in Hinm. destruct Hinm as (l & Hl0 & Hlin).
      split.
      * exists l. split; [exact Hlin | rewrite Hl0; reflexivity].
      * intros l' Hl'. specialize (Hbound (Lead.kanbanOrder l') (in_map _ _ _ Hl')). lia.
    + apply LeadFacts.sqlMax_none in Hmax. apply map_eq_nil in Hmax.
      rewrite Hmax. reflexivity.
  - apply LeadFacts.firstByAsc_none in Hfirst. rewrite Hfirst. split; reflexivity.
Qed.

(** In a first stage that holds leads at kanban orders 4 and 2 (and with a
    lead at 9 in another stage) the new lead is placed at 5. *)
Lemma C6_new_lead_placement_witness :
  exists lead,
    leads (MessageHandler.handleIncomingMessage 7 LeadExamples.first notify 10
             LeadExamples.busyStage)
    = leads LeadExamples.busyStage ++ [lead] /\
    Lead.pipelineStageId lead = Some 10 /\
    Lead.kanbanOrder lead = 5.
Proof.
  destruct (C6_new_lead_placement 7 LeadExamples.first notify 10 1700000000000
              LeadExamples.busyStage LeadExamples.jid
              eq_refl eq_refl eq_refl eq_refl eq_refl)
    as (lead & Hleads & _ & Hplace).
  exists lead. split; [exact Hleads|].
  cbn in Hplace. destruct Hplace as (stage & Hin & Hleast & Hstage & Hplaced).
  destruct Hin as [<-|[<-|[]]].
  - specialize (Hleast (PipelineStage.mk 10 1 1) (or_intror (or_introl eq_refl))).
    cbn in Hleast. lia.
  - split; [exact Hstage|]. cbn in Hplaced.
    destruct Hplaced as ((l & Hl & Horder) & Hbound).
    pose proof (Hbound _ (or_introl eq_refl)) as Hfour. cbn in Hfour.
    destruct Hl as [<-|[<-|[]]]; cbn in Horder; lia.
Defined.

(** C6, as claimed, fails: the first stage of the default pipeline holds no
    lead, and the lead created there gets kanban order 1, not 0. *)
Lemma C6_empty_stage_counterexample :
  filter (fun l => optZ_eqb (Lead.pipelineStageId l) 10) (leads LeadExamples.emptyStage)
  = [] /\
  exists lead,
    leads (MessageHandler.handleIncomingMessage 7 LeadExamples.first notify 10
             LeadExamples.emptyStage) = [lead] /\
    Lead.pipelineStageId lead = Some 10 /\
    Lead.kanbanOrder lead = 1 /\
    Lead.kanbanOrder lead <> 0.
Proof.
  split; [reflexivity|].
  eexists. split; [vm_compute; reflexivity|].
  repeat split. discriminate.
Qed.

(** ** Unrecognized message types *)

Module UnrecognizedFacts.
Import Unrecognized.

Lemma normalize_fallback rt m ty :
  Cloud.type m = Some ty ->
  cloudRecognized ty = false ->
  Webhook.normalize rt m
  = Webhook.mkNormalized text (Some (stringifyMessage rt m)) None None None None None.
Proof.
  intros Hty Hrec. unfold Webhook.normalize. rewrite Hty. cbn [JS.nullish].
  unfold cloudRecognized in Hrec. cbn [existsb] in Hrec.
  repeat (apply orb_false_iff in Hrec; destruct Hrec as (? & Hrec)).
  repeat match goal with H : (ty =? _)%string = false |- _ => rewrite H; clear H end.
  reflexivity.
Qed.

Lemma qr_fallback message :
  qrUnrecognized message ->
  MessageHandler.textOf message = "Media/Unknown" /\
  MessageHandler.msgTypeOf message = text.
Proof.
  intros (H1 & H2 & H3 & H4 & H5 & H6 & H7).
  unfold MessageHandler.textOf, MessageHandler.msgTypeOf. cbv zeta.
  rewrite H1, H2, H3, H4, H5, H6, H7. split; reflexivity.
Qed.

End UnrecognizedFacts.

(** C7 (the code does not do this on the QR-bridge path).  On the
    cloud-webhook path a message whose wire type is none of text, image,
    video, audio, document, sticker, location, contacts is stored with
    [messageType = text] and the serialized raw message as its content.  On
    the QR-bridge path a message with none of the content kinds the handler
    reads (a reaction, a poll, ...), and a timestamp that is a valid date, is
    stored with [messageType = text] as well, and its content is the fixed
    text [Media/Unknown], whatever its payload: not a serialization of
    it. *)
Theorem C7_unrecognized_is_stored_as_text :
  (forall (rt : Runtime) (now : Z) (change : Cloud.Change) (db : Db) (wid : Z)
          (m : Cloud.Message) (ty : string),
      let value := Cloud.value change in
      JS.truthy (Cloud.phone_number_id value) = true ->
      Webhook.getWhatsappNumberIdByPhoneNumberId
        db (JS.nullish (Cloud.phone_number_id value) "") = Some wid ->
      wid <> 0 ->
      Webhook.contactPhone value <> "" ->
      In m (Cloud.messages value) ->
      Cloud.type m = Some ty ->
      Unrecognized.cloudRecognized ty = false ->
      exists row,
        In row (chatMessages (Webhook.handleChange rt now change db)) /\
        ChatMessage.whatsappMessageId row = JS.strOrNull (Cloud.msgId m) /\
        ChatMessage.messageType row = text /\
        ChatMessage.content row = Some (stringifyMessage rt m)) /\
  (forall (userId : Z) (message : Baileys.WAMessage) (upsertType : UpsertType)
          (now ts : Z) (db : Db) (jid : string),
      Baileys.remoteJid (Baileys.key message) = Some jid ->
      MessageHandler.skipped (Some jid) = false ->
      MessageHandler.findExistingMessage db (Baileys.id (Baileys.key message)) = None ->
      MessageHandler.timestampOf message now = Some ts ->
      Unrecognized.qrUnrecognized message ->
      exists row,
        chatMessages (MessageHandler.handleIncomingMessage userId message upsertType now db)
        = chatMessages db ++ [row] /\
        ChatMessage.whatsappMessageId row = Some (Baileys.id (Baileys.key message)) /\
        ChatMessage.messageType row = text /\
        ChatMessage.content row = Some "Media/Unknown").
Proof.
  split.
  - intros rt now change db wid m ty value Htruthy Hroute Hwid Hphone Hin Hty Hrec.
    assert (Hmsgs : Cloud.messages value <> []) by (intros E; rewrite E in Hin; destruct Hin).
    destruct (WebhookFacts.handleChange_routed rt now change db wid
                Htruthy Hroute Hwid Hmsgs Hphone) as (dbS & _ & _ & Hrun).
    rewrite Hrun. cbv zeta.
    match goal with
    | |- context [fold_left _ _ (fst ?r)] =>
        destruct (WebhookFacts.messages_loop rt wid (snd r) now (Cloud.messages value) (fst r))
          as (_ & _ & Hrows & _)
    end.
    destruct (Hrows m Hin) as (row & Hrow & Hid & _ & Htype & Hcontent).
    rewrite (UnrecognizedFacts.normalize_fallback rt m ty Hty Hrec) in Htype, Hcontent.
    exists row. auto.
  - intros userId message upsertType now ts db jid Hjid Hskip Hnew Hts Hun.
    destruct (MessageHandlerFacts.handleIncomingMessage_fresh
                userId message upsertType now db jid ts Hjid Hskip Hnew Hts)
      as (leadId & cid & _ & _ & _ & _ & Hm).
    destruct (UnrecognizedFacts.qr_fallback message Hun) as (Htext & Htype).
    eexists. split; [exact Hm|].
    unfold MessageHandler.newChatMessage. cbn [ChatMessage.whatsappMessageId
      ChatMessage.messageType ChatMessage.content].
    rewrite Htext, Htype. repeat split.
Qed.

(** A reaction on the cloud path is stored serialized; on the QR path a
    reaction and a poll are both stored as [Media/Unknown]. *)
Lemma C7_unrecognized_is_stored_as_text_witness :
  (exists row,
      In row (chatMessages
                (Webhook.handleChange Fixtures.rt0 9
                   (Fixtures.changeOf [] [Fixtures.cloudReaction "W2"]) Fixtures.connected)) /\
      ChatMessage.whatsappMessageId row = Some "W2" /\
      ChatMessage.messageType row = text /\
      ChatMessage.content row = Some "{reaction}") /\
  (exists row,
      chatMessages (MessageHandler.handleIncomingMessage
                      7 (Fixtures.qrOther "A2" "reactionMessage") notify 5 Fixtures.emptyDb)
      = [row] /\
      ChatMessage.whatsappMessageId row = Some "A2" /\
      ChatMessage.messageType row = text /\
      ChatMessage.content row = Some "Media/Unknown") /\
  (exists row,
      chatMessages (MessageHandler.handleIncomingMessage
                      7 (Fixtures.qrOther "A3" "pollCreationMessage") notify 5
                      Fixtures.emptyDb)
      = [row] /\
      ChatMessage.whatsappMessageId row = Some "A3" /\
      ChatMessage.messageType row = text /\
      ChatMessage.content row = Some "Media/Unknown").
Proof.
  split; [|split].
  - exact (proj1 C7_unrecognized_is_stored_as_text Fixtures.rt0 9
             (Fixtures.changeOf [] [Fixtures.cloudReaction "W2"]) Fixtures.connected 7
             (Fixtures.cloudReaction "W2") "reaction"
             eq_refl eq_refl ltac:(discriminate) ltac:(discriminate)
             (or_introl eq_refl) eq_refl eq_refl).
  - exact (proj2 C7_unrecognized_is_stored_as_text
             7 (Fixtures.qrOther "A2" "reactionMessage")
             notify 5 1700000000000 Fixtures.emptyDb "5491100000000@s.whatsapp.net"
             eq_refl eq_refl eq_refl eq_refl
             (conj eq_refl (conj eq_refl (conj eq_refl (conj eq_refl
                (conj eq_refl (conj eq_refl eq_refl))))))).
  - exact (proj2 C7_unrecognized_is_stored_as_text
             7 (Fixtures.qrOther "A3" "pollCreationMessage")
             notify 5 1700000000000 Fixtures.emptyDb "5491100000000@s.whatsapp.net"
             eq_refl eq_refl eq_refl eq_refl
             (conj eq_refl (conj eq_refl (conj eq_refl (conj eq_refl
                (conj eq_refl (conj eq_refl eq_refl))))))).
Defined.

(** ** Conversation merge *)

Module MergeFacts.
Import MessageHandler.

Lemma apply_no_keys (p : Conversation.patch) (c : Conversation.t) :
  Conversation.hasKeys p = false -> Conversation.apply p c = c.
Proof.
  destruct p as [[n|] [u|] [l|] [s|]], c; cbn; intros H;
    try discriminate; reflexivity.
Qed.

(** QR path, live inbound row of the merge table; the timestamp of the
    message plays no part. *)
Lemma merge_live (c : Conversation.t) (messageTimestamp : option Z) (now : Z) :
  exists updates,
    conversationUpdates c notify false messageTimestamp now = Some updates /\
    let c' := Conversation.apply updates c in
    Conversation.unreadCount c' = Conversation.unreadCount c + 1 /\
    Conversation.lastMessageAt c' = Some now /\
    Conversation.status c' = active.
Proof. eexists. split; [reflexivity|]. repeat split. Qed.

(** QR path, history-replay and outbound rows of the merge table, for a
    timestamp that is a valid date. *)
Lemma merge_history (c : Conversation.t) (upsertType : UpsertType) (fromMe : bool)
      (messageTimestamp now : Z) :
  upsertType = append \/ fromMe = true ->
  exists updates,
    conversationUpdates c upsertType fromMe (Some messageTimestamp) now = Some updates /\
    let c' := Conversation.apply updates c in
    Conversation.unreadCount c' = Conversation.unreadCount c /\
    Conversation.status c' = Conversation.status c /\
    Conversation.lastMessageAt c'
    = Some (match Conversation.lastMessageAt c with
            | Some current => Z.max current messageTimestamp
            | None => messageTimestamp
            end).
Proof.
  intros Hkind. unfold conversationUpdates.
  assert (Hfirst : UpsertType_eqb upsertType notify && negb fromMe = false)
    by (destruct Hkind as [-> | ->]; [reflexivity | apply andb_false_r]).
  assert (Hsecond : UpsertType_eqb upsertType append || fromMe = true)
    by (destruct Hkind as [-> | ->]; [reflexivity | apply orb_true_r]).
  rewrite Hfirst, Hsecond.
  destruct (Conversation.lastMessageAt c) as [current|] eqn:Hlast.
  - destruct (current <? messageTimestamp) eqn:Hlt;
      (eexists; split; [reflexivity|]); cbn; rewrite ?Hlast;
      repeat split; f_equal.
    + apply Z.ltb_lt in Hlt. lia.
    + apply Z.ltb_ge in Hlt. lia.
  - eexists. split; [reflexivity|]. cbn. repeat split.
Qed.

(** QR path, history-replay and outbound rows for a timestamp that is not a
    valid date: a conversation that has a last activity is left as it is. *)
Lemma merge_history_invalid (c : Conversation.t) (upsertType : UpsertType)
      (fromMe : bool) (current now : Z) :
  upsertType = append \/ fromMe = true ->
  Conversation.lastMessageAt c = Some current ->
  conversationUpdates c upsertType fromMe None now = Some Conversation.emptyPatch.
Proof.
  intros Hkind Hlast. unfold conversationUpdates.
  assert (Hfirst : UpsertType_eqb upsertType notify && negb fromMe = false)
    by (destruct Hkind as [-> | ->]; [reflexivity | apply andb_false_r]).
  assert (Hsecond : UpsertType_eqb upsertType append || fromMe = true)
    by (destruct Hkind as [-> | ->]; [reflexivity | apply orb_true_r]).
  rewrite Hfirst, Hsecond, Hlast. reflexivity.
Qed.

(** The conversation found for a message is, afterwards, the same row with
    the [updates] of the merge table applied. *)
Lemma resolveConversation_existing userId message jid upsertType leadId now db c updates :
  findConversation db leadId userId jid = Some c ->
  conversationUpdates c upsertType (Baileys.fromMe (Baileys.key message))
                      (timestampOf message now) now = Some updates ->
  findConversation
    (fst (resolveConversation userId message jid upsertType leadId now db))
    leadId userId jid
  = Some (Conversation.apply updates c).
Proof.
  intros Hfind Hupd. unfold resolveConversation. rewrite Hfind, Hupd.
  destruct (Conversation.hasKeys _) eqn:Hkeys.
  - unfold findConversation in *. cbn [fst conversations withConversations].
    rewrite find_updateWhere by reflexivity.
    rewrite Hfind. cbn [option_map]. rewrite Z.eqb_refl. reflexivity.
  - cbn [fst]. rewrite Hfind, (apply_no_keys _ _ Hkeys). reflexivity.
Qed.

(** At the level of the handler: a fresh message, with a timestamp that is
    a valid date, from a known lead whose conversation exists leaves that
    conversation merged as the table says. *)
Lemma handleIncomingMessage_merges userId message upsertType now db jid lead c ts :
  Baileys.remoteJid (Baileys.key message) = Some jid ->
  skipped (Some jid) = false ->
  findExistingMessage db (Baileys.id (Baileys.key message)) = None ->
  timestampOf message now = Some ts ->
  findLead db (phoneOf jid) = Some lead ->
  findConversation db (Lead.id lead) userId jid = Some c ->
  exists updates,
    conversationUpdates c upsertType (Baileys.fromMe (Baileys.key message))
                        (Some ts) now = Some updates /\
    findConversation (handleIncomingMessage userId message upsertType now db)
                     (Lead.id lead) userId jid
    = Some (Conversation.apply updates c).
Proof.
  intros Hjid Hskip Hnew Hts Hlead Hconv.
  destruct (MessageHandlerFacts.conversationUpdates_valid
              c upsertType (Baileys.fromMe (Baileys.key message)) ts now)
    as (updates & Hupd).
  exists updates. split; [exact Hupd|].
  destruct (MessageHandlerFacts.handleIncomingMessage_fresh
              userId message upsertType now db jid ts Hjid Hskip Hnew Hts)
    as (leadId & cid & Hl & _ & _ & Hc & _).
  cbv zeta in Hl, Hc.
  unfold findConversation at 1. rewrite Hc.
  assert (Hr1 : snd (resolveLead message jid upsertType now db) = Some (Lead.id lead)
                /\ conversations (fst (resolveLead message jid upsertType now db))
                   = conversations db)
    by (unfold resolveLead; rewrite Hlead; destruct upsertType; split; reflexivity).
  destruct Hr1 as (Hid & Hsame). rewrite Hid in Hl. injection Hl as <-.
  apply (resolveConversation_existing userId message jid upsertType (Lead.id lead) now).
  - unfold findConversation in *. rewrite Hsame. exact Hconv.
  - rewrite Hts. exact Hupd.
Qed.

End MergeFacts.


(** C4 (the code does not do this on the cloud-webhook path).  On the QR
    path the merge follows the table ([MergeFacts.merge_live],
    [MergeFacts.merge_history], [MergeFacts.handleIncomingMessage_merges]).
    On the cloud-webhook path a live inbound
    message to an archived conversation raises [unreadCount] and sets
    [lastMessageAt] to now, and leaves the conversation archived. *)
Theorem C4_api_live_event_leaves_archived :
  let after := Webhook.postWebhook Fixtures.rt0 Fixtures.envNoSecret ApiExamples.hola
                                   900 ApiExamples.archivedDb in
  Observe.view ApiExamples.archivedDb = [(archived, 0, Some 100)] /\
  snd after = 200 /\
  Observe.view (fst after) = [(archived, 1, Some 900)] /\
  Observe.waIds (fst after) = [Some "W1"].
Proof. repeat split. Qed.

(** C1 (the code does not do this on the cloud-webhook path).  On the QR
    path the redelivery of a message that was stored is a no-op
    ([MessageHandlerFacts.handleIncomingMessage_redelivery]).  The webhook
    POST handler has no idempotency check: delivering the same payload, with
    the same provider message id [W1], twice stores two chat-message rows and
    raises [unreadCount] twice. *)
Theorem C1_api_redelivery_duplicates :
  let once := fst (Webhook.postWebhook Fixtures.rt0 Fixtures.envNoSecret ApiExamples.hola
                                       900 Fixtures.connected) in
  let twice := fst (Webhook.postWebhook Fixtures.rt0 Fixtures.envNoSecret ApiExamples.hola
                                        901 once) in
  Observe.waIds once = [Some "W1"] /\
  map Conversation.unreadCount (conversations once) = [1] /\
  Observe.waIds twice = [Some "W1"; Some "W1"] /\
  map ChatMessage.whatsappConnectionType (chatMessages twice) = [api; api] /\
  map Conversation.unreadCount (conversations twice) = [2].
Proof. repeat split. Qed.

(** * Further properties *)

(** ** Port search, CORS and CSRF ([_core/index.ts]) *)

Module ServerFacts.
Import Server.

Lemma scanPorts_spec (isPortAvailable : Z -> bool) (remaining : nat) (port : Z) :
  match scanPorts isPortAvailable port remaining with
  | Some p =>
      port <= p < port + Z.of_nat remaining /\
      isPortAvailable p = true /\
      forall q, port <= q < p -> isPortAvailable q = false
  | None =>
      forall q, port <= q < port + Z.of_nat remaining -> isPortAvailable q = false
  end.
Proof.
  revert port. induction remaining as [|k IH]; intros port.
  - simpl. intros q Hq. lia.
  - cbn [scanPorts]. destruct (isPortAvailable port) eqn:Havail.
    + repeat split; [lia | lia | exact Havail | intros q Hq; lia].
    + specialize (IH (port + 1)).
      destruct (scanPorts isPortAvailable (port + 1) k) as [p|].
      * destruct IH as (Hrange & Hp & Hbefore). repeat split; try lia; [exact Hp|].
        intros q Hq. destruct (Z.eq_dec q port) as [->|Hne]; [exact Havail|].
        apply Hbefore. lia.
      * intros q Hq. destruct (Z.eq_dec q port) as [->|Hne]; [exact Havail|].
        apply IH. lia.
Qed.

Lemma member_In (x : string) (l : list string) : member x l = true <-> In x l.
Proof.
  unfold member. rewrite existsb_exists. split.
  - intros (y & Hin & Heq). apply String.eqb_eq in Heq. subst. exact Hin.
  - intros Hin. exists x. split; [exact Hin | apply String.eqb_refl].
Qed.

Lemma normalize_append_slash (s : string) : normalize (s ++ "/")%string = s.
Proof.
  induction s as [|c s IH]; [reflexivity|].
  cbn [String.append normalize]. destruct (s ++ "/")%string as [|d rest] eqn:E.
  - destruct s; discriminate.
  - rewrite IH. reflexivity.
Qed.

Lemma append_slash_differs (s : string) : (s =? s ++ "/")%string = false.
Proof.
  apply String.eqb_neq. induction s as [|c s IH]; [discriminate|].
  cbn [String.append]. intros [= E]. exact (IH E).
Qed.

End ServerFacts.

(** X1.  [findAvailablePort] returns the first available port among the
    twenty starting at [startPort]: the port it returns is in that range and
    available, every earlier port of the range is not, and it throws exactly
    when none of the twenty is available. *)
Theorem findAvailablePort_first_free (isPortAvailable : Z -> bool) (startPort : Z) :
  match Server.findAvailablePort isPortAvailable startPort with
  | Some port =>
      startPort <= port < startPort + 20 /\
      isPortAvailable port = true /\
      forall q, startPort <= q < port -> isPortAvailable q = false
  | None =>
      forall q, startPort <= q < startPort + 20 -> isPortAvailable q = false
  end.
Proof. exact (ServerFacts.scanPorts_spec isPortAvailable 20 startPort). Qed.

(** X2.  The CSRF guard is at least as strict as the CORS origin check: a
    state-changing request to a path the guard covers is let through only
    with an origin that the CORS check accepts as well. *)
Theorem csrfGuard_within_cors
        (env : Server.ProcessEnv) (path method : string) (origin : option string) :
  Server.csrfExempt path = false ->
  Server.isMutating method = true ->
  Server.csrfGuard env path method origin = true ->
  Server.corsOrigin env origin = true.
Proof.
  intros Hexempt Hmut. unfold Server.csrfGuard, Server.corsOrigin.
  rewrite Hexempt, Hmut. cbn [negb].
  destruct (Server.isProduction env); cbn [negb].
  2:{ intros _. destruct origin as [o|]; [destruct (o =? "")%string|]; reflexivity. }
  destruct origin as [o|]; [|discriminate].
  destruct (o =? "")%string; [discriminate|].
  destruct (Server.member o (Server.configuredOrigins env)) eqn:Hmem.
  - intros _. apply ServerFacts.member_In in Hmem.
    assert (Hn : Server.member (Server.normalize o) (Server.allowedOrigins env) = true)
      by (apply ServerFacts.member_In; unfold Server.allowedOrigins;
          apply in_map; exact Hmem).
    rewrite Hn. reflexivity.
  - intros H. destruct (Server.member _ (Server.allowedOrigins env)); [reflexivity|].
    exact H.
Qed.

Lemma csrfGuard_within_cors_witness :
  Server.corsOrigin ServerExamples.production (Some "https://crm.example.com") = true.
Proof.
  exact (csrfGuard_within_cors ServerExamples.production "/api/trpc/templates.create"
           "post" (Some "https://crm.example.com") eq_refl eq_refl eq_refl).
Defined.

(** X3.  The two checks compare differently: CORS compares origins with one
    trailing slash removed on both sides, the CSRF guard compares the text
    as it is.  In production, when the only configured origin is written
    with a trailing slash, the same origin without it (as browsers send it)
    passes the CORS check and is refused by the CSRF guard on every
    state-changing request to a covered path. *)
Theorem csrfGuard_exact_match
        (env : Server.ProcessEnv) (origin path method : string) :
  Server.isProduction env = true ->
  Server.configuredOrigins env = [(origin ++ "/")%string] ->
  origin <> "" ->
  Server.normalize origin = origin ->
  JS.includes origin ".nip.io" = false ->
  JS.includes origin "localhost" = false ->
  JS.includes origin "127.0.0.1" = false ->
  Server.csrfExempt path = false ->
  Server.isMutating method = true ->
  Server.corsOrigin env (Some origin) = true /\
  Server.csrfGuard env path method (Some origin) = false.
Proof.
  intros Hprod Hconf Hne Hnorm Hnip Hlocal Hloop Hexempt Hmut.
  apply String.eqb_neq in Hne.
  split.
  - unfold Server.corsOrigin, Server.allowedOrigins.
    rewrite Hne, Hprod, Hconf. cbn [negb map Server.member existsb].
    rewrite ServerFacts.normalize_append_slash, Hnorm, String.eqb_refl. reflexivity.
  - unfold Server.csrfGuard.
    rewrite Hexempt, Hmut, Hprod, Hne, Hconf. cbn [negb Server.member existsb].
    rewrite ServerFacts.append_slash_differs, Hnip, Hlocal, Hloop. reflexivity.
Qed.

Lemma csrfGuard_exact_match_witness :
  Server.corsOrigin ServerExamples.productionSlash (Some "https://crm.example.com") = true /\
  Server.csrfGuard ServerExamples.productionSlash "/api/trpc/templates.create" "POST"
                   (Some "https://crm.example.com") = false.
Proof.
  exact (csrfGuard_exact_match ServerExamples.productionSlash "https://crm.example.com"
           "/api/trpc/templates.create" "POST"
           eq_refl eq_refl ltac:(discriminate) eq_refl eq_refl eq_refl eq_refl
           eq_refl eq_refl).
Defined.

(** X4.  [ensureAppSettings] seeds at most once: afterwards the table is not
    empty, rows that were there are left as they are, and running it again
    changes nothing; without a database handle it does nothing. *)
Theorem ensureAppSettings_seeds_once (db : option (list Server.AppSettings)) :
  Server.ensureAppSettings (Server.ensureAppSettings db) = Server.ensureAppSettings db /\
  match db with
  | None => Server.ensureAppSettings db = None
  | Some [] => Server.ensureAppSettings db = Some [Server.defaultAppSettings]
  | Some (row :: rows) => Server.ensureAppSettings db = Some (row :: rows)
  end.
Proof. destruct db as [[|row rows]|]; split; reflexivity. Qed.

(** ** The templates router *)

Module TemplatesFacts.

Lemma nextId_fresh (ids : list Z) (i : Z) : In i ids -> i < nextId ids.
Proof.
  unfold nextId. induction ids as [|a ids IH]; simpl; [intros []|].
  intros [->|Hin]; [lia | specialize (IH Hin); lia].
Qed.

Lemma parseNonEmpty_some (s : option string) (v : string) :
  Templates.parseNonEmpty s = Some v -> s = Some v /\ v <> "".
Proof.
  destruct s as [w|]; simpl; [|discriminate].
  destruct (w =? "")%string eqn:E; [discriminate|].
  intros [= <-]. apply String.eqb_neq in E. auto.
Qed.

Lemma insertDesc_perm (row : Template.t) (sorted : list Template.t) :
  Permutation (row :: sorted) (Templates.insertDesc row sorted).
Proof.
  induction sorted as [|r rest IH]; simpl; [apply Permutation_refl|].
  destruct (Template.createdAt r <? Template.createdAt row).
  - apply Permutation_refl.
  - eapply perm_trans; [apply perm_swap|]. apply perm_skip, IH.
Qed.

Lemma insertDesc_sorted (row : Template.t) (sorted : list Template.t) :
  StronglySorted newerFirst sorted -> StronglySorted newerFirst (Templates.insertDesc row sorted).
Proof.
  induction sorted as [|r rest IH]; simpl; intros Hs.
  - constructor; constructor.
  - inversion Hs as [|? ? Hrest Hall]; subst.
    destruct (Template.createdAt r <? Template.createdAt row) eqn:Hlt.
    + apply Z.ltb_lt in Hlt. constructor; [exact Hs|].
      constructor; [unfold newerFirst; lia|].
      rewrite Forall_forall in *. intros x Hx. specialize (Hall x Hx).
      unfold newerFirst in *. lia.
    + apply Z.ltb_ge in Hlt. constructor; [apply IH, Hrest|].
      rewrite Forall_forall in *. intros x Hx.
      apply (Permutation_in _ (Permutation_sym (insertDesc_perm row rest))) in Hx.
      destruct Hx as [<-|Hx]; [unfold newerFirst; lia | apply Hall, Hx].
Qed.

(** The shape of a successful [create]. *)
Lemma create_ok input now rows response db' :
  Templates.create input now (Some rows) = (Ok response, db') ->
  exists row, db' = Some (rows ++ [row]) /\ Template.id row = nextId (map Template.id rows).
Proof.
  unfold Templates.create.
  destruct (Templates.parseNonEmpty (CreateInput.name input)); [|discriminate].
  destruct (Templates.parseNonEmpty (CreateInput.content input)); [|discriminate].
  destruct (Templates.parseType (CreateInput.type input)); [|discriminate].
  destruct (Templates.parseOptionalAttachments (CreateInput.attachments input));
    [|discriminate].
  intros [= _ <-]. eexists. split; reflexivity.
Qed.

Lemma filter_keep_all {A} (p : A -> bool) (l : Datatypes.list A) :
  (forall x, In x l -> p x = true) -> filter p l = l.
Proof.
  induction l as [|a l IH]; simpl; intros H; [reflexivity|].
  rewrite (H a (or_introl eq_refl)), IH; [reflexivity|]. intros x Hx. apply H. auto.
Qed.

End TemplatesFacts.

(** X5.  [templates.list] returns every row of the table exactly once,
    newest first; without a database handle it returns the empty list. *)
Theorem templates_list_newest_first (rows : list Template.t) :
  Permutation rows (Templates.list (Some rows)) /\
  StronglySorted newerFirst (Templates.list (Some rows)) /\
  Templates.list None = [].
Proof.
  unfold Templates.list, Templates.orderByCreatedAtDesc. repeat split.
  - induction rows as [|r rows IH]; simpl; [constructor|].
    eapply perm_trans; [apply perm_skip, IH | apply TemplatesFacts.insertDesc_perm].
  - induction rows as [|r rows IH]; simpl; [constructor|].
    apply TemplatesFacts.insertDesc_sorted, IH.
Qed.

(** X6.  [templates.create] is all or nothing.  When it answers success the
    table has exactly one more row, at the end, carrying the name, content
    and type of the input, both name and content non-empty; in every other
    case (rejected input, no database) the table is left as it was. *)
Theorem templates_create_all_or_nothing
        (input : CreateInput.t) (now : Z) (db : option (list Template.t)) :
  match Templates.create input now db with
  | (Ok _, db') =>
      exists rows row,
        db = Some rows /\ db' = Some (rows ++ [row]) /\
        CreateInput.name input = Some (Template.name row) /\
        CreateInput.content input = Some (Template.content row) /\
        Templates.parseType (CreateInput.type input) = Some (Template.type row) /\
        Template.name row <> "" /\ Template.content row <> "" /\
        Template.createdAt row = now /\
        forall r, In r rows -> Template.id r < Template.id row
  | (_, db') => db' = db
  end.
Proof.
  unfold Templates.create.
  destruct (Templates.parseNonEmpty (CreateInput.name input)) as [n|] eqn:Hn;
    [|reflexivity].
  destruct (Templates.parseNonEmpty (CreateInput.content input)) as [c|] eqn:Hc;
    [|reflexivity].
  destruct (Templates.parseType (CreateInput.type input)) as [ty|]; [|reflexivity].
  destruct (Templates.parseOptionalAttachments (CreateInput.attachments input))
    as [atts|]; [|reflexivity].
  destruct db as [rows|]; [|reflexivity].
  apply TemplatesFacts.parseNonEmpty_some in Hn, Hc.
  destruct Hn as (Hn & Hn'), Hc as (Hc & Hc').
  eexists rows, _. repeat split; try eassumption.
  intros r Hr. cbn [Template.id].
  apply TemplatesFacts.nextId_fresh, in_map, Hr.
Qed.

(** X7.  [templates.update] rewrites rows in place: the rows keep their
    number, order, ids, types and creation times, and a row with another id
    is left exactly as it was.  In a row with the id of the input every
    property that is present in the input ([name], [content], [variables],
    [attachments]) is stored, and every property that is absent keeps its
    stored value.  It does not validate the text: an empty [name] is
    stored. *)
Theorem templates_update_in_place
        (input : UpdateInput.t) (rows rows' : list Template.t) (response : bool) :
  Templates.update input (Some rows) = (Ok response, Some rows') ->
  map Template.id rows' = map Template.id rows /\
  map Template.type rows' = map Template.type rows /\
  map Template.createdAt rows' = map Template.createdAt rows /\
  (forall r, In r rows -> UpdateInput.id input <> Some (Template.id r) -> In r rows') /\
  (UpdateInput.name input = None -> map Template.name rows' = map Template.name rows) /\
  (UpdateInput.content input = None ->
   map Template.content rows' = map Template.content rows) /\
  (UpdateInput.variables input = None ->
   map Template.variables rows' = map Template.variables rows) /\
  (UpdateInput.attachments input = None ->
   map Template.attachments rows' = map Template.attachments rows) /\
  (forall r, In r rows' -> UpdateInput.id input = Some (Template.id r) ->
     (forall v, UpdateInput.name input = Some v -> Template.name r = v) /\
     (forall v, UpdateInput.content input = Some v -> Template.content r = v) /\
     (forall v, UpdateInput.variables input = Some v -> Template.variables r = Some v) /\
     (forall l, UpdateInput.attachments input = Some l ->
                exists atts, Templates.parseAttachments l = Some atts /\
                             Template.attachments r = Some atts)).
Proof.
  unfold Templates.update.
  destruct (UpdateInput.id input) as [i|]; [|discriminate].
  destruct (Templates.parseOptionalAttachments (UpdateInput.attachments input))
    as [atts|] eqn:Hatts; [|discriminate].
  intros [= _ <-]. unfold updateWhere.
  split; [|split; [|split; [|split; [|split; [|split; [|split; [|split]]]]]]].
  1-3: rewrite map_map; apply map_ext; intros r;
       destruct (Template.id r =? i); reflexivity.
  - intros r Hr Hid. apply in_map_iff. exists r. split; [|exact Hr].
    destruct (Template.id r =? i) eqn:E; [|reflexivity].
    apply Z.eqb_eq in E. congruence.
  - intros ->. rewrite map_map. apply map_ext. intros r.
    destruct (Template.id r =? i); reflexivity.
  - intros ->. rewrite map_map. apply map_ext. intros r.
    destruct (Template.id r =? i); reflexivity.
  - intros ->. rewrite map_map. apply map_ext. intros r.
    destruct (Template.id r =? i); reflexivity.
  - intros Ha. rewrite Ha in Hatts. injection Hatts as <-.
    rewrite map_map. apply map_ext. intros r.
    destruct (Template.id r =? i); reflexivity.
  - intros r Hr [= Hi]. apply in_map_iff in Hr.
    destruct Hr as (r0 & Heq & _).
    destruct (Template.id r0 =? i) eqn:E; subst r.
    + split; [|split; [|split]].
      * intros v ->. reflexivity.
      * intros v ->. reflexivity.
      * intros v ->. reflexivity.
      * intros l Hl. rewrite Hl in Hatts. cbn [Templates.parseOptionalAttachments] in Hatts.
        destruct (Templates.parseAttachments l) as [parsed|]; [|discriminate].
        injection Hatts as <-. exists parsed. split; reflexivity.
    + apply Z.eqb_neq in E. congruence.
Qed.

(** Renaming template 2, which has an attachment, to the empty name keeps
    the attachments of every template. *)
Lemma templates_update_in_place_witness :
  map Template.attachments
      (updateWhere (fun r => Template.id r =? 2)
                   (Templates.applyUpdate (Some "") None None None)
                   TemplateExamples.table)
  = map Template.attachments TemplateExamples.table.
Proof.
  destruct (templates_update_in_place
              (UpdateInput.mk (Some 2) (Some "") None None None)
              TemplateExamples.table _ true eq_refl)
    as (_ & _ & _ & _ & _ & _ & _ & Hatts & _).
  exact (Hatts eq_refl).
Defined.

(** X8.  [templates.delete] removes exactly the rows with the given id: none
    of them is left, the other rows stay, in their order; deleting an id that
    is not in the table, or deleting twice, changes nothing more.  Deleting
    the template that [create] has just added gives back the table as it was
    before. *)
Theorem templates_delete_exact (i : Z) (rows : list Template.t) :
  exists rows',
    Templates.delete (Some i) (Some rows) = (Ok true, Some rows') /\
    (forall r, In r rows' <-> In r rows /\ Template.id r <> i) /\
    (exists removed, Permutation rows (removed ++ rows') /\
                     Forall (fun r => Template.id r = i) removed) /\
    ((forall r, In r rows -> Template.id r <> i) -> rows' = rows) /\
    Templates.delete (Some i) (Some rows') = (Ok true, Some rows') /\
    (forall input now response db1,
        Templates.create input now (Some rows) = (Ok response, db1) ->
        exists row, db1 = Some (rows ++ [row]) /\
                    Templates.delete (Some (Template.id row)) db1 = (Ok true, Some rows)).
Proof.
  exists (filter (fun r => negb (Template.id r =? i)) rows).
  split; [reflexivity|]. split; [|split; [|split; [|split]]].
  - intros r. rewrite filter_In, negb_true_iff, Z.eqb_neq. tauto.
  - exists (filter (fun r => Template.id r =? i) rows). split.
    + induction rows as [|r rows IH]; simpl; [constructor|].
      destruct (Template.id r =? i); simpl.
      * apply perm_skip, IH.
      * apply Permutation_cons_app, IH.
    + apply Forall_forall. intros r Hr. apply filter_In in Hr.
      apply Z.eqb_eq, Hr.
  - intros Hnone. apply TemplatesFacts.filter_keep_all. intros r Hr.
    apply negb_true_iff, Z.eqb_neq, Hnone, Hr.
  - unfold Templates.delete. do 2 f_equal.
    apply TemplatesFacts.filter_keep_all. intros r Hr.
    apply filter_In in Hr. tauto.
  - intros input now response db1 Hcreate.
    destruct (TemplatesFacts.create_ok input now rows response db1 Hcreate)
      as (row & -> & Hid).
    exists row. split; [reflexivity|].
    unfold Templates.delete. do 2 f_equal.
    rewrite filter_app. simpl. rewrite Z.eqb_refl. simpl. rewrite app_nil_r.
    apply TemplatesFacts.filter_keep_all. intros r Hr.
    apply negb_true_iff, Z.eqb_neq.
    pose proof (TemplatesFacts.nextId_fresh (map Template.id rows) (Template.id r)
                  (in_map _ _ _ Hr)).
    lia.
Qed.

(** ** Uploads *)

Module UploadFacts.

Lemma includes_slash (s : string) :
  JS.includes s "/" = existsb (Ascii.eqb "/") (list_ascii_of_string s).
Proof.
  induction s as [|c s IH]; [reflexivity|].
  cbn [JS.includes list_ascii_of_string existsb String.prefix]. rewrite IH.
  destruct (ascii_dec "/" c) as [<-|Hne].
  - destruct s; reflexivity.
  - apply Ascii.eqb_neq in Hne. rewrite Hne. reflexivity.
Qed.

Lemma takeSegment_no_slash (l : list ascii) :
  existsb (Ascii.eqb "/") (Upload.takeSegment l) = false.
Proof.
  induction l as [|c l IH]; [reflexivity|]. cbn [Upload.takeSegment].
  destruct (Ascii.eqb c "/") eqn:E; [reflexivity|].
  cbn [existsb]. rewrite Ascii.eqb_sym, E. exact IH.
Qed.

Lemma existsb_rev {A} (p : A -> bool) (l : list A) :
  existsb p (rev l) = existsb p l.
Proof.
  induction l as [|a l IH]; [reflexivity|].
  cbn [rev existsb]. rewrite existsb_app, IH. cbn [existsb].
  rewrite orb_false_r. apply orb_comm.
Qed.

Lemma no_slash_kept (l : list ascii) :
  existsb (Ascii.eqb "/") l = false ->
  Upload.dropSlashes l = l /\ Upload.takeSegment l = l.
Proof.
  induction l as [|c l IH]; [split; reflexivity|].
  cbn [existsb Upload.dropSlashes Upload.takeSegment].
  rewrite Ascii.eqb_sym. destruct (Ascii.eqb c "/"); [discriminate|].
  cbn [orb]. intros H. destruct (IH H) as (_ & ->). split; reflexivity.
Qed.

End UploadFacts.

(** X9.  The file filter accepts exactly the nine MIME types of its
    allowlist (SVG is not among them).  An accepted file is reported by
    [handleUpload] as [image] or [video], or as [file] when it is a PDF, and
    the chat client sends it as an image, a video or a document
    respectively: no accepted file is ever sent as audio.  (The MIME type
    multer reports is the one the browser declares for the file, on which
    [handleFileSelect] decides.) *)
Theorem accepted_upload_types (file : Upload.File) :
  (Upload.fileFilter file = Upload.Accept
   <-> In (Upload.mimetype file) Upload.allowedTypes) /\
  (Upload.fileFilter file = Upload.Accept ->
   (Upload.typeOf file = "image"
    /\ ChatThread.msgTypeOf (Upload.mimetype file) = image) \/
   (Upload.typeOf file = "video"
    /\ ChatThread.msgTypeOf (Upload.mimetype file) = video) \/
   (Upload.mimetype file = "application/pdf" /\ Upload.typeOf file = "file"
    /\ ChatThread.msgTypeOf (Upload.mimetype file) = document)).
Proof.
  assert (Hiff : Upload.fileFilter file = Upload.Accept
                 <-> In (Upload.mimetype file) Upload.allowedTypes).
  { unfold Upload.fileFilter. split.
    - destruct (Upload.mimetype file =? "image/svg+xml")%string; [discriminate|].
      destruct (Server.member (Upload.mimetype file) Upload.allowedTypes) eqn:E;
        [|discriminate].
      intros _. apply ServerFacts.member_In, E.
    - intros Hin. pose proof Hin as Hmem. apply ServerFacts.member_In in Hmem.
      rewrite Hmem.
      destruct (Upload.mimetype file =? "image/svg+xml")%string eqn:E; [|reflexivity].
      apply String.eqb_eq in E. rewrite E in Hin.
      repeat (destruct Hin as [Hin|Hin]; [discriminate|]). destruct Hin. }
  split; [exact Hiff|].
  intros Hacc. apply Hiff in Hacc. unfold Upload.typeOf.
  unfold Upload.allowedTypes in Hacc.
  repeat (destruct Hacc as [Hacc|Hacc];
          [rewrite <- Hacc; cbn; tauto|]).
  destruct Hacc.
Qed.

(** X10.  [serveUpload] looks a file up under the base name of the requested
    name only: the name joined to the upload directory never contains a path
    separator, it is the requested name itself when that has none, and the
    file is sent exactly when that path exists. *)
Theorem serveUpload_base_name_only
        (uploadDir : string) (pathJoin : string -> string -> string)
        (existsSync : string -> bool) (name : string) :
  let safeName := Upload.basename name in
  JS.includes safeName "/" = false /\
  (JS.includes name "/" = false -> safeName = name) /\
  match Upload.serveUpload uploadDir pathJoin existsSync name with
  | Upload.SendFile filepath =>
      filepath = pathJoin uploadDir safeName /\ existsSync filepath = true
  | Upload.NotFound => existsSync (pathJoin uploadDir safeName) = false
  end.
Proof.
  cbv zeta. repeat split.
  - rewrite UploadFacts.includes_slash. unfold Upload.basename.
    rewrite list_ascii_of_string_of_list_ascii, UploadFacts.existsb_rev.
    apply UploadFacts.takeSegment_no_slash.
  - rewrite UploadFacts.includes_slash. intros H. unfold Upload.basename.
    rewrite <- UploadFacts.existsb_rev in H.
    destruct (UploadFacts.no_slash_kept _ H) as (-> & ->).
    rewrite rev_involutive. apply string_of_list_ascii_of_string.
  - unfold Upload.serveUpload.
    destruct (existsSync (pathJoin uploadDir (Upload.basename name))) eqn:E; auto.
Qed.

(** ** The chat thread: grouping by day *)

Module GroupingFacts.
Import ChatThread.

Section WithDays.
Variable startOfDay : Z -> Z.

(** What the loop keeps true of [groupedMessages] after the messages [seen]. *)
Local Abbreviation invariant seen groups :=
  (List.concat (map msgs groups) = seen /\
   Forall (fun g => exists m rest, msgs g = m :: rest
                                   /\ date g = ChatMessage.createdAt m) groups /\
   Forall (fun g => Forall (fun m => startOfDay (ChatMessage.createdAt m)
                                     = startOfDay (date g)) (msgs g)) groups /\
   distinctNeighbours (map (fun g => startOfDay (date g)) groups)).

Lemma distinctNeighbours_snoc (days : list Z) (a b : Z) :
  distinctNeighbours (days ++ [a]) -> a <> b ->
  distinctNeighbours ((days ++ [a]) ++ [b]).
Proof.
  induction days as [|d days IH]; intros H Hab.
  - simpl. auto.
  - destruct days as [|d' days'].
    + simpl in *. tauto.
    + simpl in H. destruct H as (Hd & H). specialize (IH H Hab).
      simpl. split; [exact Hd | exact IH].
Qed.

Lemma pushMessage_keeps seen groups msg :
  invariant seen groups ->
  invariant (seen ++ [msg]) (pushMessage startOfDay groups msg).
Proof.
  intros (Hflat & Hfirst & Hday & Hnb). unfold pushMessage.
  destruct (rev groups) as [|lastGroup before] eqn:Hrev.
  - assert (groups = []) by (apply (f_equal (@rev _)) in Hrev;
                             rewrite rev_involutive in Hrev; exact Hrev).
    subst groups. simpl in Hflat. subst seen. simpl. repeat split.
    + repeat constructor. eexists _, _. split; reflexivity.
    + repeat constructor.
  - assert (Hg : groups = rev before ++ [lastGroup])
      by (apply (f_equal (@rev _)) in Hrev; rewrite rev_involutive in Hrev; exact Hrev).
    rewrite Hg in *. clear Hrev Hg.
    rewrite map_app, concat_app in Hflat. simpl in Hflat. rewrite app_nil_r in Hflat.
    apply Forall_app in Hfirst, Hday. destruct Hfirst as (Hf1 & Hf2), Hday as (Hd1 & Hd2).
    inversion Hf2 as [|? ? (m0 & rest0 & Hm0 & Hdate) _]; subst.
    inversion Hd2 as [|? ? Hlast _]; subst.
    unfold isSameDay.
    destruct (startOfDay (date lastGroup) =? startOfDay (ChatMessage.createdAt msg))
      eqn:Hsame.
    + apply Z.eqb_eq in Hsame. split; [|split; [|split]].
      * rewrite map_app, concat_app. simpl. rewrite app_nil_r, app_assoc. reflexivity.
      * apply Forall_app. split; [exact Hf1|]. repeat constructor.
        exists m0, (rest0 ++ [msg]). cbn [msgs date]. rewrite Hm0. split; [reflexivity|].
        exact Hdate.
      * apply Forall_app. split; [exact Hd1|]. repeat constructor.
        cbn [msgs date]. apply Forall_app. split; [exact Hlast|].
        repeat constructor. symmetry. exact Hsame.
      * rewrite map_app in *. exact Hnb.
    + apply Z.eqb_neq in Hsame. split; [|split; [|split]].
      * rewrite !map_app, !concat_app. simpl. rewrite !app_nil_r. reflexivity.
      * apply Forall_app. split; [apply Forall_app; split; assumption|].
        repeat constructor. eexists _, _. split; reflexivity.
      * apply Forall_app. split; [apply Forall_app; split; assumption|].
        repeat constructor.
      * rewrite !map_app in *. cbn [map] in *.
        apply distinctNeighbours_snoc; assumption.
Qed.

Lemma groupMessages_invariant (messages : list ChatMessage.t) :
  invariant messages (groupMessages startOfDay messages).
Proof.
  unfold groupMessages.
  induction messages as [|msg messages IH] using rev_ind.
  - simpl. auto.
  - rewrite fold_left_app. cbn [fold_left]. apply pushMessage_keeps, IH.
Qed.

End WithDays.
End GroupingFacts.

(** X11.  The grouping of the chat thread loses and reorders nothing: the
    groups, one after the other, are the messages.  Every group has a first
    message, whose date is the date of the group; all the messages of a
    group are of the day of the group; and two groups that follow each other
    are of different days. *)
Theorem groupMessages_partitions_by_day
        (startOfDay : Z -> Z) (messages : list ChatMessage.t) :
  let groups := ChatThread.groupMessages startOfDay messages in
  List.concat (map ChatThread.msgs groups) = messages /\
  Forall (fun g => exists m rest,
              ChatThread.msgs g = m :: rest
              /\ ChatThread.date g = ChatMessage.createdAt m) groups /\
  Forall (fun g => Forall (fun m => startOfDay (ChatMessage.createdAt m)
                                    = startOfDay (ChatThread.date g))
                          (ChatThread.msgs g)) groups /\
  distinctNeighbours (map (fun g => startOfDay (ChatThread.date g)) groups).
Proof.
  exact (GroupingFacts.groupMessages_invariant startOfDay messages).
Qed.

(** ** Quick replies: what the client sends and what the router accepts *)

Module QuickReplyFacts.

Lemma parseAttachments_snoc_bad (l : list AttachmentInput.t) (a : AttachmentInput.t) :
  Templates.parseAttachment a = None -> Templates.parseAttachments (l ++ [a]) = None.
Proof.
  intros Ha. induction l as [|b l IH]; simpl.
  - rewrite Ha. reflexivity.
  - rewrite IH. destruct (Templates.parseAttachment b); reflexivity.
Qed.

(** The attachment built from an upload answer has neither [name] nor
    [type]: the answer has no [originalname] and no [mimetype]. *)
Lemma attachmentOf_unnamed (uploaded : Upload.UploadedFile) :
  Templates.parseAttachment (ChatQuickReplies.attachmentOf uploaded) = None.
Proof. reflexivity. Qed.

End QuickReplyFacts.

(** X12.  An attachment added through the upload of the quick-reply dialog
    makes the template unsavable: [handleFileUpload] reads the name and the
    MIME type from properties ([originalname], [mimetype]) that the answer of
    [handleUpload] does not have, so whatever [handleSave] sends afterwards,
    to [create] or to [update], is rejected as a bad input and the table is
    left as it was. *)
Theorem uploaded_attachment_is_rejected
        (files : list Upload.File) (name content : string)
        (attachments : list AttachmentInput.t) (editing : option Z)
        (now : Z) (db : option (list Template.t)) :
  files <> [] ->
  let response := Upload.handleUpload (Some files) in
  let form := ChatQuickReplies.mkForm
                name content
                (ChatQuickReplies.handleFileUpload response attachments) editing in
  match ChatQuickReplies.handleSave form with
  | ChatQuickReplies.CreateMutation input =>
      Templates.create input now db = (BadRequest, db)
  | ChatQuickReplies.UpdateMutation input =>
      Templates.update input db = (BadRequest, db)
  | ChatQuickReplies.ToastError _ => name = "" \/ content = ""
  end.
Proof.
  intros Hfiles. destruct files as [|file files]; [congruence|].
  cbv zeta. unfold ChatQuickReplies.handleSave.
  cbn [ChatQuickReplies.name ChatQuickReplies.content ChatQuickReplies.editing
       ChatQuickReplies.attachments].
  destruct (name =? "")%string eqn:Hn.
  { left. apply String.eqb_eq, Hn. }
  destruct (content =? "")%string eqn:Hc.
  { right. apply String.eqb_eq, Hc. }
  cbn [orb Upload.handleUpload map ChatQuickReplies.handleFileUpload].
  pose proof (QuickReplyFacts.parseAttachments_snoc_bad attachments _
                (QuickReplyFacts.attachmentOf_unnamed
                   (Upload.mkUploadedFile (Upload.originalname file)
                      ("/api/uploads/" ++ Upload.filename file)%string
                      (Upload.typeOf file) (Upload.size file)))) as Hbad.
  destruct editing as [id|].
  - unfold Templates.update.
    cbn [UpdateInput.id UpdateInput.attachments Templates.parseOptionalAttachments].
    rewrite Hbad. reflexivity.
  - unfold Templates.create.
    cbn [CreateInput.name CreateInput.content CreateInput.type CreateInput.attachments
         Templates.parseOptionalAttachments].
    rewrite Hbad.
    destruct (Templates.parseNonEmpty (Some name));
      destruct (Templates.parseNonEmpty (Some content));
      destruct (Templates.parseType (Some "whatsapp")); reflexivity.
Qed.

Lemma uploaded_attachment_is_rejected_witness :
  Templates.create
    (CreateInput.mk (Some "Catalogo") (Some "Te envio el catalogo") (Some "whatsapp") None
       (Some (ChatQuickReplies.handleFileUpload
                (Upload.handleUpload (Some [UploadExamples.photo])) [])))
    50 (Some TemplateExamples.table)
  = (BadRequest, Some TemplateExamples.table).
Proof.
  exact (uploaded_attachment_is_rejected [UploadExamples.photo] "Catalogo"
           "Te envio el catalogo" [] None 50 (Some TemplateExamples.table)
           ltac:(discriminate)).
Defined.

(** X13.  Without such an attachment the check of [handleSave] is enough for
    the router: when the attachments of the form are well formed (as those
    loaded from a stored template are) and the database is there, what
    [handleSave] sends is accepted.  A new template is stored with the name
    and content of the form, and always as a [whatsapp] template. *)
Theorem handleSave_is_accepted
        (form : ChatQuickReplies.Form) (atts : list Attachment.t)
        (now : Z) (rows : list Template.t) :
  Templates.parseAttachments (ChatQuickReplies.attachments form) = Some atts ->
  match ChatQuickReplies.handleSave form with
  | ChatQuickReplies.CreateMutation input =>
      exists row,
        Templates.create input now (Some rows) = (Ok true, Some (rows ++ [row])) /\
        Template.name row = ChatQuickReplies.name form /\
        Template.content row = ChatQuickReplies.content form /\
        Template.type row = whatsapp /\
        Template.attachments row = Some atts
  | ChatQuickReplies.UpdateMutation input =>
      exists rows', Templates.update input (Some rows) = (Ok true, Some rows')
  | ChatQuickReplies.ToastError _ =>
      ChatQuickReplies.name form = "" \/ ChatQuickReplies.content form = ""
  end.
Proof.
  intros Hatts. unfold ChatQuickReplies.handleSave.
  destruct (ChatQuickReplies.name form =? "")%string eqn:Hn.
  { left. apply String.eqb_eq, Hn. }
  destruct (ChatQuickReplies.content form =? "")%string eqn:Hc.
  { right. apply String.eqb_eq, Hc. }
  cbn [orb]. destruct (ChatQuickReplies.editing form) as [id|].
  - unfold Templates.update.
    cbn [UpdateInput.id UpdateInput.attachments Templates.parseOptionalAttachments].
    rewrite Hatts. eexists. reflexivity.
  - unfold Templates.create.
    cbn [CreateInput.name CreateInput.content CreateInput.type CreateInput.attachments
         CreateInput.variables Templates.parseOptionalAttachments Templates.parseNonEmpty].
    rewrite Hn, Hc, Hatts. cbn. eexists. split; [reflexivity|]. repeat split.
Qed.

Lemma handleSave_is_accepted_witness :
  exists row,
    Templates.create
      (CreateInput.mk (Some "Catalogo") (Some "Te envio el catalogo") (Some "whatsapp")
                      None (Some []))
      50 (Some TemplateExamples.table)
    = (Ok true, Some (TemplateExamples.table ++ [row])) /\
    Template.type row = whatsapp.
Proof.
  destruct (handleSave_is_accepted (UploadExamples.form []) [] 50 TemplateExamples.table
              eq_refl) as (row & H1 & _ & _ & H2 & _).
  exists row. split; [exact H1 | exact H2].
Defined.

(** X14.  The quick-reply list shows whatsapp templates only, whatever the
    search term, and with an empty search term it shows every whatsapp
    template, in the order received. *)
Theorem whatsappTemplates_search
        (toLowerCase : string -> string) (templates : list Template.t) :
  toLowerCase "" = "" ->
  ChatQuickReplies.whatsappTemplates toLowerCase (Some templates) ""
  = filter (fun t => match Template.type t with whatsapp => true | email => false end)
           templates /\
  forall searchTerm t,
    In t (ChatQuickReplies.whatsappTemplates toLowerCase (Some templates) searchTerm) ->
    In t templates /\ Template.type t = whatsapp.
Proof.
  intros Hempty. split.
  - unfold ChatQuickReplies.whatsappTemplates. rewrite Hempty.
    apply TemplatesFacts.filter_keep_all. intros t _.
    assert (Hinc : forall s, JS.includes s "" = true)
      by (intros s; destruct s; reflexivity).
    rewrite Hinc. reflexivity.
  - intros searchTerm t Hin. unfold ChatQuickReplies.whatsappTemplates in Hin.
    apply filter_In in Hin. destruct Hin as (Hin & _).
    apply filter_In in Hin. destruct Hin as (Hin & Hty).
    split; [exact Hin|]. destruct (Template.type t); [reflexivity | discriminate].
Qed.

Lemma whatsappTemplates_search_witness :
  ChatQuickReplies.whatsappTemplates (fun s => s) (Some TemplateExamples.table) ""
  = TemplateExamples.table.
Proof.
  exact (proj1 (whatsappTemplates_search (fun s => s) TemplateExamples.table eq_refl)).
Defined.

(** ** The webhook: rejected and unroutable deliveries, status events *)

Module IngestFacts.
Import Webhook Ledger.

Lemma Forall2_updateWhere {A} (P : A -> A -> Prop) (q : A -> bool) (f : A -> A)
      (l : list A) :
  (forall x, P x x) -> (forall x, P x (f x)) -> Forall2 P l (updateWhere q f l).
Proof.
  intros Hrefl Hf. induction l as [|a l IH]; simpl; constructor; [|exact IH].
  destruct (q a); auto.
Qed.

Lemma movedByAtMostOne_refl c : movedByAtMostOne c c.
Proof. unfold movedByAtMostOne. repeat split; lia. Qed.

(** The roll-up of one event moves every campaign by at most one per
    counter. *)
Lemma trackCampaign_counters rec status now db :
  Forall2 movedByAtMostOne (campaigns db) (campaigns (trackCampaign rec status now db)).
Proof.
  assert (Hsame : Forall2 movedByAtMostOne (campaigns db) (campaigns db))
    by (induction (campaigns db); constructor; auto using movedByAtMostOne_refl).
  unfold trackCampaign.
  repeat match goal with
         | |- context [if ?c then _ else _] => destruct c
         end; try exact Hsame;
    rewrite ?StatusFacts.campaigns_updateCampaign, ?StatusFacts.campaigns_updateRecipient.
  - apply Forall2_updateWhere; [apply movedByAtMostOne_refl|].
    intros c. unfold movedByAtMostOne. cbn. repeat split; lia.
  - rewrite StatusFacts.updateWhere_compose by reflexivity.
    apply Forall2_updateWhere; [apply movedByAtMostOne_refl|].
    intros c. unfold movedByAtMostOne. cbn. repeat split; lia.
  - apply Forall2_updateWhere; [apply movedByAtMostOne_refl|].
    intros c. unfold movedByAtMostOne. cbn. repeat split; lia.
  - apply Forall2_updateWhere; [apply movedByAtMostOne_refl|].
    intros c. unfold movedByAtMostOne. cbn. repeat split; lia.
Qed.

Lemma fixedColumns_apply patch m :
  fixedColumns (ChatMessage.apply patch m) = fixedColumns m.
Proof. reflexivity. Qed.

(** What a status event does to the chat messages: rows that carry its
    message id get its patch, the others are left as they are. *)
Lemma handleStatus_rows now st db :
  exists patch,
    chatMessages (handleStatus now st db)
    = updateWhere (fun m => optString_eqb (ChatMessage.whatsappMessageId m)
                                          (JS.nullish (Cloud.id_ st) "")
                            && negb (JS.nullish (Cloud.id_ st) "" =? "")%string)
                  (ChatMessage.apply patch) (chatMessages db).
Proof.
  unfold handleStatus.
  destruct (JS.nullish (Cloud.id_ st) "" =? "")%string eqn:Hid.
  - exists ChatMessage.emptyPatch. symmetry.
    unfold updateWhere. rewrite <- (map_id (chatMessages db)) at 2.
    apply map_ext. intros m. rewrite andb_false_r. reflexivity.
  - set (status := JS.nullish (Cloud.status st) "").
    exists (statusPatch status now).
    match goal with
    | |- context [findRecipient ?d ?i] =>
        destruct (findRecipient d i) as [rec|];
        [rewrite (proj1 (StatusFacts.trackCampaign_frame rec status now d))|]
    end;
      (destruct (ChatMessage.hasKeys (statusPatch status now)) eqn:Hkeys;
       [cbn [chatMessages withChatMessages]; apply map_ext; intros m;
        rewrite andb_true_r; reflexivity
       |]);
      (unfold updateWhere; rewrite <- (map_id (chatMessages db)) at 1;
       apply map_ext; intros m;
       destruct (optString_eqb _ _ && _); [|reflexivity];
       destruct (statusPatch status now) as [[s|] [a|] [b|] [c|]];
       try discriminate Hkeys; destruct m; reflexivity).
Qed.

End IngestFacts.

(** X15.  A delivery that cannot be verified changes nothing: with an app
    secret configured, a request without the signature header, or without a
    raw body, is answered 401 and the database is left as it was, whatever
    the payload. *)
Theorem unsigned_request_is_rejected
        (rt : Runtime) (env : Env) (req : Request) (now : Z) (db : Db) (secret : string) :
  whatsappAppSecret env = Some secret ->
  secret <> "" ->
  x_hub_signature_256 req = None \/ rawBody req = None ->
  Webhook.postWebhook rt env req now db = (db, 401).
Proof.
  intros Hsecret Hne Hmissing. unfold Webhook.postWebhook.
  assert (Hv : Webhook.verifySignature rt env req = false).
  { unfold Webhook.verifySignature. rewrite Hsecret.
    apply String.eqb_neq in Hne. rewrite Hne.
    destruct Hmissing as [H|H]; rewrite H; [reflexivity|].
    destruct (JS.startsWith _ _); reflexivity. }
  rewrite Hv. reflexivity.
Qed.

Lemma unsigned_request_is_rejected_witness :
  Webhook.postWebhook Fixtures.rt0 Fixtures.envSecret ApiExamples.hola 900
                      Fixtures.connected
  = (Fixtures.connected, 401).
Proof.
  exact (unsigned_request_is_rejected Fixtures.rt0 Fixtures.envSecret ApiExamples.hola
           900 Fixtures.connected "s3cret" eq_refl ltac:(discriminate)
           (or_introl eq_refl)).
Defined.

(** X16.  Changes that cannot be routed are skipped whole.  When no change of
    a verified delivery names a phone number id of a connected number, the
    delivery is answered 200 and the database is left as it was: neither the
    status updates nor the messages of such a change are applied. *)
Theorem unroutable_changes_are_skipped
        (rt : Runtime) (env : Env) (req : Request) (now : Z) (db : Db) :
  Webhook.verifySignature rt env req = true ->
  Forall (fun entry => Forall (Ledger.unroutable db) (Cloud.changes entry))
         (Cloud.entry (body req)) ->
  Webhook.postWebhook rt env req now db = (db, 200).
Proof.
  intros Hv Hall. unfold Webhook.postWebhook. rewrite Hv. cbn [negb]. f_equal.
  induction (Cloud.entry (body req)) as [|entry entries IH]; [reflexivity|].
  inversion Hall as [|? ? Hentry Hrest]; subst. cbn [fold_left].
  assert (Hskip : fold_left (fun d change => Webhook.handleChange rt now change d)
                            (Cloud.changes entry) db = db).
  { clear -Hentry. induction (Cloud.changes entry) as [|change changes IHc];
      [reflexivity|].
    inversion Hentry as [|? ? Hchange Hrest]; subst. cbn [fold_left].
    assert (Hone : Webhook.handleChange rt now change db = db).
    { unfold Webhook.handleChange. destruct Hchange as [H|[H|H]]; rewrite H;
        [reflexivity | |]; destruct (JS.truthy _); reflexivity. }
    rewrite Hone. apply IHc, Hrest. }
  rewrite Hskip. apply IH, Hrest.
Qed.

Lemma unroutable_changes_are_skipped_witness :
  Webhook.postWebhook Fixtures.rt0 Fixtures.envNoSecret ApiExamples.hola 900
                      Fixtures.emptyDb
  = (Fixtures.emptyDb, 200).
Proof.
  apply (unroutable_changes_are_skipped Fixtures.rt0 Fixtures.envNoSecret
           ApiExamples.hola 900 Fixtures.emptyDb eq_refl).
  apply Forall_cons; [|apply Forall_nil].
  apply Forall_cons; [|apply Forall_nil].
  right. left. reflexivity.
Defined.

(** X17.  A status event only stamps existing chat messages: no row is
    added, removed or moved, every row keeps all its columns other than the
    status and its timestamps, rows that carry another message id are left
    exactly as they were, and neither leads nor conversations are touched. *)
Theorem status_event_only_stamps (now : Z) (st : Cloud.Status) (db : Db) :
  let db' := Webhook.handleStatus now st db in
  map Ledger.fixedColumns (chatMessages db') = map Ledger.fixedColumns (chatMessages db) /\
  (forall m, In m (chatMessages db) ->
             ChatMessage.whatsappMessageId m <> Cloud.id_ st ->
             In m (chatMessages db')) /\
  conversations db' = conversations db /\
  leads db' = leads db.
Proof.
  cbv zeta. destruct (IngestFacts.handleStatus_rows now st db) as (patch & Hrows).
  rewrite Hrows. repeat split.
  - unfold updateWhere. rewrite map_map. apply map_ext. intros m.
    destruct (_ && _); reflexivity.
  - intros m Hin Hother. unfold updateWhere. apply in_map_iff. exists m.
    split; [|exact Hin].
    destruct (optString_eqb (ChatMessage.whatsappMessageId m)
                            (JS.nullish (Cloud.id_ st) "")) eqn:E; [|reflexivity].
    destruct (ChatMessage.whatsappMessageId m) as [w|]; [|discriminate].
    apply String.eqb_eq in E. subst w.
    destruct (Cloud.id_ st) as [i|]; cbn [JS.nullish] in *.
    + congruence.
    + rewrite andb_false_r. reflexivity.
  - apply (WebhookFacts.handleStatus_frame now st db).
  - unfold Webhook.handleStatus.
    destruct (JS.nullish (Cloud.id_ st) "" =? "")%string; [reflexivity|].
    match goal with
    | |- context [Webhook.findRecipient ?d ?i] =>
        destruct (Webhook.findRecipient d i) as [rec|];
        [destruct (StatusFacts.trackCampaign_frame
                     rec (JS.nullish (Cloud.status st) "") now d) as (_ & _ & Hl & _);
         rewrite Hl|]
    end; destruct (ChatMessage.hasKeys _); reflexivity.
Qed.

(** X18.  Status events the handler does not know are ignored: an event
    without a message id, or whose status is none of [sent], [delivered],
    [read], [failed], leaves the whole database as it was. *)
Theorem unknown_status_is_ignored (now : Z) (st : Cloud.Status) (db : Db) :
  let status := JS.nullish (Cloud.status st) "" in
  JS.truthy (Cloud.id_ st) = false \/
  ~ In status ["sent"; "delivered"; "read"; "failed"] ->
  Webhook.handleStatus now st db = db.
Proof.
  cbv zeta. intros [Hid|Hstatus]; unfold Webhook.handleStatus.
  - destruct (Cloud.id_ st) as [i|]; [|reflexivity]. cbn in Hid |- *.
    destruct (i =? "")%string; [reflexivity | discriminate].
  - destruct (JS.nullish (Cloud.id_ st) "" =? "")%string; [reflexivity|].
    set (status := JS.nullish (Cloud.status st) "") in *.
    assert (Hs : (status =? "sent")%string = false) by
      (apply String.eqb_neq; intros E; apply Hstatus; rewrite E; simpl; tauto).
    assert (Hd : (status =? "delivered")%string = false) by
      (apply String.eqb_neq; intros E; apply Hstatus; rewrite E; simpl; tauto).
    assert (Hr : (status =? "read")%string = false) by
      (apply String.eqb_neq; intros E; apply Hstatus; rewrite E; simpl; tauto).
    assert (Hf : (status =? "failed")%string = false) by
      (apply String.eqb_neq; intros E; apply Hstatus; rewrite E; simpl; tauto).
    unfold Webhook.statusPatch. rewrite Hs, Hd, Hr, Hf. cbn [ChatMessage.hasKeys
      ChatMessage.emptyPatch ChatMessage.setStatus ChatMessage.setSentAt
      ChatMessage.setDeliveredAt ChatMessage.setReadAt].
    destruct (Webhook.findRecipient db _) as [rec|]; [|reflexivity].
    unfold Webhook.trackCampaign. rewrite Hs, Hd, Hr, Hf. reflexivity.
Qed.

Lemma unknown_status_is_ignored_witness :
  Webhook.handleStatus 5 (StatusSpec.event "M1" "deleted") StatusExamples.db
  = StatusExamples.db.
Proof.
  apply (unknown_status_is_ignored 5 (StatusSpec.event "M1" "deleted") StatusExamples.db).
  right. simpl. intros [H|[H|[H|[H|[]]]]]; discriminate H.
Defined.

(** X19.  One status event moves each counter of each campaign by at most
    one and never down; no campaign row is added or removed. *)
Theorem status_event_moves_counters_by_one (now : Z) (st : Cloud.Status) (db : Db) :
  Forall2 Ledger.movedByAtMostOne (campaigns db)
          (campaigns (Webhook.handleStatus now st db)).
Proof.
  assert (Hsame : Forall2 Ledger.movedByAtMostOne (campaigns db) (campaigns db))
    by (induction (campaigns db); constructor;
        auto using IngestFacts.movedByAtMostOne_refl).
  unfold Webhook.handleStatus.
  destruct (JS.nullish (Cloud.id_ st) "" =? "")%string; [exact Hsame|].
  match goal with
  | |- context [Webhook.findRecipient ?d ?i] =>
      assert (Hc : campaigns d = campaigns db)
        by (destruct (ChatMessage.hasKeys _); reflexivity);
      destruct (Webhook.findRecipient d i) as [rec|];
      [rewrite <- Hc; apply IngestFacts.trackCampaign_counters
      | rewrite Hc; exact Hsame]
  end.
Qed.

Module RecipientFacts.

Lemma nextStatus_rank (status : string) (current : RecipientStatus) :
  status <> "failed" ->
  Ledger.rank current <= Ledger.rank (StatusSpec.nextStatus status current).
Proof.
  intros Hnf. unfold StatusSpec.nextStatus.
  destruct (status =? "delivered")%string; [destruct current; cbn; lia|].
  destruct (status =? "read")%string; [destruct current; cbn; lia|].
  destruct (status =? "failed")%string eqn:E;
    [apply String.eqb_eq in E; contradiction|].
  destruct (status =? "sent")%string; destruct current; cbn; lia.
Qed.

End RecipientFacts.

(** X20.  Unlike the chat message, the campaign recipient never goes back: a
    status event other than [failed] leaves the recipient linked to the
    message at least as far along pending, sent, delivered, read as it
    was. *)
Theorem recipient_never_regresses
        (now : Z) (msgId status : string) (db : Db) (rec : CampaignRecipient.t) :
  msgId <> "" ->
  status <> "failed" ->
  Webhook.findRecipient db msgId = Some rec ->
  exists rec',
    Webhook.findRecipient (Webhook.handleStatus now (StatusSpec.event msgId status) db)
                          msgId = Some rec' /\
    Ledger.rank (Webhook.currentStatus rec) <= Ledger.rank (Webhook.currentStatus rec').
Proof.
  intros Hne Hnf Hfind.
  destruct (StatusFacts.handleStatus_refines now msgId status db rec Hne Hfind)
    as ((rec' & Hfind' & _ & Hcur) & _).
  exists rec'. split; [exact Hfind'|].
  rewrite Hcur. apply RecipientFacts.nextStatus_rank, Hnf.
Qed.

Lemma recipient_never_regresses_witness :
  exists rec',
    Webhook.findRecipient
      (Webhook.handleStatus 2 (StatusSpec.event "M1" "sent")
         (Webhook.handleStatus 1 (StatusSpec.event "M1" "read") StatusExamples.db))
      "M1" = Some rec' /\
    3 <= Ledger.rank (Webhook.currentStatus rec').
Proof.
  exact (recipient_never_regresses 2 "M1" "sent"
           (Webhook.handleStatus 1 (StatusSpec.event "M1" "read") StatusExamples.db)
           (CampaignRecipient.mk 1 3 (Some "M1") (Some read) None None (Some 1) None)
           ltac:(discriminate) ltac:(discriminate) eq_refl).
Defined.

Module ChannelFacts.
Import Webhook Ledger.

Lemma find_updateWhere_none {A} (p q : A -> bool) (f : A -> A) (l : list A) :
  (forall x, p (f x) = p x) ->
  find p l = None -> find p (updateWhere q f l) = None.
Proof. intros Hf Hnone. rewrite find_updateWhere by exact Hf. rewrite Hnone. reflexivity. Qed.

Lemma handleStatus_keeps_fresh now st db waId :
  find (isQr waId) (chatMessages db) = None ->
  find (isQr waId) (chatMessages (handleStatus now st db)) = None.
Proof.
  intros Hnone. destruct (IngestFacts.handleStatus_rows now st db) as (patch & ->).
  apply find_updateWhere_none; [reflexivity | exact Hnone].
Qed.

Lemma messages_keep_fresh rt wid cid now msgs db waId :
  find (isQr waId) (chatMessages db) = None ->
  find (isQr waId)
       (chatMessages (fold_left (fun d m => handleMessage rt wid cid now m d) msgs db))
  = None.
Proof.
  revert db. induction msgs as [|m msgs IH]; intros db Hnone; [exact Hnone|].
  cbn [fold_left]. apply IH. unfold handleMessage. cbn [chatMessages withChatMessages].
  rewrite find_app_miss by exact Hnone. unfold isQr.
  cbn [ChatMessage.whatsappConnectionType ConnectionType_eqb].
  rewrite andb_false_r. reflexivity.
Qed.

(** Whatever a change stores on the cloud path, a provider message id that
    the QR path has not seen is still unseen afterwards. *)
Lemma handleChange_keeps_fresh rt now change db waId :
  MessageHandler.findExistingMessage db waId = None ->
  MessageHandler.findExistingMessage (handleChange rt now change db) waId = None.
Proof.
  unfold MessageHandler.findExistingMessage. fold (isQr waId). intros Hnone.
  unfold handleChange.
  destruct (negb (JS.truthy _)); [exact Hnone|].
  destruct (getWhatsappNumberIdByPhoneNumberId db _) as [wid|]; [|exact Hnone].
  destruct (wid =? 0); [exact Hnone|].
  set (dbS := fold_left _ (Cloud.statuses _) db).
  assert (HS : find (isQr waId) (chatMessages dbS) = None).
  { subst dbS. clear -Hnone. revert db Hnone.
    induction (Cloud.statuses (Cloud.value change)) as [|st sts IH]; intros db Hnone;
      [exact Hnone|].
    cbn [fold_left]. apply IH, handleStatus_keeps_fresh, Hnone. }
  unfold handleMessages.
  destruct (List.length _ =? 0)%nat; [exact HS|].
  destruct (contactPhone _ =? "")%string; [exact HS|].
  destruct (resolveConversation _ _ _ _ dbS) as [db1 cid] eqn:Hres.
  apply messages_keep_fresh.
  assert (Hsame : chatMessages db1 = chatMessages dbS).
  { unfold resolveConversation in Hres. destruct (_ =? 0) in Hres;
      injection Hres as <- _; reflexivity. }
  rewrite Hsame. exact HS.
Qed.

End ChannelFacts.

(** X21.  A provider message id that the webhook has stored does not keep
    the QR path from storing it.  The QR idempotency check looks at rows of
    connection type [qr] only, and the webhook never stores or turns a row
    into one: a message that is new to the QR path, with a timestamp that is
    a valid date, is stored by it even after the webhook has processed any
    change, one carrying the very same provider id included.  This holds for
    inserts only: a status event of the webhook addresses the rows by
    provider id alone and stamps the rows of both connection types. *)
Theorem provider_id_across_channels :
  (forall (rt : Runtime) (now1 now2 ts : Z) (change : Cloud.Change) (db : Db)
          (userId : Z) (message : Baileys.WAMessage) (upsertType : UpsertType)
          (jid : string),
      Baileys.remoteJid (Baileys.key message) = Some jid ->
      MessageHandler.skipped (Some jid) = false ->
      MessageHandler.findExistingMessage db (Baileys.id (Baileys.key message)) = None ->
      MessageHandler.timestampOf message now2 = Some ts ->
      let viaApi := Webhook.handleChange rt now1 change db in
      exists row,
        chatMessages
          (MessageHandler.handleIncomingMessage userId message upsertType now2 viaApi)
        = chatMessages viaApi ++ [row] /\
        ChatMessage.whatsappConnectionType row = qr /\
        ChatMessage.whatsappMessageId row = Some (Baileys.id (Baileys.key message))) /\
  (forall (now : Z) (msgId status : string) (db : Db) (row : ChatMessage.t),
      msgId <> "" ->
      ChatMessage.hasKeys (Webhook.statusPatch status now) = true ->
      In row (chatMessages db) ->
      ChatMessage.whatsappMessageId row = Some msgId ->
      In (ChatMessage.apply (Webhook.statusPatch status now) row)
         (chatMessages (Webhook.handleStatus now (StatusSpec.event msgId status) db))).
Proof.
  split.
  - intros rt now1 now2 ts change db userId message upsertType jid
           Hjid Hskip Hnew Hts viaApi.
    pose proof (ChannelFacts.handleChange_keeps_fresh rt now1 change db _ Hnew) as Hnew'.
    fold viaApi in Hnew'.
    destruct (MessageHandlerFacts.handleIncomingMessage_fresh
                userId message upsertType now2 viaApi jid ts Hjid Hskip Hnew' Hts)
      as (leadId & cid & _ & _ & _ & _ & Hm).
    eexists. split; [exact Hm|]. split; reflexivity.
  - intros now msgId status db row Hne Hkeys Hin Hid.
    rewrite (MessageStatusFacts.handleStatus_chatMessages now msgId status db Hne), Hkeys.
    unfold updateWhere. apply in_map_iff. exists row. split; [|exact Hin].
    unfold StatusSpec.linkedTo. rewrite Hid. cbn [optString_eqb].
    rewrite String.eqb_refl. reflexivity.
Qed.

(** The QR message [W1] is stored after the webhook has stored its own
    [W1]. *)
Lemma provider_id_across_channels_witness :
  exists row,
    chatMessages
      (MessageHandler.handleIncomingMessage 7
         (Fixtures.qrText "W1" LeadExamples.jid "hola" 1700000000) notify 20
         (Webhook.handleChange Fixtures.rt0 10
            (Fixtures.changeOf [] [Fixtures.cloudText "W1" "hola"]) Fixtures.connected))
    = chatMessages
        (Webhook.handleChange Fixtures.rt0 10
           (Fixtures.changeOf [] [Fixtures.cloudText "W1" "hola"]) Fixtures.connected)
      ++ [row] /\
    ChatMessage.whatsappConnectionType row = qr /\
    ChatMessage.whatsappMessageId row = Some "W1".
Proof.
  exact (proj1 provider_id_across_channels Fixtures.rt0 10 20 1700000000000
           (Fixtures.changeOf [] [Fixtures.cloudText "W1" "hola"]) Fixtures.connected
           7 (Fixtures.qrText "W1" LeadExamples.jid "hola" 1700000000) notify
           LeadExamples.jid eq_refl eq_refl eq_refl eq_refl).
Defined.

Module ApiConversationFacts.
Import Webhook.

Lemma resolveConversation_reads_conversations wid phone name now d1 d2 :
  conversations d1 = conversations d2 ->
  conversations (fst (resolveConversation wid phone name now d1))
  = conversations (fst (resolveConversation wid phone name now d2)).
Proof.
  intros Hsame. unfold resolveConversation, findConversation. rewrite Hsame.
  destruct (_ =? 0); reflexivity.
Qed.

(** The conversations after a routed change with messages are those after
    the find-or-create step. *)
Lemma handleChange_conversations rt now change db wid :
  let value := Cloud.value change in
  JS.truthy (Cloud.phone_number_id value) = true ->
  getWhatsappNumberIdByPhoneNumberId db (JS.nullish (Cloud.phone_number_id value) "")
  = Some wid ->
  wid <> 0 ->
  Cloud.messages value <> [] ->
  contactPhone value <> "" ->
  conversations (handleChange rt now change db)
  = conversations (fst (resolveConversation wid (contactPhone value) (contactName value)
                                            now db)).
Proof.
  intros value Htruthy Hroute Hwid Hmsgs Hphone.
  destruct (WebhookFacts.handleChange_routed rt now change db wid
              Htruthy Hroute Hwid Hmsgs Hphone) as (dbS & HcS & _ & Hrun).
  rewrite Hrun. subst value. cbv zeta.
  match goal with
  | |- context [fold_left _ ?msgs (fst ?r)] =>
      destruct (WebhookFacts.messages_loop rt wid (snd r) now msgs (fst r)) as (Hc & _)
  end.
  cbv zeta in Hc. rewrite Hc. apply resolveConversation_reads_conversations, HcS.
Qed.

Lemma handleStatus_connections now st db :
  whatsappConnections (handleStatus now st db) = whatsappConnections db.
Proof.
  unfold handleStatus.
  destruct (JS.nullish (Cloud.id_ st) "" =? "")%string; [reflexivity|].
  match goal with
  | |- context [findRecipient ?d ?i] =>
      destruct (findRecipient d i) as [rec|];
      [destruct (StatusFacts.trackCampaign_frame
                   rec (JS.nullish (Cloud.status st) "") now d) as (_ & _ & _ & Hw);
       rewrite Hw|]
  end; destruct (ChatMessage.hasKeys _); reflexivity.
Qed.

(** A change never touches the table of connections: routing is the same
    before and after. *)
Lemma handleChange_connections rt now change db :
  whatsappConnections (handleChange rt now change db) = whatsappConnections db.
Proof.
  unfold handleChange.
  destruct (negb (JS.truthy _)); [reflexivity|].
  destruct (getWhatsappNumberIdByPhoneNumberId db _) as [wid|]; [|reflexivity].
  destruct (wid =? 0); [reflexivity|].
  set (dbS := fold_left _ (Cloud.statuses _) db).
  assert (HS : whatsappConnections dbS = whatsappConnections db).
  { subst dbS. generalize db.
    induction (Cloud.statuses (Cloud.value change)) as [|st sts IH]; intros d;
      [reflexivity|].
    cbn [fold_left]. rewrite IH. apply handleStatus_connections. }
  unfold handleMessages.
  destruct (List.length _ =? 0)%nat; [exact HS|].
  destruct (contactPhone _ =? "")%string; [exact HS|].
  destruct (resolveConversation _ _ _ _ dbS) as [db1 cid] eqn:Hres.
  assert (H1 : whatsappConnections db1 = whatsappConnections dbS).
  { unfold resolveConversation in Hres. destruct (_ =? 0) in Hres;
      injection Hres as <- _; reflexivity. }
  rewrite <- HS, <- H1. generalize db1.
  induction (Cloud.messages (Cloud.value change)) as [|m msgs IH]; intros d;
    [reflexivity|].
  cbn [fold_left]. rewrite IH. reflexivity.
Qed.

Lemma updateWhere_fresh {A} (key : A -> Z) (f : A -> A) (rows : list A) (x : A) :
  key x = nextId (map key rows) ->
  updateWhere (fun r => key r =? key x) f (rows ++ [x]) = rows ++ [f x].
Proof.
  intros Hkey. unfold updateWhere. rewrite map_app. cbn [map]. rewrite Z.eqb_refl.
  f_equal. rewrite <- (map_id rows) at 2. apply map_ext_in. intros r Hr.
  pose proof (TemplatesFacts.nextId_fresh (map key rows) (key r) (in_map _ _ _ Hr)).
  destruct (key r =? key x) eqn:E; [|reflexivity].
  apply Z.eqb_eq in E. lia.
Qed.

Lemma nextId_positive (ids : list Z) : 0 < nextId ids.
Proof.
  unfold nextId. induction ids as [|a ids IH]; simpl; lia.
Qed.

End ApiConversationFacts.

(** X22.  On the cloud path a contact has one conversation.  Two routed
    changes from a contact that had none create a single conversation (the
    first one does, the second one finds it): it is the only row added, it
    is an [api] conversation, active, and after the second change its unread
    counter is 2 and its last activity is the time of the second change. *)
Theorem api_contact_has_one_conversation
        (rt : Runtime) (now1 now2 : Z) (change1 change2 : Cloud.Change) (db : Db)
        (wid : Z) (phone : string) :
  let routed change :=
    JS.truthy (Cloud.phone_number_id (Cloud.value change)) = true /\
    Webhook.getWhatsappNumberIdByPhoneNumberId
      db (JS.nullish (Cloud.phone_number_id (Cloud.value change)) "") = Some wid /\
    Cloud.messages (Cloud.value change) <> [] /\
    Webhook.contactPhone (Cloud.value change) = phone in
  routed change1 -> routed change2 ->
  wid <> 0 -> phone <> "" ->
  Webhook.findConversation db wid phone = None ->
  let db2 := Webhook.handleChange rt now2 change2
               (Webhook.handleChange rt now1 change1 db) in
  exists c,
    conversations db2 = conversations db ++ [c] /\
    Conversation.unreadCount c = 2 /\
    Conversation.lastMessageAt c = Some now2 /\
    Conversation.whatsappConnectionType c = Some api /\
    Conversation.contactPhone c = phone /\
    Conversation.status c = active.
Proof.
  cbv zeta. intros (Ht1 & Hr1 & Hm1 & Hp1) (Ht2 & Hr2 & Hm2 & Hp2) Hwid Hphone Hnone.
  set (db1 := Webhook.handleChange rt now1 change1 db).
  assert (Hc1 : conversations db1
                = conversations db
                  ++ [Conversation.mk (nextId (map Conversation.id (conversations db)))
                        "whatsapp" wid (Some api) None None phone
                        (Webhook.contactName (Cloud.value change1)) 1 (Some now1) active]).
  { subst db1.
    rewrite (ApiConversationFacts.handleChange_conversations rt now1 change1 db wid
               Ht1 Hr1 Hwid Hm1) by (rewrite Hp1; exact Hphone).
    rewrite Hp1. unfold Webhook.resolveConversation. rewrite Hnone.
    rewrite Z.eqb_refl. reflexivity. }
  set (c1 := Conversation.mk _ _ _ _ _ _ _ _ _ _ _) in Hc1.
  assert (Hroute : Webhook.getWhatsappNumberIdByPhoneNumberId
                     db1 (JS.nullish (Cloud.phone_number_id (Cloud.value change2)) "")
                   = Some wid).
  { unfold Webhook.getWhatsappNumberIdByPhoneNumberId in *. subst db1.
    rewrite ApiConversationFacts.handleChange_connections. exact Hr2. }
  rewrite (ApiConversationFacts.handleChange_conversations rt now2 change2 db1 wid
             Ht2 Hroute Hwid Hm2) by (rewrite Hp2; exact Hphone).
  rewrite Hp2. unfold Webhook.resolveConversation.
  assert (Hfind : Webhook.findConversation db1 wid phone = Some c1).
  { unfold Webhook.findConversation in *. rewrite Hc1.
    rewrite find_app_miss by exact Hnone. subst c1.
    cbn [Conversation.whatsappNumberId Conversation.contactPhone].
    rewrite Z.eqb_refl, String.eqb_refl. reflexivity. }
  rewrite Hfind.
  assert (Hid : (Conversation.id c1 =? 0) = false).
  { apply Z.eqb_neq. subst c1. cbn [Conversation.id].
    pose proof (ApiConversationFacts.nextId_positive
                  (map Conversation.id (conversations db))). lia. }
  rewrite Hid. cbn [fst conversations withConversations]. rewrite Hc1.
  rewrite (ApiConversationFacts.updateWhere_fresh Conversation.id) by reflexivity.
  eexists. split; [reflexivity|].
  subst c1. cbn. repeat split.
Qed.

Lemma api_contact_has_one_conversation_witness :
  exists c,
    conversations
      (Webhook.handleChange Fixtures.rt0 20
         (Fixtures.changeOf [] [Fixtures.cloudText "W2" "estas?"])
         (Webhook.handleChange Fixtures.rt0 10
            (Fixtures.changeOf [] [Fixtures.cloudText "W1" "hola"]) Fixtures.connected))
    = [c] /\
    Conversation.unreadCount c = 2.
Proof.
  pose proof (api_contact_has_one_conversation Fixtures.rt0 10 20
                (Fixtures.changeOf [] [Fixtures.cloudText "W1" "hola"])
                (Fixtures.changeOf [] [Fixtures.cloudText "W2" "estas?"])
                Fixtures.connected 7 "5491100000000") as H.
  cbv zeta in H.
  destruct H as (c & Hc & Hu & _).
  - repeat split. discriminate.
  - repeat split. discriminate.
  - discriminate.
  - discriminate.
  - reflexivity.
  - exists c. split; [exact Hc | exact Hu].
Defined.

(** ** The QR bridge: what a delivery can and cannot do *)

Module QrFacts.
Import MessageHandler.

Lemma orStr_nonempty (a : option string) (d : string) : d <> "" -> JS.orStr a d <> "".
Proof.
  intros Hd. unfold JS.orStr. destruct a as [s|]; [|exact Hd].
  destruct (s =? "")%string eqn:E; [exact Hd | apply String.eqb_neq, E].
Qed.

Lemma splitHead_local (local rest : string) (sep : ascii) :
  (forall c, In c (list_ascii_of_string local) -> c <> sep) ->
  JS.splitHead (local ++ String sep rest)%string sep = local.
Proof.
  induction local as [|c local IH]; intros Hno; cbn [String.append JS.splitHead].
  - rewrite Ascii.eqb_refl. reflexivity.
  - assert (Hc : Ascii.eqb c sep = false)
      by (apply Ascii.eqb_neq, Hno; left; reflexivity).
    rewrite Hc, IH; [reflexivity|]. intros c' Hc'. apply Hno. right. exact Hc'.
Qed.

Lemma splitHead_without (s : string) (sep : ascii) :
  ~ In sep (list_ascii_of_string (JS.splitHead s sep)).
Proof.
  induction s as [|c s IH]; cbn [JS.splitHead]; [intros []|].
  destruct (Ascii.eqb c sep) eqn:E; [intros []|].
  cbn [list_ascii_of_string]. intros [->|Hin]; [|exact (IH Hin)].
  rewrite Ascii.eqb_refl in E. discriminate.
Qed.

Lemma leadIdentity_set (v : option Z) (l : Lead.t) :
  Ledger.leadIdentity (Lead.setLastContactedAt v l) = Ledger.leadIdentity l.
Proof. reflexivity. Qed.

(** The outcomes of the lead step, with the id it returns. *)
Lemma resolveLead_cases message jid upsertType now db :
  match findLead db (phoneOf jid) with
  | Some lead =>
      snd (resolveLead message jid upsertType now db) = Some (Lead.id lead) /\
      conversations (fst (resolveLead message jid upsertType now db)) = conversations db /\
      leads (fst (resolveLead message jid upsertType now db))
      = match upsertType with
        | notify => updateWhere (fun l => Lead.id l =? Lead.id lead)
                                (Lead.setLastContactedAt (Some now)) (leads db)
        | append => leads db
        end
  | None =>
      match timestampOf message now with
      | Some ts =>
          exists lead,
            Lead.phone lead = phoneOf jid /\
            Lead.id lead = nextId (map Lead.id (leads db)) /\
            snd (resolveLead message jid upsertType now db) = Some (Lead.id lead) /\
            conversations (fst (resolveLead message jid upsertType now db))
            = conversations db /\
            leads (fst (resolveLead message jid upsertType now db)) = leads db ++ [lead]
      | None => resolveLead message jid upsertType now db = (db, None)
      end
  end.
Proof.
  unfold resolveLead. destruct (findLead db (phoneOf jid)) as [lead|].
  - destruct upsertType; cbn; repeat split.
  - destruct (defaultPlacement db) as [stageId nextOrder].
    destruct (timestampOf message now) as [ts|]; [|reflexivity].
    eexists. cbn [fst snd leads conversations withLeads].
    repeat split; reflexivity.
Qed.



End QrFacts.

(** X23.  On the QR path the ledger is append-only.  A delivery leaves the
    chat messages as they are (skipped identity, duplicate, or a step that
    throws) or adds one row at the end and changes no other.  The row added is of connection
    type [qr], carries the provider id, has a non-empty content, and its
    direction and status follow [fromMe]: outbound and sent without a
    delivery time, or inbound and delivered at the time it was sent. *)
Theorem qr_ledger_is_append_only
        (userId : Z) (message : Baileys.WAMessage) (upsertType : UpsertType)
        (now : Z) (db : Db) :
  let db' := MessageHandler.handleIncomingMessage userId message upsertType now db in
  chatMessages db' = chatMessages db \/
  exists row text,
    chatMessages db' = chatMessages db ++ [row] /\
    ChatMessage.whatsappConnectionType row = qr /\
    ChatMessage.whatsappMessageId row = Some (Baileys.id (Baileys.key message)) /\
    ChatMessage.content row = Some text /\ text <> "" /\
    if Baileys.fromMe (Baileys.key message)
    then ChatMessage.direction row = outbound /\ ChatMessage.status row = msgSent
         /\ ChatMessage.deliveredAt row = None
    else ChatMessage.direction row = inbound /\ ChatMessage.status row = msgDelivered
         /\ ChatMessage.deliveredAt row = ChatMessage.sentAt row.
Proof.
  cbv zeta.
  destruct (Baileys.remoteJid (Baileys.key message)) as [jid|] eqn:Hjid.
  2:{ left. unfold MessageHandler.handleIncomingMessage. rewrite Hjid. reflexivity. }
  destruct (MessageHandler.skipped (Some jid)) eqn:Hskip.
  { left. unfold MessageHandler.handleIncomingMessage. rewrite Hjid, Hskip. reflexivity. }
  destruct (MessageHandler.findExistingMessage db (Baileys.id (Baileys.key message)))
    eqn:Hdup.
  { left. unfold MessageHandler.handleIncomingMessage.
    rewrite Hjid, Hskip, Hdup. reflexivity. }
  destruct (MessageHandler.timestampOf message now) as [ts|] eqn:Hts.
  2:{ left. apply MessageHandlerFacts.handleIncomingMessage_invalid, Hts. }
  right.
  destruct (MessageHandlerFacts.handleIncomingMessage_fresh
              userId message upsertType now db jid ts Hjid Hskip Hdup Hts)
    as (leadId & cid & _ & _ & _ & _ & Hm).
  eexists _, (MessageHandler.textOf message). split; [exact Hm|].
  unfold MessageHandler.newChatMessage.
  cbn [ChatMessage.whatsappConnectionType ChatMessage.whatsappMessageId
       ChatMessage.content ChatMessage.direction ChatMessage.status
       ChatMessage.deliveredAt ChatMessage.sentAt].
  repeat split.
  - unfold MessageHandler.textOf. apply QrFacts.orStr_nonempty. discriminate.
  - destruct (Baileys.fromMe (Baileys.key message)); repeat split.
Qed.

(** X24.  The phone of a lead is the part of the remote identity before the
    first [@], with a plus sign in front: whatever follows the [@] plays no
    part, and the phone never contains an [@]. *)
Theorem phoneOf_local_part (local domain : string) :
  ~ In "@"%char (list_ascii_of_string local) ->
  MessageHandler.phoneOf (local ++ "@" ++ domain)%string = ("+" ++ local)%string /\
  forall jid, ~ In "@"%char (list_ascii_of_string (MessageHandler.phoneOf jid)).
Proof.
  intros Hno. split.
  - unfold MessageHandler.phoneOf. f_equal.
    apply (QrFacts.splitHead_local local domain "@"%char).
    intros c Hc ->. exact (Hno Hc).
  - intros jid. unfold MessageHandler.phoneOf. cbn [String.append list_ascii_of_string].
    intros [H|H]; [discriminate|]. exact (QrFacts.splitHead_without jid "@"%char H).
Qed.

Lemma phoneOf_local_part_witness :
  MessageHandler.phoneOf "5491100000000@s.whatsapp.net" = "+5491100000000".
Proof.
  refine (proj1 (phoneOf_local_part "5491100000000" "s.whatsapp.net" _)).
  cbn. intuition discriminate.
Defined.

(** X25.  A delivery on the QR path never removes, reorders or rewrites a
    lead: apart from [lastContactedAt], the leads afterwards are the leads
    before followed by at most one new lead.  A delivery replayed from
    history ([append]) leaves every existing lead exactly as it was. *)
Theorem qr_leads_are_kept
        (userId : Z) (message : Baileys.WAMessage) (upsertType : UpsertType)
        (now : Z) (db : Db) :
  let db' := MessageHandler.handleIncomingMessage userId message upsertType now db in
  exists added,
    (List.length added <= 1)%nat /\
    map Ledger.leadIdentity (leads db')
    = map Ledger.leadIdentity (leads db) ++ map Ledger.leadIdentity added /\
    (upsertType = append -> leads db' = leads db ++ added).
Proof.
  cbv zeta.
  assert (Hsame : forall d, d = db ->
            exists added, (List.length added <= 1)%nat /\
              map Ledger.leadIdentity (leads d)
              = map Ledger.leadIdentity (leads db) ++ map Ledger.leadIdentity added /\
              (upsertType = append -> leads d = leads db ++ added)).
  { intros d ->. exists []. simpl. rewrite !app_nil_r. auto. }
  destruct (Baileys.remoteJid (Baileys.key message)) as [jid|] eqn:Hjid.
  2:{ apply Hsame. unfold MessageHandler.handleIncomingMessage. rewrite Hjid. reflexivity. }
  destruct (MessageHandler.skipped (Some jid)) eqn:Hskip.
  { apply Hsame. unfold MessageHandler.handleIncomingMessage.
    rewrite Hjid, Hskip. reflexivity. }
  destruct (MessageHandler.findExistingMessage db (Baileys.id (Baileys.key message)))
    eqn:Hdup.
  { apply Hsame. unfold MessageHandler.handleIncomingMessage.
    rewrite Hjid, Hskip, Hdup. reflexivity. }
  rewrite (MessageHandlerFacts.handleIncomingMessage_leads
             userId message upsertType now db jid Hjid Hskip Hdup).
  pose proof (QrFacts.resolveLead_cases message jid upsertType now db) as Hcases.
  destruct (MessageHandler.findLead db (MessageHandler.phoneOf jid)) as [lead|].
  - destruct Hcases as (_ & _ & ->). exists []. simpl. rewrite !app_nil_r.
    split; [lia|]. destruct upsertType.
    + split; [reflexivity | reflexivity].
    + split; [|discriminate]. unfold updateWhere. rewrite map_map.
      apply map_ext. intros l. destruct (Lead.id l =? Lead.id lead); reflexivity.
  - destruct (MessageHandler.timestampOf message now) as [ts|].
    + destruct Hcases as (lead & _ & _ & _ & _ & ->). exists [lead].
      split; [simpl; lia|]. rewrite map_app. split; reflexivity.
    + rewrite Hcases. apply Hsame. reflexivity.
Qed.

Module QrConversationFacts.
Import MessageHandler.

Lemma ofChat_none_find (jid : string) (leadId userId : Z) (db : Db) :
  Ledger.ofChat jid (conversations db) = [] ->
  findConversation db leadId userId jid = None.
Proof.
  unfold Ledger.ofChat, findConversation.
  induction (conversations db) as [|c rows IH]; [reflexivity|].
  cbn [filter find].
  destruct (optString_eqb (Conversation.externalChatId c) jid); [discriminate|].
  rewrite andb_false_r. exact IH.
Qed.

(** The conversation step when the chat has no conversation yet and the
    timestamp is a valid date. *)
Lemma resolveConversation_new userId message jid upsertType leadId now db ts :
  findConversation db leadId userId jid = None ->
  timestampOf message now = Some ts ->
  conversations (fst (resolveConversation userId message jid upsertType leadId now db))
  = conversations db
    ++ [Conversation.mk (nextId (map Conversation.id (conversations db)))
          "whatsapp" userId (Some qr) (Some jid) (Some leadId) (phoneOf jid)
          (Some (contactNameOf message)) (Ledger.countsAsUnread upsertType message)
          (Some ts) active].
Proof. intros Hnone Hts. unfold resolveConversation. rewrite Hnone, Hts. reflexivity. Qed.

(** The conversation step when the conversation is the last row and was
    created by this handler. *)
Lemma resolveConversation_last userId message jid upsertType leadId now db rows c updates :
  conversations db = rows ++ [c] ->
  Conversation.id c = nextId (map Conversation.id rows) ->
  findConversation db leadId userId jid = Some c ->
  conversationUpdates c upsertType (Baileys.fromMe (Baileys.key message))
                      (timestampOf message now) now = Some updates ->
  conversations (fst (resolveConversation userId message jid upsertType leadId now db))
  = rows ++ [Conversation.apply updates c].
Proof.
  intros Hrows Hid Hfind Hupd. unfold resolveConversation. rewrite Hfind, Hupd.
  destruct (Conversation.hasKeys _) eqn:Hkeys.
  - cbn [fst conversations withConversations]. rewrite Hrows.
    apply (ApiConversationFacts.updateWhere_fresh Conversation.id), Hid.
  - cbn [fst]. rewrite Hrows, (MergeFacts.apply_no_keys _ _ Hkeys). reflexivity.
Qed.

End QrConversationFacts.

(** X26.  On the QR path a chat has one conversation.  Two distinct
    messages of a chat that had neither lead nor conversation, both with a
    timestamp that is a valid date, create one conversation, linked to the
    one lead: it is the only row added, it is active, its unread counter is
    the number of the two messages that are live and inbound, and its last
    activity is the time of the second delivery when that is live and
    inbound, and the later of the two message times otherwise. *)
Theorem qr_chat_has_one_conversation
        (userId : Z) (m1 m2 : Baileys.WAMessage) (t1 t2 : UpsertType)
        (now1 now2 ts1 ts2 : Z) (db : Db) (jid : string) :
  Baileys.remoteJid (Baileys.key m1) = Some jid ->
  Baileys.remoteJid (Baileys.key m2) = Some jid ->
  MessageHandler.skipped (Some jid) = false ->
  MessageHandler.findLead db (MessageHandler.phoneOf jid) = None ->
  Ledger.ofChat jid (conversations db) = [] ->
  MessageHandler.findExistingMessage db (Baileys.id (Baileys.key m1)) = None ->
  MessageHandler.findExistingMessage db (Baileys.id (Baileys.key m2)) = None ->
  Baileys.id (Baileys.key m1) <> Baileys.id (Baileys.key m2) ->
  MessageHandler.timestampOf m1 now1 = Some ts1 ->
  MessageHandler.timestampOf m2 now2 = Some ts2 ->
  let db2 := MessageHandler.handleIncomingMessage userId m2 t2 now2
               (MessageHandler.handleIncomingMessage userId m1 t1 now1 db) in
  exists conv lead,
    conversations db2 = conversations db ++ [conv] /\
    map Ledger.leadIdentity (leads db2)
    = map Ledger.leadIdentity (leads db ++ [lead]) /\
    Conversation.leadId conv = Some (Lead.id lead) /\
    Conversation.externalChatId conv = Some jid /\
    Conversation.status conv = active /\
    Conversation.unreadCount conv
    = Ledger.countsAsUnread t1 m1 + Ledger.countsAsUnread t2 m2 /\
    Conversation.lastMessageAt conv
    = Some (if Ledger.countsAsUnread t2 m2 =? 1 then now2 else Z.max ts1 ts2).
Proof.
  intros Hjid1 Hjid2 Hskip Hnolead Hnoconv Hnew1 Hnew2 Hdiff Hts1 Hts2. cbv zeta.
  set (db1 := MessageHandler.handleIncomingMessage userId m1 t1 now1 db).
  (* first delivery *)
  destruct (MessageHandlerFacts.handleIncomingMessage_fresh
              userId m1 t1 now1 db jid ts1 Hjid1 Hskip Hnew1 Hts1)
    as (leadId1 & cid1 & Hsnd1 & _ & Hl1 & Hc1 & Hm1).
  cbv zeta in Hsnd1, Hl1, Hc1, Hm1. fold db1 in Hl1, Hc1, Hm1.
  pose proof (QrFacts.resolveLead_cases m1 jid t1 now1 db) as Hlead1.
  rewrite Hnolead, Hts1 in Hlead1.
  destruct Hlead1 as (lead & Hphone & Hlid & Hsnd1' & Hconv1 & Hleads1).
  rewrite Hsnd1' in Hsnd1. injection Hsnd1 as <-.
  rewrite Hleads1 in Hl1.
  rewrite (QrConversationFacts.resolveConversation_new _ _ _ _ _ _ _ ts1) in Hc1
    by (try exact Hts1; apply QrConversationFacts.ofChat_none_find;
        rewrite Hconv1; exact Hnoconv).
  rewrite Hconv1 in Hc1.
  set (c1 := Conversation.mk _ _ _ _ _ _ _ _ _ _ _) in Hc1.
  (* second delivery *)
  assert (Hnew2' : MessageHandler.findExistingMessage db1 (Baileys.id (Baileys.key m2))
                   = None).
  { unfold MessageHandler.findExistingMessage in *. rewrite Hm1.
    rewrite find_app_miss by exact Hnew2. cbn.
    apply String.eqb_neq in Hdiff. rewrite Hdiff. reflexivity. }
  destruct (MessageHandlerFacts.handleIncomingMessage_fresh
              userId m2 t2 now2 db1 jid ts2 Hjid2 Hskip Hnew2' Hts2)
    as (leadId2 & cid2 & Hsnd2 & _ & Hl2 & Hc2 & _).
  cbv zeta in Hsnd2, Hl2, Hc2.
  pose proof (QrFacts.resolveLead_cases m2 jid t2 now2 db1) as Hlead2.
  assert (Hfound : MessageHandler.findLead db1 (MessageHandler.phoneOf jid) = Some lead).
  { unfold MessageHandler.findLead in *. rewrite Hl1.
    rewrite find_app_miss by exact Hnolead. rewrite Hphone, String.eqb_refl.
    reflexivity. }
  rewrite Hfound in Hlead2. destruct Hlead2 as (Hsnd2' & Hconv2 & Hleads2).
  rewrite Hsnd2' in Hsnd2. injection Hsnd2 as <-.
  destruct (MessageHandlerFacts.conversationUpdates_valid
              c1 t2 (Baileys.fromMe (Baileys.key m2)) ts2 now2) as (updates & Hupd).
  rewrite (QrConversationFacts.resolveConversation_last
             userId m2 jid t2 (Lead.id lead) now2 _ (conversations db) c1 updates) in Hc2.
  2:{ rewrite Hconv2. exact Hc1. }
  2:{ reflexivity. }
  2:{ unfold MessageHandler.findConversation. rewrite Hconv2, Hc1.
      rewrite find_app_miss
        by (apply (QrConversationFacts.ofChat_none_find jid (Lead.id lead) userId db),
            Hnoconv).
      subst c1. cbn [Conversation.leadId Conversation.whatsappNumberId
                     Conversation.channel Conversation.whatsappConnectionType
                     Conversation.externalChatId optZ_eqb optConn_eqb optString_eqb
                     ConnectionType_eqb].
      rewrite !Z.eqb_refl, !String.eqb_refl. reflexivity. }
  2:{ rewrite Hts2. exact Hupd. }
  exists (Conversation.apply updates c1), lead.
  split; [exact Hc2|]. split.
  { rewrite Hl2, Hleads2. destruct t2; [rewrite Hl1; reflexivity|].
    rewrite Hl1. unfold updateWhere. rewrite map_map. apply map_ext. intros l.
    destruct (Lead.id l =? Lead.id lead); reflexivity. }
  unfold Ledger.countsAsUnread at 2 3.
  destruct (UpsertType_eqb t2 notify && negb (Baileys.fromMe (Baileys.key m2))) eqn:Hlive.
  - apply andb_true_iff in Hlive. destruct Hlive as (Ht2 & Hfm).
    apply negb_true_iff in Hfm. destruct t2; [discriminate|]. rewrite Hfm in Hupd.
    cbn in Hupd. injection Hupd as <-.
    subst c1. cbn. repeat split.
  - assert (Hhist : t2 = append \/ Baileys.fromMe (Baileys.key m2) = true).
    { destruct t2; [left; reflexivity|]. right.
      destruct (Baileys.fromMe (Baileys.key m2)); [reflexivity | discriminate]. }
    destruct (MergeFacts.merge_history c1 t2 (Baileys.fromMe (Baileys.key m2))
                ts2 now2 Hhist) as (updates' & Hupd' & Hu & Hs & Hlast).
    rewrite Hupd in Hupd'. injection Hupd' as <-.
    cbv zeta in Hu, Hs, Hlast. rewrite Hu, Hs, Hlast.
    subst c1. cbn. rewrite Z.add_0_r. repeat split.
Qed.

Lemma qr_chat_has_one_conversation_witness :
  exists conv,
    conversations
      (MessageHandler.handleIncomingMessage 7 LeadExamples.second notify 20
         (MessageHandler.handleIncomingMessage 7 LeadExamples.first notify 10
            Fixtures.emptyDb))
    = [conv] /\
    Conversation.unreadCount conv = 2 /\
    Conversation.lastMessageAt conv = Some 20.
Proof.
  destruct (qr_chat_has_one_conversation 7 LeadExamples.first LeadExamples.second
              notify notify 10 20 1700000000000 1700000060000
              Fixtures.emptyDb LeadExamples.jid
              eq_refl eq_refl eq_refl eq_refl eq_refl eq_refl eq_refl
              ltac:(discriminate) eq_refl eq_refl)
    as (conv & lead & Hc & _ & _ & _ & _ & Hu & Hl).
  exists conv. split; [exact Hc|]. split; [exact Hu | exact Hl].
Defined.



(** ** The webhook: what a change can and cannot do to the ledger *)

Module ApiLedgerFacts.
Import Webhook.

Lemma statuses_fixedColumns now sts db :
  map Ledger.fixedColumns
      (chatMessages (fold_left (fun d st => handleStatus now st d) sts db))
  = map Ledger.fixedColumns (chatMessages db).
Proof.
  revert db. induction sts as [|st sts IH]; intros db; [reflexivity|].
  cbn [fold_left]. rewrite IH.
  destruct (IngestFacts.handleStatus_rows now st db) as (patch & ->).
  unfold updateWhere. rewrite map_map. apply map_ext. intros m.
  destruct (_ && _); reflexivity.
Qed.

Lemma messages_appended rt wid cid now msgs db :
  exists added,
    chatMessages (fold_left (fun d m => handleMessage rt wid cid now m d) msgs db)
    = chatMessages db ++ added /\
    List.length added = List.length msgs /\
    Forall (NormalizeSpec.insertedByWebhook now) added.
Proof.
  revert db. induction msgs as [|m msgs IH]; intros db.
  - exists []. rewrite app_nil_r. repeat split. constructor.
  - cbn [fold_left]. destruct (IH (handleMessage rt wid cid now m db))
      as (added & Hrows & Hlen & Hall).
    remember (fold_left _ msgs _) as final eqn:Hfinal. clear Hfinal.
    unfold handleMessage in Hrows. cbn [chatMessages withChatMessages] in Hrows.
    rewrite <- app_assoc in Hrows.
    eexists. split; [exact Hrows|]. split; [simpl; rewrite Hlen; reflexivity|].
    constructor; [|exact Hall]. repeat split.
Qed.

End ApiLedgerFacts.

(** X27.  On the cloud path too the ledger is append-only apart from the
    status stamps: whatever the change, every chat message stored before is
    still there, in place, with all its columns other than the status and
    its timestamps, and the rows added, none or one per message of the
    change, are inbound [api] rows delivered at the time of processing. *)
Theorem api_ledger_is_append_only
        (rt : Runtime) (now : Z) (change : Cloud.Change) (db : Db) :
  exists kept added,
    chatMessages (Webhook.handleChange rt now change db) = kept ++ added /\
    map Ledger.fixedColumns kept = map Ledger.fixedColumns (chatMessages db) /\
    Forall (NormalizeSpec.insertedByWebhook now) added /\
    (added = [] \/
     List.length added = List.length (Cloud.messages (Cloud.value change))).
Proof.
  assert (Hsame : forall d, chatMessages d = chatMessages db ->
            exists kept added,
              chatMessages d = kept ++ added /\
              map Ledger.fixedColumns kept = map Ledger.fixedColumns (chatMessages db) /\
              Forall (NormalizeSpec.insertedByWebhook now) added /\
              (added = [] \/
               List.length added = List.length (Cloud.messages (Cloud.value change)))).
  { intros d Hd. exists (chatMessages db), []. rewrite app_nil_r.
    repeat split; auto. }
  unfold Webhook.handleChange.
  destruct (negb (JS.truthy _)); [apply Hsame; reflexivity|].
  destruct (Webhook.getWhatsappNumberIdByPhoneNumberId db _) as [wid|];
    [|apply Hsame; reflexivity].
  destruct (wid =? 0); [apply Hsame; reflexivity|]. clear Hsame.
  set (dbS := fold_left _ (Cloud.statuses _) db).
  pose proof (ApiLedgerFacts.statuses_fixedColumns
                now (Cloud.statuses (Cloud.value change)) db) as HS.
  fold dbS in HS.
  assert (Hstop : exists kept added,
            chatMessages dbS = kept ++ added /\
            map Ledger.fixedColumns kept = map Ledger.fixedColumns (chatMessages db) /\
            Forall (NormalizeSpec.insertedByWebhook now) added /\
            (added = [] \/
             List.length added = List.length (Cloud.messages (Cloud.value change)))).
  { exists (chatMessages dbS), []. rewrite app_nil_r. repeat split; auto. }
  unfold Webhook.handleMessages.
  destruct (List.length _ =? 0)%nat; [exact Hstop|].
  destruct (Webhook.contactPhone _ =? "")%string; [exact Hstop|]. clear Hstop.
  destruct (Webhook.resolveConversation _ _ _ _ dbS) as [db1 cid] eqn:Hres.
  assert (H1 : chatMessages db1 = chatMessages dbS).
  { unfold Webhook.resolveConversation in Hres. destruct (_ =? 0) in Hres;
      injection Hres as <- _; reflexivity. }
  destruct (ApiLedgerFacts.messages_appended
              rt wid cid now (Cloud.messages (Cloud.value change)) db1)
    as (added & Hrows & Hlen & Hall).
  exists (chatMessages dbS), added. rewrite Hrows, H1. auto.
Qed.

(** X28.  The normalizer keeps the fields of a message apart: media fields
    are set only on a message of a media type, location fields only on a
    location, and the content of a text, media or location message is absent
    rather than empty. *)
Theorem normalize_field_discipline (rt : Runtime) (m : Cloud.Message) :
  let n := Webhook.normalize rt m in
  (NormalizeSpec.isMedia (Webhook.messageType n) = false ->
   Webhook.mediaUrl n = None /\ Webhook.mediaMimeType n = None) /\
  (Webhook.messageType n <> location ->
   Webhook.latitude n = None /\ Webhook.longitude n = None
   /\ Webhook.locationName n = None) /\
  Webhook.mediaUrl n <> Some "" /\ Webhook.mediaMimeType n <> Some "" /\
  (In (JS.nullish (Cloud.type m) "text")
      ["text"; "image"; "video"; "audio"; "document"; "sticker"; "location"] ->
   Webhook.content n <> Some "").
Proof.
  assert (Hstr : forall v, JS.strOrNull v <> Some "").
  { intros [s|]; unfold JS.strOrNull, JS.truthy; [|discriminate].
    destruct (s =? "")%string eqn:E; cbn [negb]; [discriminate|].
    apply String.eqb_neq in E. congruence. }
  cbv zeta. unfold Webhook.normalize.
  set (msgType := JS.nullish (Cloud.type m) "text").
  destruct (msgType =? "text")%string eqn:Ht.
  { cbn. repeat split; try discriminate; auto. }
  destruct ((msgType =? "image")%string || (msgType =? "video")%string
            || (msgType =? "audio")%string || (msgType =? "document")%string
            || (msgType =? "sticker")%string) eqn:Hmedia.
  { cbn [Webhook.messageType Webhook.mediaUrl Webhook.mediaMimeType Webhook.latitude
         Webhook.longitude Webhook.locationName Webhook.content].
    assert (Hm : NormalizeSpec.isMedia (Webhook.mediaMessageType msgType) = true).
    { unfold Webhook.mediaMessageType.
      destruct (msgType =? "image")%string; [reflexivity|].
      destruct (msgType =? "video")%string; [reflexivity|].
      destruct (msgType =? "audio")%string; [reflexivity|].
      destruct (msgType =? "document")%string; reflexivity. }
    repeat split; auto; congruence. }
  destruct (msgType =? "location")%string eqn:Hl.
  { cbn. repeat split; try discriminate; auto; try congruence. }
  repeat (apply orb_false_iff in Hmedia; destruct Hmedia as (Hmedia & ?)).
  assert (Hnone : ~ In msgType ["text"; "image"; "video"; "audio"; "document";
                                "sticker"; "location"]).
  { cbn [In]. intros Hin.
    repeat (destruct Hin as [Hin|Hin];
            [subst msgType; rewrite <- Hin in *; cbn in *; discriminate|]).
    exact Hin. }
  destruct (msgType =? "contacts")%string;
    cbn; repeat split; try discriminate; auto; try contradiction.
Qed.
